(** * Phoenix agent: a shallow embedding of [Phoenix/utils.py] and of the
    dependency probe of [benchmark-evals/orbital_eval/evaluate_custom.py].

    Python values are kept as a small value type, the objects of the OpenAI
    client as records, and every effect of the program (the model service,
    the data frame and SQL engines, the conversation list that is mutated in
    place, the span recorder) lives in an explicit state that is threaded
    through a state-and-exception monad. *)

From Stdlib Require Import Ascii String List Lia.
From stdpp Require Import base option list strings gmap.

Open Scope string_scope.
Set Warnings "-register-all".

(** ** Python values *)

(** The values that reach the agent from JSON payloads and from callers. *)
Inductive pyval :=
| VNone
| VBool (b : bool)
| VInt (z : Z)
| VFloat (literal : string)
| VStr (s : string)
| VList (l : list pyval)
| VDict (d : list (string * pyval)).

(** [d.get(k)] on a dictionary kept in insertion order. *)
Fixpoint dict_get (k : string) (d : list (string * pyval)) : option pyval :=
  match d with
  | [] => None
  | (k', v) :: d' => if String.eqb k' k then Some v else dict_get k d'
  end.

Definition dict_keys (d : list (string * pyval)) : list string := map fst d.

(** [v == s] for a string literal [s]: only a [str] can be equal to it. *)
Definition py_eq_str (v : option pyval) (s : string) : bool :=
  match v with
  | Some (VStr t) => String.eqb t s
  | _ => false
  end.

(** ** Exceptions *)

Inductive exn :=
| KeyError (key : string)
| JSONDecodeError (doc : string)
| TypeError (msg : string)
| AttributeError (msg : string)
| IndexError (msg : string)
| OtherException (cls msg : string)
| OtherBaseException (cls : string).

(** [isinstance(e, Exception)]: [KeyboardInterrupt], [SystemExit] and the
    like derive from [BaseException] only and pass through [except Exception]. *)
Definition is_Exception (e : exn) : bool :=
  match e with
  | OtherBaseException _ => false
  | _ => true
  end.

Inductive Result (A : Type) :=
| Ok (a : A)
| Raise (e : exn).
Arguments Ok {A} a.
Arguments Raise {A} e.

(** ** Objects of the chat-completion client *)

Record Function := { name : string; arguments : string }.
Record ToolCall := { id : string; function : Function }.

Record ChatCompletionMessage := {
  content : option string;
  tool_calls : option (list ToolCall)
}.

(** A chat completion, each choice reduced to its [message]. *)
Record ChatCompletion := { choices : list ChatCompletionMessage }.

Record VisualizationConfig := {
  chart_type : string;
  x_axis : string;
  y_axis : string;
  title : string
}.

(** What [message.content] of a structured-output response may hold when its
    attributes are read. *)
Inductive ParsedContent :=
| ContentNone
| ContentStr (s : string)
| ContentConfig (c : VisualizationConfig).

(** A structured-output completion, each choice reduced to its
    [message.content]. *)
Record ParsedChatCompletion := { parsed_choices : list ParsedContent }.

(** An element of the conversation list: a Python value (the dictionaries
    built by callers and by the loop) or a response message object. *)
Inductive Message :=
| MVal (v : pyval)
| MObj (m : ChatCompletionMessage).

Definition msg_dict (role : string) (body : pyval) : Message :=
  MVal (VDict [("role", VStr role); ("content", body)]).

Definition tool_message (result : string) (call_id : string) : Message :=
  MVal (VDict [("role", VStr "tool"); ("content", VStr result);
               ("tool_call_id", VStr call_id)]).

(** [isinstance(message, dict) and message.get("role") == "system"] *)
Definition is_system (m : Message) : bool :=
  match m with
  | MVal (VDict d) => py_eq_str (dict_get "role" d) "system"
  | _ => false
  end.

(** Truth value of [tool_calls]: [None] and the empty list are falsy. *)
Definition truthy {A} (l : option (list A)) : bool :=
  match l with
  | Some (_ :: _) => true
  | _ => false
  end.

(** ** Tool descriptors sent with every router request *)

Record ParamSchema := { p_name : string; p_type : string; p_description : string }.
Record ToolDescriptor := {
  d_name : string;
  d_description : string;
  d_properties : list ParamSchema;
  d_required : list string
}.

Definition prompt_schema : ParamSchema :=
  {| p_name := "prompt"; p_type := "string";
     p_description := "The unchanged prompt that the user provided." |}.
Definition data_schema : ParamSchema :=
  {| p_name := "data"; p_type := "string";
     p_description := "The lookup_sales_data tool's output." |}.
Definition goal_schema : ParamSchema :=
  {| p_name := "visualization_goal"; p_type := "string";
     p_description := "The goal of the visualization." |}.

Definition tools : list ToolDescriptor :=
  [ {| d_name := "lookup_sales_data";
       d_description := "Look up data from Store Sales Price Elasticity Promotions dataset";
       d_properties := [prompt_schema];
       d_required := ["prompt"] |};
    {| d_name := "analyze_sales_data";
       d_description := "Analyze sales data to extract insights";
       d_properties := [data_schema; prompt_schema];
       d_required := ["data"; "prompt"] |};
    {| d_name := "generate_visualization";
       d_description := "Generate Python code to create data visualizations";
       d_properties := [data_schema; goal_schema];
       d_required := ["data"; "visualization_goal"] |} ].

(** ** Spans *)

Inductive SpanKind := CHAIN | TOOL | AGENT.
Inductive StatusCode := OK | ERROR.

Inductive SpanValue :=
| SVMessages (l : list Message)
| SVInput (i : list Message + string)
| SVArgs (args : list pyval)
| SVDispatch (calls : list ToolCall) (msgs : list Message)
| SVText (s : option string)
| SVStr (s : string)
| SVDict (d : list (string * pyval))
| SVToolCalls (l : list ToolCall).

Inductive SpanEvent :=
| SpanStart (span : nat) (span_name : string) (kind : SpanKind)
| SetInput (span : nat) (v : SpanValue)
| SetOutput (span : nat) (v : SpanValue)
| SetStatus (span : nat) (c : StatusCode)
| SpanEnd (span : nat).

(** ** Constants of the module *)

Definition nl : string := String "010"%char EmptyString.

Definition MODEL : string := "gpt-4o-mini".

Definition TRANSACTION_DATA_FILE_PATH : string :=
  "/Users/priyanka./Documents/ai-agents/Phoenix/Store_Sales_Price_Elasticity_Promotions_Data.parquet".

Definition SYSTEM_PROMPT : string :=
  nl ++ "You are a helpful assistant that can answer questions about the Store Sales Price Elasticity Promotions dataset." ++ nl.

(** The caller hands [run_agent] a bare string or a list. *)
Inductive AgentInput :=
| InStr (s : string)
| InList (l : list Message).

(** Lines 208-211 of [run_agent]: the conversation as it stands before the
    first model request. *)
Definition normalize (input : AgentInput) : list Message :=
  let messages :=
    match input with
    | InStr s => [msg_dict "user" (VStr s)]
    | InList l => l
    end in
  if existsb is_system messages then messages
  else messages ++ [msg_dict "system" (VStr SYSTEM_PROMPT)].

(** ** The collaborators of the module

    The model service, the parquet reader, the SQL engine and the pieces of
    the Python runtime the agent relies on ([json.loads], [str], [str.replace],
    [str.strip]) are not code of this repository: the agent is defined over
    any implementation of them.  Every call that can fail returns a [Result]
    and the next state of the outside world. *)
Record Services := {
  World : Type;
  DataFrame : Type;
  Relation : Type;
  (** [client.chat.completions.create(model=..., messages=..., tools=...)] *)
  chat_completions_create :
    string -> list Message -> option (list ToolDescriptor) -> World ->
    Result ChatCompletion * World;
  (** [client.beta.chat.completions.parse(model=..., messages=...,
      response_format=VisualizationConfig)] *)
  chat_completions_parse :
    string -> list Message -> World -> Result ParsedChatCompletion * World;
  (** [pd.read_parquet(path)] *)
  read_parquet : string -> World -> Result DataFrame * World;
  (** [duckdb.sql(query)] with the local data frame [df] in scope *)
  duckdb_sql : string -> DataFrame -> World -> Result Relation * World;
  (** [relation.df()] *)
  relation_df : Relation -> World -> Result DataFrame * World;
  df_columns : DataFrame -> pyval;
  df_str : DataFrame -> string;
  df_to_string : DataFrame -> string;
  (** [json.loads]: [None] stands for a [JSONDecodeError] *)
  json_loads : string -> option pyval;
  (** how [str.format] renders a value *)
  py_str : pyval -> string;
  (** [str(e)] *)
  exc_str : exn -> string;
  (** [s.replace(old, new)] *)
  str_replace : string -> string -> string -> string;
  (** [s.strip()] *)
  str_strip : string -> string
}.

Section Agent.

Context {S : Services}.

(** ** State and monad *)

(** [messages] is the one list object that [run_agent] and
    [handle_tool_calls] mutate in place; [spans] is the log of what happens
    to the spans, in order: their start, the input, output and status set
    on them by the program or by the tracer, and their end. *)
Record State := {
  world : World S;
  messages : list Message;
  spans : list SpanEvent
}.

Definition M (A : Type) : Type := State -> Result A * State.

Definition ret {A} (a : A) : M A := fun st => (Ok a, st).

Definition raise {A} (e : exn) : M A := fun st => (Raise e, st).

Definition bind {A B} (c : M A) (k : A -> M B) : M B :=
  fun st =>
    match c st with
    | (Ok a, st') => k a st'
    | (Raise e, st') => (Raise e, st')
    end.

Notation "x <- c ;; k" := (bind c (fun x => k))
  (at level 62, c at next level, right associativity).
Notation "c ;;; k" := (bind c (fun _ => k))
  (at level 62, right associativity).

(** [try: body except Exception as e: handler(e)] *)
Definition try_except {A} (body : M A) (handler : exn -> M A) : M A :=
  fun st =>
    match body st with
    | (Raise e, st') => if is_Exception e then handler e st' else (Raise e, st')
    | ok => ok
    end.

(** A call to a collaborator. *)
Definition call {A} (op : World S -> Result A * World S) : M A :=
  fun st =>
    let (r, w) := op (world st) in
    (r, {| world := w; messages := messages st; spans := spans st |}).

Definition get_messages : M (list Message) := fun st => (Ok (messages st), st).

(** [messages.append(m)] *)
Definition append_message (m : Message) : M unit :=
  fun st =>
    (Ok tt, {| world := world st; messages := messages st ++ [m]; spans := spans st |}).

Definition record_event (ev : SpanEvent) (st : State) : State :=
  {| world := world st; messages := messages st; spans := spans st ++ [ev] |}.

Definition emit (ev : SpanEvent) : M unit := fun st => (Ok tt, record_event ev st).

(** Leaving the block of a span: when an [Exception] leaves it the tracer
    sets the status of the span to [ERROR], and on every exit, also by a
    [BaseException] that is no [Exception], the span is ended. *)
Definition exit_events {A} (span : nat) (r : Result A) : list SpanEvent :=
  match r with
  | Raise e => if is_Exception e then [SetStatus span ERROR; SpanEnd span] else [SpanEnd span]
  | Ok _ => [SpanEnd span]
  end.

Definition leave_span {A} (span : nat) (r : Result A) (st : State) : State :=
  {| world := world st; messages := messages st; spans := spans st ++ exit_events span r |}.

(** [with tracer.start_as_current_span(name, openinference_span_kind=kind) as
    span: body]: the span is started on entry and left when the block is
    left, by a return or by an exception.  A span is identified by the
    position of its start in the log. *)
Definition with_span {A} (span_name : string) (kind : SpanKind) (body : nat -> M A) : M A :=
  fun st =>
    let span := length (spans st) in
    let (r, st') := body span (record_event (SpanStart span span_name kind) st) in
    (r, leave_span span r st').

(** The decorators [@tracer.tool()] and [@tracer.chain()]: the call runs in a
    span of that kind, which records the arguments, on a normal return the
    result and the status [OK], and on an [Exception] the status [ERROR]. *)
Definition traced {A} (kind : SpanKind) (span_name : string) (input : SpanValue)
    (output : A -> SpanValue) (body : M A) : M A :=
  with_span span_name kind (fun span =>
    emit (SetInput span input) ;;;
    r <- body ;;
    emit (SetOutput span (output r)) ;;;
    emit (SetStatus span OK) ;;;
    ret r).

(** [response.choices[0]] *)
Definition first_choice {A} (l : list A) : M A :=
  match l with
  | c :: _ => ret c
  | [] => raise (IndexError "list index out of range")
  end.

(** ** Prompts *)

Definition SQL_GENERATION_PROMPT (prompt columns : pyval) (table_name : string) : string :=
  nl ++ "Generate an SQL query based on a prompt. Do not reply with anything besides the SQL query."
  ++ nl ++ "The prompt is : " ++ py_str S prompt
  ++ nl ++ "The availabe columns are: " ++ py_str S columns
  ++ nl ++ "The table name is: " ++ table_name ++ nl.

Definition DATA_ANALYSIS_PROMPT (data prompt : pyval) : string :=
  nl ++ "Analyse the following data:" ++ py_str S data
  ++ nl ++ "Your job is to answer the following question:" ++ py_str S prompt ++ nl.

Definition CHART_CONFIGURATION_PROMPT (data visualization_goal : pyval) : string :=
  nl ++ "Generate a chart configuration based on this data:" ++ py_str S data
  ++ nl ++ "The goal is to show:" ++ py_str S visualization_goal ++ nl.

Definition CREATE_CHART_PROMPT (config : pyval) : string :=
  nl ++ "Write python code to create a chart based on the following configuration."
  ++ nl ++ "Only return the code, no other text."
  ++ nl ++ "config:" ++ py_str S config ++ nl.

Definition user_prompt (text : string) : list Message := [msg_dict "user" (VStr text)].

(** ** Tools *)

Definition generate_sql_query (prompt columns : pyval) (table_name : string)
    : M (option string) :=
  let formatted_prompt := SQL_GENERATION_PROMPT prompt columns table_name in
  response <- call (chat_completions_create S MODEL (user_prompt formatted_prompt) None) ;;
  message <- first_choice (choices response) ;;
  ret (content message).

(** A method called on [message.content], which may be [None]. *)
Definition str_method {A} (method : string) (s : option string) (f : string -> A) : M A :=
  match s with
  | Some s => ret (f s)
  | None => raise (AttributeError method)
  end.

(** The body of the [try] block of [lookup_sales_data]. *)
Definition lookup_sales_data_try (prompt : pyval) : M string :=
  let table_name := "sales" in
  df <- call (read_parquet S TRANSACTION_DATA_FILE_PATH) ;;
  call (duckdb_sql S ("CREATE TABLE IF NOT EXISTS " ++ table_name ++ " AS SELECT * FROM df") df) ;;;
  generated <- generate_sql_query prompt (df_columns S df) table_name ;;
  sql_query <- str_method "strip" generated (fun s =>
    str_replace S (str_replace S (str_strip S s) "```sql" "") "```" "") ;;
  result <- with_span "execute_sql_query" CHAIN (fun span =>
    emit (SetInput span (SVStr sql_query)) ;;;
    relation <- call (duckdb_sql S sql_query df) ;;
    result <- call (relation_df S relation) ;;
    emit (SetOutput span (SVStr (df_str S result))) ;;;
    emit (SetStatus span OK) ;;;
    ret result) ;;
  ret (df_to_string S result).

Definition lookup_sales_data (prompt : pyval) : M string :=
  traced TOOL "lookup_sales_data" (SVArgs [prompt]) SVStr
    (try_except (lookup_sales_data_try prompt)
       (fun e => ret ("Error accessing data: " ++ exc_str S e))).

Definition analyze_sales_data (prompt data : pyval) : M string :=
  traced TOOL "analyze_sales_data" (SVArgs [prompt; data]) SVStr
    (let formatted_prompt := DATA_ANALYSIS_PROMPT data prompt in
     response <- call (chat_completions_create S MODEL (user_prompt formatted_prompt) None) ;;
     message <- first_choice (choices response) ;;
     let analysis := content message in
     ret (match analysis with
          | Some (String c s) => String c s
          | _ => "No analysis could be generated"
          end)).

(** Reading an attribute of [content]: only a [VisualizationConfig] has it. *)
Definition getattr (c : ParsedContent) (attr : string) (field : VisualizationConfig -> string)
    : M pyval :=
  match c with
  | ContentConfig cfg => ret (VStr (field cfg))
  | _ => raise (AttributeError attr)
  end.

Definition extract_chart_config (data visualization_goal : pyval)
    : M (list (string * pyval)) :=
  traced CHAIN "extract_chart_config" (SVArgs [data; visualization_goal]) SVDict
    (let formatted_prompt := CHART_CONFIGURATION_PROMPT data visualization_goal in
     response <- call (chat_completions_parse S MODEL (user_prompt formatted_prompt)) ;;
     try_except
       (content <- first_choice (parsed_choices response) ;;
        c <- getattr content "chart_type" chart_type ;;
        x <- getattr content "x_axis" x_axis ;;
        y <- getattr content "y_axis" y_axis ;;
        t <- getattr content "title" title ;;
        ret [("chart_type", c); ("x_axis", x); ("y_axis", y); ("title", t);
             ("data", data)])
       (fun _ =>
        ret [("chart_type", VStr "line"); ("x_axis", VStr "date");
             ("y_axis", VStr "value"); ("title", visualization_goal);
             ("data", data)])).

Definition create_chart (config : list (string * pyval)) : M string :=
  traced CHAIN "create_chart" (SVArgs [VDict config]) SVStr
    (let formatted_prompt := CREATE_CHART_PROMPT (VDict config) in
     response <- call (chat_completions_create S MODEL (user_prompt formatted_prompt) None) ;;
     message <- first_choice (choices response) ;;
     str_method "replace" (content message) (fun s =>
       str_strip S (str_replace S (str_replace S s "```python" "") "```" ""))).

Definition generate_visualization (data visualization_goal : pyval) : M string :=
  traced TOOL "generate_visualization" (SVArgs [data; visualization_goal]) SVStr
    (config <- extract_chart_config data visualization_goal ;;
     create_chart config).

(** ** Tool registry and dispatch *)

(** A Python function of the registry: its parameter names, none of which has
    a default value, and what a call with these arguments does. *)
Record PyFunction := {
  f_params : list string;
  f_call : list pyval -> M string
}.

Definition arity_error {A} : M A := raise (TypeError "wrong number of arguments").

Definition lookup_sales_data_fn : PyFunction :=
  {| f_params := ["prompt"];
     f_call := fun args =>
       match args with
       | [prompt] => lookup_sales_data prompt
       | _ => arity_error
       end |}.

Definition analyze_sales_data_fn : PyFunction :=
  {| f_params := ["prompt"; "data"];
     f_call := fun args =>
       match args with
       | [prompt; data] => analyze_sales_data prompt data
       | _ => arity_error
       end |}.

Definition generate_visualization_fn : PyFunction :=
  {| f_params := ["data"; "visualization_goal"];
     f_call := fun args =>
       match args with
       | [data; visualization_goal] => generate_visualization data visualization_goal
       | _ => arity_error
       end |}.

Definition tool_implementations : gmap string PyFunction :=
  <["lookup_sales_data" := lookup_sales_data_fn]>
  (<["analyze_sales_data" := analyze_sales_data_fn]>
  (<["generate_visualization" := generate_visualization_fn]> ∅)).

Definition mem_str (s : string) (l : list string) : bool := existsb (String.eqb s) l.

(** Calling [function] with the unpacked [function_args]: the payload must be
    a mapping whose keys are exactly the parameters of the function. *)
Definition call_kwargs (f : PyFunction) (function_args : pyval) : M string :=
  match function_args with
  | VDict d =>
      if forallb (fun k => mem_str k (f_params f)) (dict_keys d) then
        match mapM (fun p => dict_get p d) (f_params f) with
        | Some args => f_call f args
        | None => raise (TypeError "missing a required argument")
        end
      else raise (TypeError "got an unexpected keyword argument")
  | _ => raise (TypeError "argument after ** must be a mapping")
  end.

(** The body of the [for] loop of [handle_tool_calls], lines 197-200. *)
Definition dispatch (tool_call : ToolCall) : M unit :=
  function_ <-
    match tool_implementations !! name (function tool_call) with
    | Some f => ret f
    | None => raise (KeyError (name (function tool_call)))
    end ;;
  function_args <-
    match json_loads S (arguments (function tool_call)) with
    | Some v => ret v
    | None => raise (JSONDecodeError (arguments (function tool_call)))
    end ;;
  result <- call_kwargs function_ function_args ;;
  append_message (tool_message result (id tool_call)).

Fixpoint for_tool_calls (tool_calls : list ToolCall) : M unit :=
  match tool_calls with
  | [] => ret tt
  | tool_call :: rest => dispatch tool_call ;;; for_tool_calls rest
  end.

(** [handle_tool_calls(tool_calls, messages)], where [messages] is the
    conversation list itself: it is extended in place and returned. *)
Definition handle_tool_calls (tool_calls : list ToolCall) : M (list Message) :=
  before <- get_messages ;;
  traced CHAIN "handle_tool_calls" (SVDispatch tool_calls before) SVMessages
    (for_tool_calls tool_calls ;;; get_messages).

(** ** The agent loop *)

(** The [with] block of one iteration, lines 213-222: the span is handed on
    because the loop keeps using it after the block. *)
Definition router_call : M (nat * ChatCompletionMessage) :=
  with_span "router_call" CHAIN (fun span =>
    current <- get_messages ;;
    emit (SetInput span (SVMessages current)) ;;;
    response <- call (chat_completions_create S MODEL current (Some tools)) ;;
    message <- first_choice (choices response) ;;
    append_message (MObj message) ;;;
    emit (SetStatus span OK) ;;;
    ret (span, message)).

(** How one pass through the body of [while True] ends. *)
Inductive Step :=
| Continue
| Return (final : option string).

(** One pass, lines 213-228. *)
Definition iteration : M Step :=
  r <- router_call ;;
  let (span, message) := r in
  match tool_calls message with
  | Some (tool_call :: rest) =>
      handle_tool_calls (tool_call :: rest) ;;;
      emit (SetOutput span (SVToolCalls (tool_call :: rest))) ;;;
      ret Continue
  | _ =>
      emit (SetOutput span (SVText (content message))) ;;;
      ret (Return (content message))
  end.

(** [while True]: [None] when [fuel] passes did not leave the loop. *)
Fixpoint agent_loop (fuel : nat) (st : State) : option (Result (option string) * State) :=
  match fuel with
  | 0 => None
  | Datatypes.S fuel' =>
      match iteration st with
      | (Ok Continue, st') => agent_loop fuel' st'
      | (Ok (Return final), st') => Some (Ok final, st')
      | (Raise e, st') => Some (Raise e, st')
      end
  end.

(** [run_agent(messages)] started in a world [w] with a span log [log]. *)
Definition run_agent (fuel : nat) (input : AgentInput) (w : World S) (log : list SpanEvent)
    : option (Result (option string) * State) :=
  agent_loop fuel {| world := w; messages := normalize input; spans := log |}.

Definition input_value (input : AgentInput) : SpanValue :=
  match input with
  | InStr s => SVInput (inr s)
  | InList l => SVInput (inl l)
  end.

(** [start_main_span(messages)] *)
Definition start_main_span (fuel : nat) (input : AgentInput) (w : World S)
    (log : list SpanEvent) : option (Result (option string) * State) :=
  let span := length log in
  let log1 := (log ++ [SpanStart span "AgentRun" AGENT; SetInput span (input_value input)])%list in
  match run_agent fuel input w log1 with
  | None => None
  | Some (Ok ret_, st) =>
      Some (Ok ret_,
            record_event (SpanEnd span)
              (record_event (SetStatus span OK)
                 (record_event (SetOutput span (SVText ret_)) st)))
  | Some (Raise e, st) => Some (Raise e, leave_span span (@Raise unit e) st)
  end.

End Agent.

Arguments State : clear implicits.
Arguments M : clear implicits.
Arguments PyFunction : clear implicits.

Notation "x <- c ;; k" := (bind c (fun x => k))
  (at level 62, c at next level, right associativity).
Notation "c ;;; k" := (bind c (fun _ => k))
  (at level 62, right associativity).

(** ** The dependency probe of the benchmark harness
    ([evaluate_custom.py], lines 21-27) *)

Module Harness.

(** A [subprocess.run(argv, cwd=...)] launched by the script. *)
Record Command := { argv : list string; cwd : string }.

Fixpoint ends_with_slash (s : string) : bool :=
  match s with
  | EmptyString => false
  | String c EmptyString => Ascii.eqb c "/"%char
  | String _ rest => ends_with_slash rest
  end.

(** [os.path.join(a, b)] on POSIX. *)
Definition path_join (a b : string) : string :=
  if String.prefix "/" b then b
  else if String.eqb a "" || ends_with_slash a then a ++ b
  else a ++ "/" ++ b.

(** [os.path.exists] over the set of paths present on disk. *)
Definition path_exists (fs : gset string) (p : string) : bool := bool_decide (p ∈ fs).

Definition pip_requirements (repo_path : string) : Command :=
  {| argv := ["pip"; "install"; "-r"; "requirements.txt"]; cwd := repo_path |}.
Definition pip_editable (repo_path : string) : Command :=
  {| argv := ["pip"; "install"; "-e"; "."]; cwd := repo_path |}.
Definition pip_project (repo_path : string) : Command :=
  {| argv := ["pip"; "install"; "."]; cwd := repo_path |}.

(** The commands the [if]/[elif] chain launches, in order. *)
Definition install_dependencies (fs : gset string) (repo_path : string) : list Command :=
  if path_exists fs (path_join repo_path "requirements.txt") then
    [pip_requirements repo_path]
  else if path_exists fs (path_join repo_path "setup.py") then
    [pip_editable repo_path]
  else if path_exists fs (path_join repo_path "pyproject.toml") then
    [pip_project repo_path]
  else [].

(** The three probed files in their priority order, each with the install
    command that belongs to it. *)
Definition probes : list (string * (string -> Command)) :=
  [("requirements.txt", pip_requirements); ("setup.py", pip_editable);
   ("pyproject.toml", pip_project)].

(** The specification's reading: the first probed file that exists decides. *)
Definition first_existing (fs : gset string) (repo_path : string)
    : option (string * (string -> Command)) :=
  List.find (fun p => path_exists fs (path_join repo_path (fst p))) probes.

End Harness.

(** ** A scripted model service

    A test double for the collaborators: the router requests (those that
    carry the tool descriptors) are answered from [router], indexed by the
    number of router requests made so far; the requests made inside the tools
    are answered by [inner] and [parsed]; reading the parquet file gives
    [parquet]. *)

Definition dq : string := String "034"%char EmptyString.

(** The JSON document [{"prompt": "total sales"}]. *)
Definition prompt_payload : string :=
  "{" ++ dq ++ "prompt" ++ dq ++ ": " ++ dq ++ "total sales" ++ dq ++ "}".

(** The JSON document [{"prompt": "total sales", "data": "Store_ID 1 42"}]. *)
Definition analysis_payload : string :=
  "{" ++ dq ++ "prompt" ++ dq ++ ": " ++ dq ++ "total sales" ++ dq ++ ", "
      ++ dq ++ "data" ++ dq ++ ": " ++ dq ++ "Store_ID 1 42" ++ dq ++ "}".

(** A decoder that knows the documents used below. *)
Definition stub_json_loads (s : string) : option pyval :=
  if String.eqb s prompt_payload then Some (VDict [("prompt", VStr "total sales")])
  else if String.eqb s analysis_payload then
    Some (VDict [("prompt", VStr "total sales"); ("data", VStr "Store_ID 1 42")])
  else if String.eqb s "{}" then Some (VDict [])
  else if String.eqb s "[]" then Some (VList [])
  else None.

Definition stub_exc_str (e : exn) : string :=
  match e with
  | KeyError k => "'" ++ k ++ "'"
  | JSONDecodeError m | TypeError m | AttributeError m | IndexError m => m
  | OtherException _ m => m
  | OtherBaseException _ => ""
  end.

Definition stub_py_str (v : pyval) : string :=
  match v with
  | VStr s => s
  | _ => "<value>"
  end.

Definition scripted (router : nat -> Result ChatCompletion) (inner : Result ChatCompletion)
    (parsed : Result ParsedChatCompletion) (parquet : Result unit) : Services :=
  {| World := nat;
     DataFrame := unit;
     Relation := unit;
     chat_completions_create := fun _ _ tools_ n =>
       match tools_ with
       | Some _ => (router n, Datatypes.S n)
       | None => (inner, n)
       end;
     chat_completions_parse := fun _ _ n => (parsed, n);
     read_parquet := fun _ n => (parquet, n);
     duckdb_sql := fun _ _ n => (Ok tt, n);
     relation_df := fun _ n => (Ok tt, n);
     df_columns := fun _ => VList [VStr "Store_ID"; VStr "Total_Sale_Value"];
     df_str := fun _ => "Total_Sale_Value";
     df_to_string := fun _ => "Total_Sale_Value";
     json_loads := stub_json_loads;
     py_str := stub_py_str;
     exc_str := stub_exc_str;
     str_replace := fun s _ _ => s;
     str_strip := fun s => s |}.

Definition assistant (text : option string) (calls : option (list ToolCall)) : ChatCompletion :=
  {| choices := [ {| content := text; tool_calls := calls |} ] |}.

Definition tool_call (call_id tool args : string) : ToolCall :=
  {| id := call_id; function := {| name := tool; arguments := args |} |}.

Definition file_not_found : exn := OtherException "FileNotFoundError" "No such file or directory".

(** A model that asks for one data lookup and then answers. *)
Definition lookup_then_answer (n : nat) : Result ChatCompletion :=
  match n with
  | 0 => Ok (assistant None (Some [tool_call "call_1" "lookup_sales_data" prompt_payload]))
  | _ => Ok (assistant (Some "Total sales were 42.") None)
  end.

Definition demo : Services :=
  scripted lookup_then_answer (Ok (assistant (Some "SELECT 1") None))
    (Ok {| parsed_choices := [ContentNone] |}) (Raise file_not_found).

(** A model whose first request names a tool that is not registered. *)
Definition unknown_then_done (n : nat) : Result ChatCompletion :=
  match n with
  | 0 => Ok (assistant None (Some [tool_call "call_1" "no_such_tool" "{}"]))
  | _ => Ok (assistant (Some "done") None)
  end.

Definition misrouted : Services :=
  scripted unknown_then_done (Ok (assistant (Some "SELECT 1") None))
    (Ok {| parsed_choices := [ContentNone] |}) (Raise file_not_found).

(** A model that names an unregistered tool in every response. *)
Definition always_unknown : Services :=
  scripted (fun _ => Ok (assistant None (Some [tool_call "call_1" "no_such_tool" "{}"])))
    (Ok (assistant (Some "SELECT 1") None))
    (Ok {| parsed_choices := [ContentNone] |}) (Raise file_not_found).

(** A model that asks for a data lookup in every response. *)
Definition always_lookup : Services :=
  scripted (fun _ => Ok (assistant None (Some [tool_call "call_1" "lookup_sales_data" prompt_payload])))
    (Ok (assistant (Some "SELECT 1") None))
    (Ok {| parsed_choices := [ContentNone] |}) (Raise file_not_found).

(** A model that reuses one identifier for two calls of its first response. *)
Definition same_id_twice (n : nat) : Result ChatCompletion :=
  match n with
  | 0 => Ok (assistant None
              (Some [tool_call "call_a" "lookup_sales_data" prompt_payload;
                     tool_call "call_a" "lookup_sales_data" prompt_payload]))
  | _ => Ok (assistant (Some "done") None)
  end.

Definition reusing : Services :=
  scripted same_id_twice (Ok (assistant (Some "SELECT 1") None))
    (Ok {| parsed_choices := [ContentNone] |}) (Raise file_not_found).

(** A model that answers at once. *)
Definition answering : Services :=
  scripted (fun _ => Ok (assistant (Some "hello") None))
    (Ok (assistant (Some "SELECT 1") None))
    (Ok {| parsed_choices := [ContentNone] |}) (Raise file_not_found).

(** A service whose structured-output request raises. *)
Definition unparsed : Services :=
  scripted lookup_then_answer (Ok (assistant (Some "SELECT 1") None))
    (Raise (OtherException "ValidationError" "1 validation error for VisualizationConfig"))
    (Raise file_not_found).

(** A service whose model answers the tools without content. *)
Definition silent : Services :=
  scripted lookup_then_answer (Ok (assistant None None))
    (Ok {| parsed_choices := [ContentNone] |}) (Raise file_not_found).

(** A service whose structured-output request gives a configuration. *)
Definition charted : Services :=
  scripted lookup_then_answer (Ok (assistant (Some "SELECT 1") None))
    (Ok {| parsed_choices :=
             [ContentConfig {| chart_type := "bar"; x_axis := "Store_ID";
                               y_axis := "Total_Sale_Value"; title := "Sales by store" |}] |})
    (Raise file_not_found).

(** A service whose data file can be read. *)
Definition stocked : Services :=
  scripted lookup_then_answer (Ok (assistant (Some "SELECT 1") None))
    (Ok {| parsed_choices := [ContentNone] |}) (Ok tt).

(** A conversation handed over with a tool result that answers no request. *)
Definition stale_conversation : list Message :=
  [tool_message "Total_Sale_Value" "call_0"; msg_dict "user" (VStr "hi")].

(** A state with a given conversation and an empty span log. *)
Definition initial {S : Services} (w : World S) (conversation : list Message) : State S :=
  {| world := w; messages := conversation; spans := [] |}.

Open Scope list_scope.

(** ** Vocabulary of the statements *)

Section Vocabulary.

Context {S : Services}.

(** The message the model service would give the router for the
    conversation and world of [st], when the request succeeds and the
    completion has a first choice. *)
Definition router_reply (st : State S) : option ChatCompletionMessage :=
  match chat_completions_create S MODEL (messages st) (Some tools) (world st) with
  | (Ok response, _) => head (choices response)
  | (Raise _, _) => None
  end.

(** The state after [k] passes of the loop that all ended in [Continue]. *)
Fixpoint passes (k : nat) (st : State S) : option (State S) :=
  match k with
  | 0 => Some st
  | Datatypes.S k' =>
      match iteration st with
      | (Ok Continue, st') => passes k' st'
      | _ => None
      end
  end.

(** The state in which the body of a decorated function starts: its span is
    open and holds the arguments. *)
Definition entered (kind : SpanKind) (span_name : string) (input : SpanValue)
    (st : State S) : State S :=
  let span := length (spans st) in
  record_event (SetInput span input) (record_event (SpanStart span span_name kind) st).

(** A computation that leaves the conversation list alone. *)
Definition keeps_messages {A} (c : M S A) : Prop :=
  forall st, messages (snd (c st)) = messages st.

End Vocabulary.

(** The calls carried by a response; none when [tool_calls] is [None]. *)
Definition calls_of (m : ChatCompletionMessage) : list ToolCall := default [] (tool_calls m).

(** The tool messages that answer the first calls of a list, in order. *)
Definition answers (results : list string) (calls : list ToolCall) : list Message :=
  zip_with tool_message results (map id calls).

(** Identifiers of the tool-call requests carried by the assistant messages
    of a conversation, in order. *)
Definition request_ids (l : list Message) : list string :=
  flat_map (fun m =>
    match m with
    | MObj a => map id (calls_of a)
    | MVal _ => []
    end) l.

(** What a run appends to the conversation: blocks made of an assistant
    message followed by the answers to its calls.  With [true] every block
    answers all its calls; with [false] the last block may stop early. *)
Inductive run_blocks : bool -> list Message -> Prop :=
| rb_nil c : run_blocks c []
| rb_cut m results :
    length results < length (calls_of m) ->
    run_blocks false (MObj m :: answers results (calls_of m))
| rb_block c m results rest :
    length results = length (calls_of m) ->
    run_blocks c rest ->
    run_blocks c (MObj m :: answers results (calls_of m) ++ rest).

(** What the caller handed over, as a list. *)
Definition raw_messages (input : AgentInput) : list Message :=
  match input with
  | InStr s => [msg_dict "user" (VStr s)]
  | InList l => l
  end.

(** Number of system messages of a conversation. *)
Definition count_system (l : list Message) : nat := length (List.filter is_system l).

Definition is_Ok {A} (r : Result A) : bool :=
  match r with
  | Ok _ => true
  | Raise _ => false
  end.

(** The correlation identifier of a tool-result message. *)
Definition result_id (m : Message) : option string :=
  match m with
  | MVal (VDict d) =>
      if py_eq_str (dict_get "role" d) "tool" then
        match dict_get "tool_call_id" d with
        | Some (VStr t) => Some t
        | _ => None
        end
      else None
  | _ => None
  end.

Definition result_ids (l : list Message) : list string := omap result_id l.

(** The default configuration as the specification documents it. *)
Definition documented_default_config (visualization_goal : pyval) : list (string * pyval) :=
  [("chart_type", VStr "line"); ("x_axis", VStr "date"); ("y_axis", VStr "value");
   ("title", visualization_goal)].

(** ** Span discipline *)

(** Replaying a stretch of the span log that begins at position [pos], with
    the spans in [open] started and not yet ended, innermost first: a span
    must be started under the identifier [pos], and only the innermost open
    span may be ended.  The result is what is still open at the end. *)
Fixpoint check_spans (open : list nat) (pos : nat) (l : list SpanEvent) : option (list nat) :=
  match l with
  | [] => Some open
  | SpanStart s _ _ :: l' =>
      if Nat.eqb s pos then check_spans (s :: open) (Datatypes.S pos) l' else None
  | SpanEnd s :: l' =>
      match open with
      | o :: open' => if Nat.eqb s o then check_spans open' (Datatypes.S pos) l' else None
      | [] => None
      end
  | _ :: l' => check_spans open (Datatypes.S pos) l'
  end.

(** A stretch of the log that starts and ends with no span open. *)
Definition well_nested (pos : nat) (l : list SpanEvent) : Prop :=
  check_spans [] pos l = Some [].

(** Events that neither start nor end a span. *)
Definition is_attribute (ev : SpanEvent) : bool :=
  match ev with
  | SpanStart _ _ _ | SpanEnd _ => false
  | _ => true
  end.

Definition count_starts (s : nat) (l : list SpanEvent) : nat :=
  length (List.filter (fun ev => match ev with SpanStart s' _ _ => Nat.eqb s' s | _ => false end) l).

Definition count_ends (s : nat) (l : list SpanEvent) : nat :=
  length (List.filter (fun ev => match ev with SpanEnd s' => Nat.eqb s' s | _ => false end) l).

(** How often [s] is among the open spans. *)
Definition count_open (s : nat) (open : list nat) : nat :=
  length (List.filter (Nat.eqb s) open).

Section Discipline.

Context {S : Services}.

(** A computation that only adds to the span log, and adds a stretch in which
    every span it starts is ended, whether it returns or raises. *)
Definition disciplined {A} (c : M S A) : Prop :=
  forall st, exists mid,
    spans (snd (c st)) = spans st ++ mid /\ well_nested (length (spans st)) mid.

End Discipline.

(** ** More vocabulary *)

(** Response objects among the messages of a conversation. *)
Definition is_assistant (m : Message) : bool :=
  match m with
  | MObj _ => true
  | MVal _ => false
  end.

Definition count_assistant (l : list Message) : nat := length (List.filter is_assistant l).

(** What a dispatch does once the tool is found and the payload is bound to
    its parameters: run the tool, and append its result when it returns. *)
Definition run_and_append {S : Services} (f : PyFunction S) (args : list pyval)
    (tc : ToolCall) (st : State S) : Result unit * State S :=
  match f_call f args st with
  | (Ok result, st1) => append_message (tool_message result (id tc)) st1
  | (Raise e, st1) => (Raise e, st1)
  end.

(** The code that [create_chart] returns for a reply of the model. *)
Definition chart_code {S : Services} (reply : string) : string :=
  str_strip S (str_replace S (str_replace S reply "```python" "") "```" "").

(** ** Environment helpers ([Phoenix/helper.py]) *)

Module Helper.

(** [load_env()], that is [load_dotenv(find_dotenv(), override=True)], on
    [os.environ]: every variable the [.env] file gives a value to is set to
    that value, also when it is set already.  [dotenv_values] stands for the
    reading of the file that [find_dotenv()] finds (its values may refer to
    the environment; there is none when no file is found). *)
Definition load_env (dotenv_values : gmap string string -> gmap string string)
    (environ : gmap string string) : gmap string string :=
  dotenv_values environ ∪ environ.

(** [get_openai_api_key()]: the key, [None] when unset, and the environment
    it leaves. *)
Definition get_openai_api_key (dotenv_values : gmap string string -> gmap string string)
    (environ : gmap string string) : option string * gmap string string :=
  let environ := load_env dotenv_values environ in
  (environ !! "OPENAI_API_KEY", environ).

Definition get_phoenix_endpoint : string := "http://localhost:6006/".

(** [setup_phoenix()]: what [px.launch_app] gives, the environment in which
    it is launched and the lines printed. *)
Definition setup_phoenix {Session : Type}
    (dotenv_values : gmap string string -> gmap string string)
    (launch_app : gmap string string -> Result Session)
    (environ : gmap string string)
    : Result Session * gmap string string * list string :=
  let environ := load_env dotenv_values environ in
  let environ :=
    if bool_decide ("PHOENIX_COLLECTOR_ENDPOINT" ∈ dom environ)
    then delete "PHOENIX_COLLECTOR_ENDPOINT" environ
    else environ in
  match launch_app environ with
  | Ok session =>
      (Ok session, environ, ["Phoenix is running at: " +:+ get_phoenix_endpoint])
  | Raise e => (Raise e, environ, [])
  end.

End Helper.

(** The endpoint the tracer of [utils.py] is registered with. *)
Definition TRACES_ENDPOINT : string := Helper.get_phoenix_endpoint +:+ "v1/traces".

(** ** The benchmark script ([evaluate_custom.py]) *)

Module Script.

(** One [subprocess.run]: the command line, the [cwd] when one is given,
    and the flags [check] and [capture_output]. *)
Record Run := {
  r_argv : list string;
  r_cwd : option string;
  r_check : bool;
  r_capture : bool
}.

Record Completed := { returncode : Z; stdout : string }.

(** The machine the script runs on. *)
Record Shell := {
  Machine : Type;
  (** the paths that exist *)
  paths : Machine -> gset string;
  (** launching a process and waiting for it; raises when it cannot be launched *)
  subprocess_run : Run -> Machine -> Result Completed * Machine;
  (** [git.Repo(path)] *)
  git_repo : string -> Machine -> Result unit * Machine;
  (** [repo.git.checkout(commit)] in the repository at [path] *)
  git_checkout : string -> pyval -> Machine -> Result unit * Machine;
  (** [open(path, "w")] *)
  open_write : string -> Machine -> Result unit * Machine;
  (** [f.write(text)] and the closing of the file *)
  file_write : string -> string -> Machine -> Result unit * Machine;
  (** [str(e)] of the [CalledProcessError] of a command and its exit status *)
  process_error_text : Run -> Z -> string
}.

Section Evaluate.

Context {H : Shell}.

(** The machine, every process launched so far with its outcome, and the
    lines printed so far. *)
Record Progress := {
  machine : Machine H;
  launched : list (Run * Result Completed);
  printed : list string
}.

Definition Step (A : Type) : Type := Progress -> Result A * Progress.

Definition done {A} (a : A) : Step A := fun st => (Ok a, st).

Definition fail {A} (e : exn) : Step A := fun st => (Raise e, st).

Definition andthen {A B} (c : Step A) (k : A -> Step B) : Step B :=
  fun st =>
    match c st with
    | (Ok a, st') => k a st'
    | (Raise e, st') => (Raise e, st')
    end.

Notation "x <~ c ;; k" := (andthen c (fun x => k))
  (at level 62, c at next level, right associativity).
Notation "c ~~ k" := (andthen c (fun _ => k))
  (at level 62, right associativity).

Definition on_machine {A} (op : Machine H -> Result A * Machine H) : Step A :=
  fun st =>
    let (r, m) := op (machine st) in
    (r, {| machine := m; launched := launched st; printed := printed st |}).

Definition print (line : string) : Step unit :=
  fun st =>
    (Ok tt, {| machine := machine st; launched := launched st;
               printed := printed st ++ [line] |}).

Definition exists_ (path : string) : Step bool :=
  fun st => (Ok (Harness.path_exists (paths H (machine st)) path), st).

(** [subprocess.run(...)]: with [check=True] an exit status other than zero
    raises [CalledProcessError]. *)
Definition run (r : Run) : Step Completed :=
  fun st =>
    let (out, m) := subprocess_run H r (machine st) in
    let st' := {| machine := m; launched := launched st ++ [(r, out)];
                  printed := printed st |} in
    match out with
    | Ok c =>
        if r_check r && negb (Z.eqb (returncode c) 0)
        then (Raise (OtherException "CalledProcessError"
                       (process_error_text H r (returncode c))), st')
        else (Ok c, st')
    | Raise e => (Raise e, st')
    end.

(** [instance[key]] *)
Definition subscript (instance : pyval) (key : string) : Step pyval :=
  match instance with
  | VDict d =>
      match dict_get key d with
      | Some v => done v
      | None => fail (KeyError key)
      end
  | _ => fail (TypeError "indices must be integers or the object is not subscriptable")
  end.

(** [s.replace("/", "__")] *)
Fixpoint replace_slash (s : string) : string :=
  match s with
  | EmptyString => EmptyString
  | String c rest =>
      if Ascii.eqb c "/"%char then String "_" (String "_" (replace_slash rest))
      else String c (replace_slash rest)
  end.

Definition clone (repo_name repo_path : string) : Run :=
  {| r_argv := ["git"; "clone"; "https://github.com/" +:+ repo_name +:+ ".git"; repo_path];
     r_cwd := None; r_check := false; r_capture := false |}.

Definition install (c : Harness.Command) : Run :=
  {| r_argv := Harness.argv c; r_cwd := Some (Harness.cwd c);
     r_check := false; r_capture := false |}.

Definition git_apply (patch_file repo_path : string) : Run :=
  {| r_argv := ["git"; "apply"; patch_file]; r_cwd := Some repo_path;
     r_check := true; r_capture := false |}.

Definition pytest (repo_path : string) : Run :=
  {| r_argv := ["pytest"; "-q"]; r_cwd := Some repo_path;
     r_check := false; r_capture := true |}.

Fixpoint run_all (l : list Run) : Step unit :=
  match l with
  | [] => done tt
  | r :: l' => run r ~~ run_all l'
  end.

(** Lines 9-27: the clone when the directory is missing, the checkout and
    the install; gives the path of the repository. *)
Definition prepare (instance : pyval) : Step string :=
  repo <~ subscript instance "repo" ;;
  base_commit <~ subscript instance "base_commit" ;;
  match repo with
  | VStr repo_name =>
      let repo_path := replace_slash repo_name in
      present <~ exists_ repo_path ;;
      (if present then done tt
       else run (clone repo_name repo_path) ~~ done tt) ~~
      on_machine (git_repo H repo_path) ~~
      on_machine (git_checkout H repo_path base_commit) ~~
      (fun st =>
         run_all (map install (Harness.install_dependencies (paths H (machine st)) repo_path))
           st) ~~
      done repo_path
  | _ => fail (AttributeError "replace")
  end.

(** Lines 29-32: the patch is written into the repository directory. *)
Definition write_patch (instance : pyval) (repo_path : string) : Step string :=
  let patch_file := Harness.path_join repo_path "solution.patch" in
  on_machine (open_write H patch_file) ~~
  patch <~ subscript instance "patch" ;;
  match patch with
  | VStr text => on_machine (file_write H patch_file text) ~~ done patch_file
  | _ => fail (TypeError "write() argument must be str")
  end.

(** Lines 34-43. *)
Definition apply_and_test (patch_file repo_path : string) : Step unit :=
  fun st =>
    match (run (git_apply patch_file repo_path) ~~
           result <~ run (pytest repo_path) ;;
           if Z.eqb (returncode result) 0
           then print "✅ Solution appears to work!"
           else print "❌ Tests failed:" ~~ print (stdout result)) st with
    | (Raise e, st') =>
        match e with
        | OtherException cls text =>
            if String.eqb cls "CalledProcessError"
            then print ("❌ Failed to apply patch: " +:+ text) st'
            else (Raise e, st')
        | _ => (Raise e, st')
        end
    | ok => ok
    end.

(** The script, from the loaded instance on. *)
Definition evaluate (instance : pyval) : Step unit :=
  repo_path <~ prepare instance ;;
  patch_file <~ write_patch instance repo_path ;;
  apply_and_test patch_file repo_path.

Definition start (m : Machine H) : Progress :=
  {| machine := m; launched := []; printed := [] |}.

End Evaluate.

Arguments Progress : clear implicits.
Arguments Step : clear implicits.

(** A computation of the script that launches and prints nothing. *)
Definition quiet {H : Shell} {A} (c : Step H A) : Prop :=
  forall st, launched (snd (c st)) = launched st /\ printed (snd (c st)) = printed st.

(** How a process started in [cwd] reads a path it is given, seen from the
    directory of the script. *)
Definition seen_from (cwd : option string) (path : string) : string :=
  match cwd with
  | Some dir => Harness.path_join dir path
  | None => path
  end.


Definition is_clone (r : Run) : bool :=
  match r_argv r with
  | program :: command :: _ => String.eqb program "git" && String.eqb command "clone"
  | _ => false
  end.

Definition is_install (r : Run) : bool :=
  match r_argv r with
  | program :: command :: _ => String.eqb program "pip" && String.eqb command "install"
  | _ => false
  end.

(** Whether a character occurs in a string. *)
Fixpoint occurs (c : ascii) (s : string) : bool :=
  match s with
  | EmptyString => false
  | String c' rest => Ascii.eqb c' c || occurs c rest
  end.

End Script.

(** ** A scripted machine for the benchmark script

    The clone creates the directory with a [requirements.txt]; [git apply]
    and [pytest] exit with the given statuses. *)
Definition bench (apply_status test_status : Z) : Script.Shell :=
  {| Script.Machine := gset string;
     Script.paths := fun fs => fs;
     Script.subprocess_run := fun r fs =>
       match Script.r_argv r with
       | "git" :: "clone" :: _ :: path :: _ =>
           (Ok {| Script.returncode := 0; Script.stdout := "" |},
            {[path]} ∪ {[Harness.path_join path "requirements.txt"]} ∪ fs)
       | "git" :: "apply" :: _ =>
           (Ok {| Script.returncode := apply_status; Script.stdout := "" |}, fs)
       | "pytest" :: _ =>
           (Ok {| Script.returncode := test_status; Script.stdout := "1 failed, 2 passed" |}, fs)
       | _ => (Ok {| Script.returncode := 0; Script.stdout := "" |}, fs)
       end;
     Script.git_repo := fun _ fs => (Ok tt, fs);
     Script.git_checkout := fun _ _ fs => (Ok tt, fs);
     Script.open_write := fun path fs => (Ok tt, {[path]} ∪ fs);
     Script.file_write := fun _ _ fs => (Ok tt, fs);
     Script.process_error_text := fun _ _ => "Command returned non-zero exit status." |}.

Definition custom_instance : pyval :=
  VDict [("repo", VStr "octo/demo"); ("base_commit", VStr "0a1b2c3");
         ("patch", VStr "--- a/demo.py")].

(** A service whose model cannot be reached from inside the tools. *)
Definition connection_error : exn := OtherException "APIConnectionError" "Connection error.".

Definition unreachable : Services :=
  scripted lookup_then_answer (Raise connection_error) (Raise connection_error)
    (Raise file_not_found).

(** An environment and a [.env] file that both set the key and the collector
    endpoint. *)
Definition sample_environ : gmap string string :=
  <["OPENAI_API_KEY" := "sk-from-shell"]> (<["HOME" := "/root"]> ∅).

Definition sample_dotenv (_ : gmap string string) : gmap string string :=
  <["OPENAI_API_KEY" := "sk-from-file"]>
    (<["PHOENIX_COLLECTOR_ENDPOINT" := "http://collector:4317"]> ∅).

(** * Properties *)

Section Facts.

Context {S : Services}.

(** ** The monad *)

Lemma bind_Ok {A B} (c : M S A) (k : A -> M S B) st a st' :
  c st = (Ok a, st') -> bind c k st = k a st'.
Proof. intros H. unfold bind. now rewrite H. Qed.

Lemma bind_Raise {A B} (c : M S A) (k : A -> M S B) st e st' :
  c st = (Raise e, st') -> bind c k st = (Raise e, st').
Proof. intros H. unfold bind. now rewrite H. Qed.

Lemma messages_record_event ev (st : State S) :
  messages (record_event ev st) = messages st.
Proof. reflexivity. Qed.

Lemma world_record_event ev (st : State S) : world (record_event ev st) = world st.
Proof. reflexivity. Qed.

Lemma spans_record_event ev (st : State S) :
  spans (record_event ev st) = spans st ++ [ev].
Proof. reflexivity. Qed.

(** What the decorator does around a body, by the outcome of the body. *)
Lemma traced_unfold {A} kind n i (o : A -> SpanValue) (body : M S A) st :
  traced kind n i o body st =
  let span := length (spans st) in
  match body (record_event (SetInput span i) (record_event (SpanStart span n kind) st)) with
  | (Ok r, st1) =>
      (Ok r, record_event (SpanEnd span)
               (record_event (SetStatus span OK) (record_event (SetOutput span (o r)) st1)))
  | (Raise e, st1) => (Raise e, leave_span span (@Raise A e) st1)
  end.
Proof.
  unfold traced, with_span, bind, emit, ret. cbn zeta.
  destruct (body _) as [[r|e] st1]; reflexivity.
Qed.

Lemma messages_leave_span {A} span (r : Result A) (st : State S) :
  messages (leave_span span r st) = messages st.
Proof. reflexivity. Qed.

Lemma world_leave_span {A} span (r : Result A) (st : State S) :
  world (leave_span span r st) = world st.
Proof. reflexivity. Qed.

Lemma spans_leave_span {A} span (r : Result A) (st : State S) :
  spans (leave_span span r st) = spans st ++ exit_events span r.
Proof. reflexivity. Qed.

Lemma leave_span_Exception {A} span e (st : State S) :
  is_Exception e = true ->
  leave_span span (@Raise A e) st =
    record_event (SpanEnd span) (record_event (SetStatus span ERROR) st).
Proof.
  intros He. unfold leave_span, exit_events, record_event. cbn. rewrite He, <- app_assoc.
  reflexivity.
Qed.

Lemma leave_span_passing {A} span e (st : State S) :
  is_Exception e = false -> leave_span span (@Raise A e) st = record_event (SpanEnd span) st.
Proof. intros He. unfold leave_span, exit_events. now rewrite He. Qed.

(** ** Computations that leave the conversation alone *)

Lemma keeps_ret {A} (a : A) : keeps_messages (S:=S) (ret a).
Proof. intros st. reflexivity. Qed.

Lemma keeps_raise {A} e : keeps_messages (S:=S) (@raise S A e).
Proof. intros st. reflexivity. Qed.

Lemma keeps_emit ev : keeps_messages (S:=S) (emit ev).
Proof. intros st. reflexivity. Qed.

Lemma keeps_call {A} (op : World S -> Result A * World S) : keeps_messages (call op).
Proof. intros st. unfold call. destruct (op (world st)). reflexivity. Qed.

Lemma keeps_bind {A B} (c : M S A) (k : A -> M S B) :
  keeps_messages c -> (forall a, keeps_messages (k a)) -> keeps_messages (bind c k).
Proof.
  intros Hc Hk st. unfold bind. specialize (Hc st).
  destruct (c st) as [[a|e] st1]; cbn in *.
  - rewrite Hk. exact Hc.
  - exact Hc.
Qed.

Lemma keeps_try_except {A} (body : M S A) handler :
  keeps_messages body -> (forall e, keeps_messages (handler e)) ->
  keeps_messages (try_except body handler).
Proof.
  intros Hb Hh st. unfold try_except. specialize (Hb st).
  destruct (body st) as [[a|e] st1]; cbn in *; [exact Hb|].
  destruct (is_Exception e); cbn; [rewrite Hh|]; exact Hb.
Qed.

Lemma keeps_with_span {A} n kind (body : nat -> M S A) :
  (forall span, keeps_messages (body span)) -> keeps_messages (with_span n kind body).
Proof.
  intros Hb st. unfold with_span.
  specialize (Hb (length (spans st)) (record_event (SpanStart (length (spans st)) n kind) st)).
  destruct (body _ _) as [r st1]; cbn in *. exact Hb.
Qed.

Lemma keeps_first_choice {A} (l : list A) : keeps_messages (S:=S) (first_choice l).
Proof. destruct l; intros st; reflexivity. Qed.

Lemma keeps_str_method {A} m s (f : string -> A) : keeps_messages (S:=S) (str_method m s f).
Proof. destruct s; intros st; reflexivity. Qed.

Lemma keeps_getattr c attr field : keeps_messages (S:=S) (getattr c attr field).
Proof. destruct c; intros st; reflexivity. Qed.

Create HintDb keeps.
#[local] Hint Resolve keeps_ret keeps_raise keeps_emit keeps_call keeps_first_choice
  keeps_str_method keeps_getattr : keeps.
#[local] Hint Extern 2 (keeps_messages (bind _ _)) => apply keeps_bind; [|intros ?] : keeps.
#[local] Hint Extern 2 (keeps_messages (try_except _ _)) =>
  apply keeps_try_except; [|intros ?] : keeps.
#[local] Hint Extern 2 (keeps_messages (with_span _ _ _)) =>
  apply keeps_with_span; intros ? : keeps.

Lemma keeps_traced {A} kind n i (o : A -> SpanValue) (body : M S A) :
  keeps_messages body -> keeps_messages (traced kind n i o body).
Proof. intros Hb. unfold traced. auto 10 with keeps. Qed.

#[local] Hint Extern 2 (keeps_messages (traced _ _ _ _ _)) => apply keeps_traced : keeps.

Lemma keeps_lookup_sales_data prompt : keeps_messages (S:=S) (lookup_sales_data prompt).
Proof. unfold lookup_sales_data, lookup_sales_data_try, generate_sql_query. auto 20 with keeps. Qed.

Lemma keeps_analyze_sales_data prompt data :
  keeps_messages (S:=S) (analyze_sales_data prompt data).
Proof. unfold analyze_sales_data. auto 20 with keeps. Qed.

Lemma keeps_extract_chart_config data goal :
  keeps_messages (S:=S) (extract_chart_config data goal).
Proof. unfold extract_chart_config. auto 20 with keeps. Qed.

Lemma keeps_create_chart config : keeps_messages (S:=S) (create_chart config).
Proof. unfold create_chart. auto 20 with keeps. Qed.

Lemma keeps_generate_visualization data goal :
  keeps_messages (S:=S) (generate_visualization data goal).
Proof.
  unfold generate_visualization.
  apply keeps_traced, keeps_bind; [apply keeps_extract_chart_config|].
  intros config. apply keeps_create_chart.
Qed.

(** ** Dispatch *)

Lemma registry_cases n (f : PyFunction S) :
  tool_implementations !! n = Some f ->
  f = lookup_sales_data_fn \/ f = analyze_sales_data_fn \/ f = generate_visualization_fn.
Proof.
  unfold tool_implementations. intros H.
  apply lookup_insert_Some in H as [[_ H]|[_ H]]; [subst; auto|].
  apply lookup_insert_Some in H as [[_ H]|[_ H]]; [subst; auto|].
  apply lookup_insert_Some in H as [[_ H]|[_ H]]; [subst; auto|].
  rewrite lookup_empty in H. discriminate.
Qed.

Lemma keeps_registry n (f : PyFunction S) args :
  tool_implementations !! n = Some f -> keeps_messages (f_call f args).
Proof.
  intros H. destruct (registry_cases _ _ H) as [ -> | [ -> | -> ] ]; cbn;
    destruct args as [|a [|b [|c l]]]; unfold arity_error;
    auto using keeps_lookup_sales_data, keeps_analyze_sales_data,
      keeps_generate_visualization with keeps.
Qed.

Lemma keeps_call_kwargs (f : PyFunction S) function_args :
  (forall args, keeps_messages (f_call f args)) ->
  keeps_messages (call_kwargs f function_args).
Proof.
  intros Hf. unfold call_kwargs.
  destruct function_args; auto with keeps.
  destruct (forallb _ _); auto with keeps.
  destruct (mapM _ _); auto with keeps.
Qed.

(** One dispatch either appends exactly the tool message that answers the
    call, or raises and leaves the conversation as it was. *)
Lemma dispatch_spec tc (st : State S) :
  match dispatch tc st with
  | (Ok _, st') => exists result, messages st' = messages st ++ [tool_message result (id tc)]
  | (Raise _, st') => messages st' = messages st
  end.
Proof.
  unfold dispatch, bind.
  destruct (tool_implementations !! name (function tc)) as [f|] eqn:Hf; cbn; [|reflexivity].
  destruct (json_loads S (arguments (function tc))) as [v|]; cbn; [|reflexivity].
  pose proof (keeps_call_kwargs f v (fun args => keeps_registry _ f args Hf) st) as Hk.
  destruct (call_kwargs f v st) as [[r|e] st1]; cbn in *; [|exact Hk].
  exists r. now rewrite Hk.
Qed.

Lemma for_tool_calls_cons tc tcs (st : State S) :
  for_tool_calls (tc :: tcs) st =
  match dispatch tc st with
  | (Ok _, st1) => for_tool_calls tcs st1
  | (Raise e, st1) => (Raise e, st1)
  end.
Proof. reflexivity. Qed.

(** The [for] loop answers the calls in the order given, one tool message per
    call carrying the identifier of that call, and stops at the first call
    whose dispatch raises. *)
Lemma for_tool_calls_spec tcs : forall st : State S,
  exists results,
    messages (snd (for_tool_calls tcs st)) =
      messages st ++ zip_with tool_message results (map id tcs) /\
    match fst (for_tool_calls tcs st) with
    | Ok _ => length results = length tcs
    | Raise _ => length results < length tcs
    end.
Proof.
  induction tcs as [|tc tcs IH]; intros st.
  - exists []. cbn. split; [now rewrite app_nil_r|reflexivity].
  - rewrite for_tool_calls_cons.
    pose proof (dispatch_spec tc st) as Hd.
    destruct (dispatch tc st) as [[[]|e] st1].
    + destruct Hd as [r Hr]. destruct (IH st1) as [rs [Hm Hl]].
      exists (r :: rs). split.
      * rewrite Hm, Hr, <- app_assoc. reflexivity.
      * revert Hl. destruct (fst (for_tool_calls tcs st1)); cbn; lia.
    + exists []. cbn. split; [now rewrite app_nil_r|lia].
Qed.

Lemma for_tool_calls_app pre post (st : State S) :
  for_tool_calls (pre ++ post) st =
  match for_tool_calls pre st with
  | (Ok _, st1) => for_tool_calls post st1
  | (Raise e, st1) => (Raise e, st1)
  end.
Proof.
  revert st. induction pre as [|tc pre IH]; intros st; [reflexivity|].
  rewrite <- app_comm_cons, !for_tool_calls_cons.
  destruct (dispatch tc st) as [[[]|e] st1]; [apply IH|reflexivity].
Qed.

Lemma handle_tool_calls_unfold tcs (st : State S) :
  handle_tool_calls tcs st =
  let span := length (spans st) in
  match for_tool_calls tcs
          (record_event (SetInput span (SVDispatch tcs (messages st)))
             (record_event (SpanStart span "handle_tool_calls" CHAIN) st)) with
  | (Ok _, st1) =>
      (Ok (messages st1),
       record_event (SpanEnd span)
         (record_event (SetStatus span OK)
            (record_event (SetOutput span (SVMessages (messages st1))) st1)))
  | (Raise e, st1) => (Raise e, leave_span span (@Raise unit e) st1)
  end.
Proof.
  unfold handle_tool_calls, bind at 1, get_messages at 1. rewrite traced_unfold. cbn zeta.
  unfold bind, get_messages.
  destruct (for_tool_calls tcs _) as [[[]|e] st1]; reflexivity.
Qed.

Lemma handle_tool_calls_spec tcs (st : State S) :
  exists results,
    messages (snd (handle_tool_calls tcs st)) =
      messages st ++ zip_with tool_message results (map id tcs) /\
    match fst (handle_tool_calls tcs st) with
    | Ok returned =>
        length results = length tcs /\ returned = messages (snd (handle_tool_calls tcs st))
    | Raise _ => length results < length tcs
    end.
Proof.
  rewrite handle_tool_calls_unfold. cbn zeta.
  set (st0 := record_event _ (record_event _ st)).
  destruct (for_tool_calls_spec tcs st0) as [rs [Hm Hl]].
  exists rs. destruct (for_tool_calls tcs st0) as [[[]|e] st1]; cbn in *; auto.
Qed.

(** ** One pass of the loop *)

Lemma router_call_unfold (st : State S) :
  router_call st =
  let span := length (spans st) in
  let opened := [SpanStart span "router_call" CHAIN; SetInput span (SVMessages (messages st))] in
  match chat_completions_create S MODEL (messages st) (Some tools) (world st) with
  | (Ok response, w) =>
      match choices response with
      | m :: _ =>
          (Ok (span, m),
           {| world := w; messages := messages st ++ [MObj m];
              spans := spans st ++ opened ++ [SetStatus span OK; SpanEnd span] |})
      | [] =>
          (Raise (IndexError "list index out of range"),
           {| world := w; messages := messages st;
              spans := spans st ++ opened ++ [SetStatus span ERROR; SpanEnd span] |})
      end
  | (Raise e, w) =>
      (Raise e,
       {| world := w; messages := messages st;
          spans := spans st ++ opened ++ exit_events span (@Raise unit e) |})
  end.
Proof.
  unfold router_call, with_span, leave_span, bind, get_messages, emit, call, record_event; cbn.
  destruct (chat_completions_create S MODEL _ _ _) as [[response|e] w]; cbn.
  - destruct (choices response) as [|m l]; cbn;
      rewrite <- ?app_assoc; reflexivity.
  - rewrite <- ?app_assoc; reflexivity.
Qed.

Lemma iteration_unfold (st : State S) :
  iteration st =
  match router_call st with
  | (Ok (span, m), st1) =>
      match tool_calls m with
      | Some (tc :: rest) =>
          match handle_tool_calls (tc :: rest) st1 with
          | (Ok _, st2) =>
              (Ok Continue, record_event (SetOutput span (SVToolCalls (tc :: rest))) st2)
          | (Raise e, st2) => (Raise e, st2)
          end
      | _ => (Ok (Return (content m)), record_event (SetOutput span (SVText (content m))) st1)
      end
  | (Raise e, st1) => (Raise e, st1)
  end.
Proof.
  unfold iteration, bind at 1.
  destruct (router_call st) as [[[span m]|e] st1]; [|reflexivity].
  destruct (tool_calls m) as [[|tc rest]|]; reflexivity.
Qed.

Lemma truthy_calls (m : ChatCompletionMessage) :
  truthy (tool_calls m) = false -> calls_of m = [].
Proof. unfold calls_of. destruct (tool_calls m) as [[|]|]; cbn; congruence. Qed.

(** How a pass can end, read off the reply of the model: it returns exactly
    when the reply has no tool call; on a reply with tool calls it either
    answers them all and continues, or raises with the answers given so far. *)
Lemma iteration_spec (st : State S) :
  match iteration st with
  | (Ok (Return final), st') =>
      exists m, router_reply st = Some m /\ truthy (tool_calls m) = false /\
        final = content m /\ messages st' = messages st ++ [MObj m]
  | (Ok Continue, st') =>
      exists m results, router_reply st = Some m /\ truthy (tool_calls m) = true /\
        length results = length (calls_of m) /\
        messages st' = messages st ++ MObj m :: answers results (calls_of m)
  | (Raise e, st') =>
      (router_reply st = None /\ messages st' = messages st) \/
      exists m results, router_reply st = Some m /\ truthy (tool_calls m) = true /\
        length results < length (calls_of m) /\
        messages st' = messages st ++ MObj m :: answers results (calls_of m)
  end.
Proof.
  rewrite iteration_unfold, router_call_unfold. unfold router_reply. cbn zeta.
  destruct (chat_completions_create S MODEL _ _ _) as [[response|e] w]; [|now left].
  destruct (choices response) as [|m l]; [now left|]. cbn [head].
  destruct (tool_calls m) as [[|tc rest]|] eqn:Hc.
  - exists m. rewrite Hc. auto.
  - set (st1 := {| world := w |}).
    destruct (handle_tool_calls_spec (tc :: rest) st1) as [rs [Hm Hr]].
    destruct (handle_tool_calls (tc :: rest) st1) as [[ret_|e] st2]; cbn in Hm, Hr.
    + exists m, rs. unfold calls_of, answers. rewrite Hc. cbn [default truthy].
      rewrite messages_record_event, Hm. subst st1; cbn [messages].
      rewrite <- app_assoc. intuition.
    + right. exists m, rs. unfold calls_of, answers. rewrite Hc. cbn [default truthy].
      rewrite Hm. subst st1; cbn [messages]. rewrite <- app_assoc. intuition.
  - exists m. rewrite Hc. auto.
Qed.

(** A reply without tool calls makes the pass return its content. *)
Lemma iteration_returns (st : State S) m :
  router_reply st = Some m -> truthy (tool_calls m) = false ->
  exists st', iteration st = (Ok (Return (content m)), st') /\
    messages st' = messages st ++ [MObj m].
Proof.
  unfold router_reply. intros Hr Ht.
  rewrite iteration_unfold, router_call_unfold. cbn zeta.
  destruct (chat_completions_create S MODEL _ _ _) as [[response|e] w]; [|discriminate].
  destruct (choices response) as [|m' l]; [discriminate|]. cbn in Hr.
  injection Hr as ->.
  destruct (tool_calls m) as [[|tc rest]|]; [| discriminate |]; eexists; split; reflexivity.
Qed.

(** ** The loop *)

Lemma agent_loop_S fuel (st : State S) :
  agent_loop (Datatypes.S fuel) st =
  match iteration st with
  | (Ok Continue, st') => agent_loop fuel st'
  | (Ok (Return final), st') => Some (Ok final, st')
  | (Raise e, st') => Some (Raise e, st')
  end.
Proof. reflexivity. Qed.

Lemma passes_S k (st : State S) :
  passes (Datatypes.S k) st =
  match iteration st with
  | (Ok Continue, st') => passes k st'
  | _ => None
  end.
Proof. reflexivity. Qed.

(** The last of [k + 1] continuing passes starts where [k] of them end. *)
Lemma passes_last k : forall st : State S,
  passes (Datatypes.S k) st =
  match passes k st with
  | Some st_k =>
      match iteration st_k with
      | (Ok Continue, st') => Some st'
      | _ => None
      end
  | None => None
  end.
Proof.
  induction k as [|k IH]; intros st.
  - cbn. destruct (iteration st) as [[[|final]|e] st']; reflexivity.
  - rewrite passes_S. rewrite (passes_S k st).
    destruct (iteration st) as [[[|final]|e] st']; try reflexivity. apply IH.
Qed.

Lemma passes_earlier k : forall (st st' : State S) j,
  passes k st = Some st' -> j <= k -> is_Some (passes j st).
Proof.
  induction k as [|k IH]; intros st st' j Hp Hj.
  - replace j with 0 by lia. eexists; reflexivity.
  - destruct (decide (j = Datatypes.S k)) as [->|Hne]; [eauto|].
    rewrite passes_last in Hp.
    destruct (passes k st) as [st_k|] eqn:Hk; [|discriminate].
    apply (IH st st_k); [exact Hk|lia].
Qed.

(** The loop is still running after [fuel] passes exactly when all of them
    ended in [Continue]. *)
Lemma agent_loop_None fuel : forall st : State S,
  agent_loop fuel st = None <-> is_Some (passes fuel st).
Proof.
  induction fuel as [|fuel IH]; intros st.
  - cbn. split; [eauto|reflexivity].
  - rewrite agent_loop_S, passes_S.
    destruct (iteration st) as [[[|final]|e] st']; [apply IH|..];
      (split; [discriminate|intros [x Hx]; discriminate]).
Qed.

(** However the loop is left, it is left by its last pass, after passes that
    all continued. *)
Lemma agent_loop_Some fuel : forall (st : State S) r st',
  agent_loop fuel st = Some (r, st') ->
  exists k st_k, k < fuel /\ passes k st = Some st_k /\
    match r with
    | Ok final => iteration st_k = (Ok (Return final), st')
    | Raise e => iteration st_k = (Raise e, st')
    end.
Proof.
  induction fuel as [|fuel IH]; intros st r st' H; [discriminate|].
  rewrite agent_loop_S in H.
  destruct (iteration st) as [[[|final]|e] st1] eqn:Hi.
  - destruct (IH _ _ _ H) as (k & st_k & Hk & Hp & Hr).
    exists (Datatypes.S k), st_k. rewrite passes_S, Hi. split; [lia|]. split; assumption.
  - injection H as <- <-. exists 0, st. split; [lia|]. split; [reflexivity|exact Hi].
  - injection H as <- <-. exists 0, st. split; [lia|]. split; [reflexivity|exact Hi].
Qed.

(** With enough fuel the loop does what the first pass that does not
    continue does. *)
Lemma agent_loop_leaves k : forall (st st_k : State S) fuel,
  passes k st = Some st_k -> k < fuel ->
  agent_loop fuel st =
  match iteration st_k with
  | (Ok Continue, st') => agent_loop (fuel - Datatypes.S k) st'
  | (Ok (Return final), st') => Some (Ok final, st')
  | (Raise e, st') => Some (Raise e, st')
  end.
Proof.
  induction k as [|k IH]; intros st st_k fuel Hp Hk.
  - injection Hp as <-. destruct fuel as [|fuel]; [lia|].
    rewrite agent_loop_S. replace (Datatypes.S fuel - 1) with fuel by lia. reflexivity.
  - destruct fuel as [|fuel]; [lia|].
    rewrite passes_S in Hp. rewrite agent_loop_S.
    destruct (iteration st) as [[[|final]|e] st1]; try discriminate.
    rewrite (IH st1 st_k fuel Hp) by lia. reflexivity.
Qed.

(** The conversation after a run: what was there, then complete blocks, the
    last of which may be cut short when the run ends by an exception. *)
Lemma agent_loop_blocks fuel : forall (st : State S) r st',
  agent_loop fuel st = Some (r, st') ->
  exists app, messages st' = messages st ++ app /\ run_blocks (is_Ok r) app.
Proof.
  induction fuel as [|fuel IH]; intros st r st' H; [discriminate|].
  rewrite agent_loop_S in H. pose proof (iteration_spec st) as Hi.
  destruct (iteration st) as [[[|final]|e] st1].
  - destruct Hi as (m & rs & _ & _ & Hl & Hm).
    destruct (IH _ _ _ H) as (app & Happ & Hb).
    exists (MObj m :: answers rs (calls_of m) ++ app). split.
    + rewrite Happ, Hm, <- app_assoc. reflexivity.
    + now constructor.
  - injection H as <- <-. destruct Hi as (m & _ & Ht & _ & Hm).
    exists [MObj m]. split; [exact Hm|].
    pose proof (rb_block true m [] [] ) as Hb.
    rewrite (truthy_calls m Ht) in Hb. apply Hb; [reflexivity|constructor].
  - injection H as <- <-. destruct Hi as [[_ Hm]|(m & rs & _ & _ & Hl & Hm)].
    + exists []. split; [now rewrite app_nil_r|constructor].
    + exists (MObj m :: answers rs (calls_of m)). split; [exact Hm|now constructor].
Qed.

(** ** Correlation of tool results with requests *)

Lemma request_ids_app l1 l2 : request_ids (l1 ++ l2) = request_ids l1 ++ request_ids l2.
Proof. apply flat_map_app. Qed.

Lemma result_ids_app l1 l2 : result_ids (l1 ++ l2) = result_ids l1 ++ result_ids l2.
Proof. apply omap_app. Qed.

Lemma request_ids_answers results calls : request_ids (answers results calls) = [].
Proof.
  unfold answers. revert calls.
  induction results as [|r rs IH]; intros [|c cs]; cbn; auto.
Qed.

Lemma result_ids_answers results calls :
  result_ids (answers results calls) = take (length results) (map id calls).
Proof.
  unfold answers, result_ids. revert calls.
  induction results as [|r rs IH]; intros [|c cs]; cbn; auto.
  now rewrite IH.
Qed.

Lemma answers_lookup results calls i x :
  answers results calls !! i = Some x ->
  exists r c, calls !! i = Some c /\ x = tool_message r (id c).
Proof.
  unfold answers. intros H. apply lookup_zip_with_Some in H as (r & t & -> & _ & Ht).
  rewrite list_lookup_fmap in Ht. destruct (calls !! i) as [c|]; [|discriminate].
  injection Ht as <-. eauto.
Qed.

(** Inside one block, a tool message answers a call of the assistant message
    that opens the block. *)
Lemma block_earlier m results i x t :
  (MObj m :: answers results (calls_of m)) !! i = Some x ->
  result_id x = Some t ->
  t ∈ request_ids (take i (MObj m :: answers results (calls_of m))).
Proof.
  destruct i as [|i]; cbn [lookup list_lookup]; intros Hx Ht.
  - injection Hx as <-. discriminate.
  - apply answers_lookup in Hx as (r & c & Hc & ->). cbn in Ht. injection Ht as <-.
    cbn [take request_ids flat_map]. apply elem_of_app. left.
    apply list_elem_of_fmap. exists c. split; [reflexivity|].
    eapply list_elem_of_lookup_2; eassumption.
Qed.

Lemma blocks_earlier c app :
  run_blocks c app ->
  forall i x t, app !! i = Some x -> result_id x = Some t ->
    t ∈ request_ids (take i app).
Proof.
  induction 1 as [c|m rs Hl|c m rs rest Hl Hb IH]; intros i x t Hx Ht.
  - rewrite lookup_nil in Hx. discriminate.
  - eapply block_earlier; eassumption.
  - rewrite app_comm_cons in *.
    set (block := MObj m :: answers rs (calls_of m)) in *.
    apply lookup_app_Some in Hx as [Hx|[Hge Hx]].
    + apply lookup_lt_Some in Hx as Hlt.
      rewrite take_app_le by lia. eapply block_earlier; eassumption.
    + rewrite take_app_ge by lia. rewrite request_ids_app. apply elem_of_app. right.
      eapply IH; eassumption.
Qed.

(** The identifiers of the tool results are the identifiers of the requests,
    in the same order, up to where the run stopped. *)
Lemma blocks_prefix c app :
  run_blocks c app -> result_ids app `prefix_of` request_ids app.
Proof.
  induction 1 as [c|m rs Hl|c m rs rest Hl Hb IH].
  - exists []. reflexivity.
  - change (MObj m :: answers rs (calls_of m)) with ([MObj m] ++ answers rs (calls_of m)).
    rewrite request_ids_app, result_ids_app, request_ids_answers, result_ids_answers.
    cbn. rewrite !app_nil_r.
    exists (drop (length rs) (map id (calls_of m))). now rewrite take_drop.
  - change (MObj m :: answers rs (calls_of m) ++ rest)
      with ([MObj m] ++ answers rs (calls_of m) ++ rest).
    rewrite !request_ids_app, !result_ids_app, request_ids_answers, result_ids_answers.
    cbn. rewrite app_nil_r, Hl, <- (length_map id), firstn_all.
    now apply prefix_app.
Qed.

Lemma blocks_complete app :
  run_blocks true app -> result_ids app = request_ids app.
Proof.
  remember true as c eqn:Hc. induction 1 as [c|m rs Hl|c m rs rest Hl Hb IH].
  - reflexivity.
  - discriminate.
  - change (MObj m :: answers rs (calls_of m) ++ rest)
      with ([MObj m] ++ answers rs (calls_of m) ++ rest).
    rewrite !request_ids_app, !result_ids_app, request_ids_answers, result_ids_answers.
    cbn. rewrite app_nil_r, Hl, <- (length_map id), firstn_all, IH by assumption.
    reflexivity.
Qed.

(** ** Termination of the agent loop *)

Lemma passes_forever (I : State S -> Prop) :
  (forall st : State S, I st ->
     (exists m, router_reply st = Some m /\ truthy (tool_calls m) = true) /\
     (forall e st', iteration st <> (Raise e, st')) /\
     (forall st', iteration st = (Ok Continue, st') -> I st')) ->
  forall k (st : State S), I st -> is_Some (passes k st).
Proof.
  intros Hall. induction k as [|k IH]; intros st Hst; [eexists; reflexivity|].
  rewrite passes_S. destruct (Hall st Hst) as ((m & Hm & Ht) & Hno & Hnext).
  pose proof (iteration_spec st) as Hi.
  destruct (iteration st) as [[[|final]|e] st1].
  - apply IH, Hnext. reflexivity.
  - destruct Hi as (m' & Hm' & Ht' & _). congruence.
  - now destruct (Hno e st1).
Qed.

(** C1, amended.  [run_agent] returns only through a pass whose model reply
    has no tool call, and then returns the content of that reply; every pass
    before it had a reply with tool calls, so it is the first such reply, and
    with enough fuel the loop does return there.  The only other way out is
    an exception raised by a pass, which always ends the run.  The loop
    is still running after [fuel] passes exactly when all of them continued;
    this is so for every [fuel] when, in every state the run can reach, the
    reply carries a tool call and the pass does not raise. *)
Theorem run_agent_termination fuel input (w : World S) log :
  let st0 := {| world := w; messages := normalize input; spans := log |} in
  (forall final st', run_agent fuel input w log = Some (Ok final, st') ->
     exists k st_k m, k < fuel /\ passes k st0 = Some st_k /\
       router_reply st_k = Some m /\ truthy (tool_calls m) = false /\ final = content m) /\
  (forall k st_k m, k < fuel -> passes k st0 = Some st_k ->
     router_reply st_k = Some m -> truthy (tool_calls m) = false ->
     exists st', run_agent fuel input w log = Some (Ok (content m), st')) /\
  (forall k st_k, passes k st0 = Some st_k -> forall j, j < k ->
     exists st_j m, passes j st0 = Some st_j /\
       router_reply st_j = Some m /\ truthy (tool_calls m) = true) /\
  (forall e st', run_agent fuel input w log = Some (Raise e, st') ->
     exists k st_k, k < fuel /\ passes k st0 = Some st_k /\ iteration st_k = (Raise e, st')) /\
  (forall k st_k e st', k < fuel -> passes k st0 = Some st_k ->
     iteration st_k = (Raise e, st') -> run_agent fuel input w log = Some (Raise e, st')) /\
  (run_agent fuel input w log = None <-> is_Some (passes fuel st0)) /\
  (forall I : State S -> Prop,
     I st0 ->
     (forall st : State S, I st ->
        (exists m, router_reply st = Some m /\ truthy (tool_calls m) = true) /\
        (forall e st', iteration st <> (Raise e, st')) /\
        (forall st', iteration st = (Ok Continue, st') -> I st')) ->
     run_agent fuel input w log = None).
Proof.
  intros st0. unfold run_agent. fold st0. repeat split.
  - intros final st' H. apply agent_loop_Some in H as (k & st_k & Hk & Hp & Hi).
    pose proof (iteration_spec st_k) as Hs. rewrite Hi in Hs.
    destruct Hs as (m & Hm & Ht & Hf & _). exists k, st_k, m. auto.
  - intros k st_k m Hk Hp Hm Ht.
    destruct (iteration_returns st_k m Hm Ht) as (st' & Hi & _).
    exists st'. rewrite (agent_loop_leaves k st0 st_k fuel Hp Hk), Hi. reflexivity.
  - intros k st_k Hp j Hj.
    destruct (passes_earlier k st0 st_k (Datatypes.S j) Hp ltac:(lia)) as [st_j' Hj'].
    rewrite passes_last in Hj'.
    destruct (passes j st0) as [st_j|]; [|discriminate].
    pose proof (iteration_spec st_j) as Hs.
    destruct (iteration st_j) as [[[|final]|e] st1]; try discriminate.
    destruct Hs as (m & rs & Hm & Ht & _). exists st_j, m. auto.
  - intros e st' H. apply agent_loop_Some in H as (k & st_k & Hk & Hp & Hi). eauto.
  - intros k st_k e st' Hk Hp Hi.
    rewrite (agent_loop_leaves k st0 st_k fuel Hp Hk), Hi. reflexivity.
  - apply agent_loop_None.
  - apply agent_loop_None.
  - intros I H0 Hall. apply agent_loop_None. now apply (passes_forever I Hall).
Qed.

(** ** Input normalization *)

Lemma count_system_app l1 l2 : count_system (l1 ++ l2) = count_system l1 + count_system l2.
Proof. unfold count_system. now rewrite List.filter_app, length_app. Qed.

Lemma count_system_none l : existsb is_system l = false -> count_system l = 0.
Proof.
  unfold count_system. induction l as [|m l IH]; cbn; [reflexivity|].
  destruct (is_system m); cbn; [discriminate|exact IH].
Qed.

Lemma count_system_some l : existsb is_system l = true -> 1 <= count_system l.
Proof.
  unfold count_system. induction l as [|m l IH]; cbn; [discriminate|].
  destruct (is_system m); cbn; [lia|exact IH].
Qed.

(** C2, amended.  A bare string becomes the user message followed by the
    system message with the fixed prompt.  When the input holds no system
    message, that system message is appended at the end; otherwise the input
    is kept as it is.  After normalization there is at least one system
    message, and exactly one whenever the input held at most one. *)
Theorem normalize_system_message input :
  (forall s, input = InStr s ->
     normalize input = [msg_dict "user" (VStr s); msg_dict "system" (VStr SYSTEM_PROMPT)]) /\
  (existsb is_system (raw_messages input) = false ->
     normalize input = raw_messages input ++ [msg_dict "system" (VStr SYSTEM_PROMPT)]) /\
  (existsb is_system (raw_messages input) = true -> normalize input = raw_messages input) /\
  1 <= count_system (normalize input) /\
  (count_system (raw_messages input) <= 1 -> count_system (normalize input) = 1).
Proof.
  assert (Hn : normalize input =
               if existsb is_system (raw_messages input) then raw_messages input
               else raw_messages input ++ [msg_dict "system" (VStr SYSTEM_PROMPT)])
    by (destruct input; reflexivity).
  repeat split.
  - intros s ->. reflexivity.
  - intros H. now rewrite Hn, H.
  - intros H. now rewrite Hn, H.
  - rewrite Hn. destruct (existsb is_system (raw_messages input)) eqn:H.
    + now apply count_system_some.
    + rewrite count_system_app. cbn. lia.
  - intros Hle. rewrite Hn. destruct (existsb is_system (raw_messages input)) eqn:H.
    + apply count_system_some in H. lia.
    + rewrite count_system_app, (count_system_none _ H). reflexivity.
Qed.

(** ** Correlation after a run *)

(** C3, amended.  [handle_tool_calls] dispatches the calls one after the
    other in the order given and appends, in that order, one tool message per
    call carrying the identifier of the call, up to the first call whose
    dispatch raises.  After a run, what the run appended is a sequence of
    blocks, an assistant message followed by the answers to its calls: every
    appended tool result carries the identifier of a request of an earlier
    appended assistant message, and the identifiers of the tool results are
    those of the requests in order (all of them when the run returns).  When
    the identifiers the model issued during the run are pairwise distinct,
    every tool result matches exactly one request and no two tool results
    share an identifier. *)
Theorem tool_results_correlate :
  (forall pre post (st : State S),
     for_tool_calls (pre ++ post) st =
     match for_tool_calls pre st with
     | (Ok _, st1) => for_tool_calls post st1
     | (Raise e, st1) => (Raise e, st1)
     end) /\
  (forall tcs (st : State S),
     exists results,
       messages (snd (handle_tool_calls tcs st)) = messages st ++ answers results tcs /\
       match fst (handle_tool_calls tcs st) with
       | Ok returned =>
           length results = length tcs /\
           returned = messages (snd (handle_tool_calls tcs st))
       | Raise _ => length results < length tcs
       end) /\
  (forall fuel input (w : World S) log r st',
     run_agent fuel input w log = Some (r, st') ->
     exists app,
       messages st' = normalize input ++ app /\ run_blocks (is_Ok r) app /\
       (forall i x t, app !! i = Some x -> result_id x = Some t ->
          t ∈ request_ids (take i app)) /\
       result_ids app `prefix_of` request_ids app /\
       (is_Ok r = true -> result_ids app = request_ids app) /\
       (NoDup (request_ids app) ->
          NoDup (result_ids app) /\
          forall i x t, app !! i = Some x -> result_id x = Some t ->
            exists j, request_ids (take i app) !! j = Some t /\
              forall j', request_ids app !! j' = Some t -> j' = j)).
Proof.
  split; [exact for_tool_calls_app|]. split; [exact handle_tool_calls_spec|].
  intros fuel input w log r st' H. unfold run_agent in H.
  apply agent_loop_blocks in H as (app & Hm & Hb). cbn [messages] in Hm.
  exists app. split; [exact Hm|]. split; [exact Hb|].
  pose proof (blocks_earlier _ _ Hb) as Hearlier.
  pose proof (blocks_prefix _ _ Hb) as Hprefix.
  split; [exact Hearlier|]. split; [exact Hprefix|]. split.
  - intros Hok. rewrite Hok in Hb. now apply blocks_complete.
  - intros Hnd. split.
    + destruct Hprefix as [k Hk]. rewrite Hk in Hnd. now apply NoDup_app in Hnd as [? _].
    + intros i x t Hx Ht. specialize (Hearlier i x t Hx Ht).
      apply list_elem_of_lookup in Hearlier as [j Hj]. exists j. split; [exact Hj|].
      intros j' Hj'. eapply NoDup_lookup; [exact Hnd|exact Hj'|].
      rewrite <- (take_drop i app), request_ids_app.
      now apply lookup_app_l_Some.
Qed.

(** ** Fatal dispatch errors *)

Lemma dispatch_unknown tc (st : State S) :
  tool_implementations (S:=S) !! name (function tc) = None ->
  dispatch tc st = (Raise (KeyError (name (function tc))), st).
Proof. intros H. unfold dispatch, bind. now rewrite H. Qed.

Lemma dispatch_malformed tc (st : State S) :
  is_Some (tool_implementations (S:=S) !! name (function tc)) ->
  json_loads S (arguments (function tc)) = None ->
  dispatch tc st = (Raise (JSONDecodeError (arguments (function tc))), st).
Proof. intros [f Hf] H. unfold dispatch, bind. now rewrite Hf, H. Qed.

(** A call whose dispatch always raises stops the [for] loop: the calls
    before it are answered as far as they get, the call itself never is. *)
Lemma for_tool_calls_fatal tc e :
  (forall st : State S, dispatch tc st = (Raise e, st)) ->
  forall pre post (st : State S),
  exists e' st' results,
    for_tool_calls (pre ++ tc :: post) st = (Raise e', st') /\
    messages st' = messages st ++ answers results pre /\
    length results <= length pre /\
    (length results = length pre -> e' = e).
Proof.
  intros Hbad pre post. induction pre as [|c pre IH]; intros st.
  - exists e, st, []. cbn [app]. rewrite for_tool_calls_cons, Hbad.
    cbn. rewrite app_nil_r. auto.
  - rewrite <- app_comm_cons, for_tool_calls_cons.
    pose proof (dispatch_spec c st) as Hd.
    destruct (dispatch c st) as [[[]|e1] st1].
    + destruct Hd as [r Hr]. destruct (IH st1) as (e' & st' & rs & Hf & Hm & Hl & He).
      exists e', st', (r :: rs). split; [exact Hf|]. split; [|split].
      * rewrite Hm, Hr, <- app_assoc. reflexivity.
      * cbn. lia.
      * cbn. intros Heq. apply He. lia.
    + exists e1, st1, []. cbn. rewrite app_nil_r. split; [reflexivity|].
      split; [exact Hd|]. split; [lia|]. intros Heq. lia.
Qed.

(** The pass after a reply that carries tool calls. *)
Lemma iteration_dispatches (st : State S) response w m others tc rest :
  chat_completions_create S MODEL (messages st) (Some tools) (world st) = (Ok response, w) ->
  choices response = m :: others ->
  tool_calls m = Some (tc :: rest) ->
  let span := length (spans st) in
  let st1 :=
    {| world := w; messages := messages st ++ [MObj m];
       spans := spans st ++
         [SpanStart span "router_call" CHAIN; SetInput span (SVMessages (messages st));
          SetStatus span OK; SpanEnd span] |} in
  iteration st =
  match handle_tool_calls (tc :: rest) st1 with
  | (Ok _, st2) => (Ok Continue, record_event (SetOutput span (SVToolCalls (tc :: rest))) st2)
  | (Raise e, st2) => (Raise e, st2)
  end.
Proof.
  intros Hc Hm Ht. rewrite iteration_unfold, router_call_unfold. cbn zeta.
  rewrite Hc, Hm, Ht. reflexivity.
Qed.

(** C4.  A call that names no registered tool makes the dispatch raise the
    lookup error and leaves the state, hence the conversation, as it was; a
    call to a registered tool whose payload is not JSON raises the decoding
    error in the same way.  The error stops [handle_tool_calls] and leaves
    the agent loop: the run ends by an exception, the conversation holds the
    assistant message and the answers to calls issued before the failing one,
    and none for the failing call or the calls after it. *)
Theorem unknown_tool_propagates tc e :
  (tool_implementations (S:=S) !! name (function tc) = None /\
   e = KeyError (name (function tc))) \/
  (is_Some (tool_implementations (S:=S) !! name (function tc)) /\
   json_loads S (arguments (function tc)) = None /\
   e = JSONDecodeError (arguments (function tc))) ->
  (forall st : State S, dispatch tc st = (Raise e, st)) /\
  (forall pre post (st : State S),
     exists e' st' results,
       for_tool_calls (pre ++ tc :: post) st = (Raise e', st') /\
       messages st' = messages st ++ answers results pre /\
       length results <= length pre /\
       (length results = length pre -> e' = e)) /\
  (forall fuel (st : State S) m pre post,
     router_reply st = Some m ->
     tool_calls m = Some (pre ++ tc :: post) ->
     exists e' st' results,
       agent_loop (Datatypes.S fuel) st = Some (Raise e', st') /\
       messages st' = messages st ++ MObj m :: answers results pre /\
       length results <= length pre /\
       (length results = length pre -> e' = e)).
Proof.
  intros Hbad.
  assert (Hd : forall st : State S, dispatch tc st = (Raise e, st)).
  { intros st. destruct Hbad as [[Hn ->]|(Hf & Hj & ->)].
    - now apply dispatch_unknown.
    - now apply dispatch_malformed. }
  split; [exact Hd|]. split; [exact (for_tool_calls_fatal tc e Hd)|].
  intros fuel st m pre post Hr Hc. unfold router_reply in Hr.
  destruct (chat_completions_create S MODEL (messages st) (Some tools) (world st))
    as [[response|e0] w] eqn:Hreq; [|discriminate].
  destruct (choices response) as [|m' others] eqn:Hch; [discriminate|].
  injection Hr as ->.
  destruct (pre ++ tc :: post) as [|c0 cs] eqn:Hcalls; [now destruct pre|].
  rewrite agent_loop_S, (iteration_dispatches st response w m others c0 cs Hreq Hch Hc).
  cbn zeta. rewrite handle_tool_calls_unfold. cbn zeta. rewrite <- Hcalls.
  match goal with |- context [for_tool_calls _ ?s] => set (st0 := s) end.
  destruct (for_tool_calls_fatal tc e Hd pre post st0) as (e' & st' & rs & Hf & Hm & Hl & He).
  rewrite Hf. eexists e', _, rs. split; [reflexivity|].
  rewrite messages_leave_span, Hm. subst st0. cbn [messages record_event].
  rewrite <- app_assoc. auto.
Qed.

(** ** The chart configuration *)

Lemma extract_chart_config_unfold data goal (st : State S) :
  extract_chart_config data goal st =
  let span := length (spans st) in
  let st0 := entered CHAIN "extract_chart_config" (SVArgs [data; goal]) st in
  match chat_completions_parse S MODEL (user_prompt (CHART_CONFIGURATION_PROMPT (S:=S) data goal))
          (world st) with
  | (Ok response, w) =>
      let config :=
        match parsed_choices response with
        | ContentConfig c :: _ =>
            [("chart_type", VStr (chart_type c)); ("x_axis", VStr (x_axis c));
             ("y_axis", VStr (y_axis c)); ("title", VStr (title c)); ("data", data)]
        | _ => documented_default_config goal ++ [("data", data)]
        end in
      (Ok config,
       {| world := w; messages := messages st;
          spans := spans st0 ++
            [SetOutput span (SVDict config); SetStatus span OK; SpanEnd span] |})
  | (Raise e, w) =>
      (Raise e,
       {| world := w; messages := messages st;
          spans := spans st0 ++ exit_events span (@Raise unit e) |})
  end.
Proof.
  unfold extract_chart_config. rewrite traced_unfold. cbn zeta.
  unfold bind at 1, call. cbn [world record_event].
  destruct (chat_completions_parse S MODEL _ (world st)) as [[response|e] w]; [|reflexivity].
  unfold try_except, bind, first_choice, getattr, ret, raise.
  destruct (parsed_choices response) as [|[|s0|c] l]; cbn;
    unfold entered, leave_span, record_event; cbn; rewrite <- !app_assoc; reflexivity.
Qed.

(** C5, amended.  When the structured-output request returns a completion
    whose content is not a configuration object, so that reading its fields
    fails, [extract_chart_config] does not raise: it returns the documented
    default extended by the [data] entry. *)
Theorem extract_chart_config_fallback data goal (st : State S) response w :
  chat_completions_parse S MODEL (user_prompt (CHART_CONFIGURATION_PROMPT (S:=S) data goal)) (world st)
    = (Ok response, w) ->
  (forall c rest, parsed_choices response <> ContentConfig c :: rest) ->
  exists st',
    extract_chart_config data goal st =
      (Ok (documented_default_config goal ++ [("data", data)]), st').
Proof.
  intros Hp Hno. rewrite extract_chart_config_unfold. cbn zeta. rewrite Hp.
  destruct (parsed_choices response) as [|[|s0|c] l] eqn:Hc; try (eexists; reflexivity).
  now destruct (Hno c l).
Qed.

(** C10.  Whatever [extract_chart_config] returns is a dictionary with the
    five keys [chart_type], [x_axis], [y_axis], [title] and [data], in which
    [data] holds the argument unchanged; it returns whenever the
    structured-output request does, with the fields of the parsed
    configuration when there is one and with the default otherwise. *)
Theorem extract_chart_config_carries_data data goal (st : State S) :
  (forall config st', extract_chart_config data goal st = (Ok config, st') ->
     dict_keys config = ["chart_type"; "x_axis"; "y_axis"; "title"; "data"] /\
     dict_get "data" config = Some data) /\
  (forall response w,
     chat_completions_parse S MODEL (user_prompt (CHART_CONFIGURATION_PROMPT (S:=S) data goal)) (world st)
       = (Ok response, w) ->
     exists config st',
       extract_chart_config data goal st = (Ok config, st') /\
       dict_get "data" config = Some data /\
       (forall c rest, parsed_choices response = ContentConfig c :: rest ->
          config = [("chart_type", VStr (chart_type c)); ("x_axis", VStr (x_axis c));
                    ("y_axis", VStr (y_axis c)); ("title", VStr (title c)); ("data", data)]) /\
       ((forall c rest, parsed_choices response <> ContentConfig c :: rest) ->
          config = [("chart_type", VStr "line"); ("x_axis", VStr "date");
                    ("y_axis", VStr "value"); ("title", goal); ("data", data)])).
Proof.
  split.
  - intros config st'. rewrite extract_chart_config_unfold. cbn zeta.
    destruct (chat_completions_parse S MODEL _ (world st)) as [[response|e] w]; [|discriminate].
    intros H. injection H as <- _.
    destruct (parsed_choices response) as [|[|s0|c] l]; split; reflexivity.
  - intros response w Hp. rewrite extract_chart_config_unfold. cbn zeta. rewrite Hp.
    eexists _, _. split; [reflexivity|].
    destruct (parsed_choices response) as [|[|s0|c] l]; (split; [reflexivity|]); split;
      try discriminate; try reflexivity.
    + intros c' rest H. injection H as <- _. reflexivity.
    + intros H. now destruct (H c l).
Qed.

(** ** The registry *)

Lemma registry_lookup_sales_data :
  tool_implementations (S:=S) !! "lookup_sales_data" = Some lookup_sales_data_fn.
Proof. unfold tool_implementations. apply lookup_insert_eq. Qed.

Lemma registry_analyze_sales_data :
  tool_implementations (S:=S) !! "analyze_sales_data" = Some analyze_sales_data_fn.
Proof.
  unfold tool_implementations. rewrite lookup_insert_ne by discriminate.
  apply lookup_insert_eq.
Qed.

Lemma registry_generate_visualization :
  tool_implementations (S:=S) !! "generate_visualization" = Some generate_visualization_fn.
Proof.
  unfold tool_implementations. rewrite !lookup_insert_ne by discriminate.
  apply lookup_insert_eq.
Qed.

(** ** The data lookup *)

Lemma lookup_sales_data_unfold prompt (st : State S) :
  lookup_sales_data prompt st =
  let span := length (spans st) in
  let finish text st1 :=
    (Ok text,
     record_event (SpanEnd span)
       (record_event (SetStatus span OK) (record_event (SetOutput span (SVStr text)) st1))) in
  match lookup_sales_data_try prompt (entered TOOL "lookup_sales_data" (SVArgs [prompt]) st) with
  | (Ok text, st1) => finish text st1
  | (Raise e, st1) =>
      if is_Exception e then finish ("Error accessing data: " ++ exc_str S e)%string st1
      else (Raise e, record_event (SpanEnd span) st1)
  end.
Proof.
  unfold lookup_sales_data. rewrite traced_unfold. cbn zeta. unfold try_except, entered.
  destruct (lookup_sales_data_try prompt _) as [[text|e] st1]; [reflexivity|].
  destruct (is_Exception e) eqn:He; [reflexivity|]. now rewrite leave_span_passing.
Qed.

(** The data source being unavailable is a failure of the [try] block. *)
Lemma lookup_sales_data_try_unavailable prompt (st : State S) e w :
  read_parquet S TRANSACTION_DATA_FILE_PATH (world st) = (Raise e, w) ->
  lookup_sales_data_try prompt st =
    (Raise e, {| world := w; messages := messages st; spans := spans st |}).
Proof. intros H. unfold lookup_sales_data_try, bind at 1, call. now rewrite H. Qed.

(** So is a model reply without content when the query is generated. *)
Lemma lookup_sales_data_try_no_query prompt (st : State S) df w1 rel w2 w3 m others :
  read_parquet S TRANSACTION_DATA_FILE_PATH (world st) = (Ok df, w1) ->
  duckdb_sql S "CREATE TABLE IF NOT EXISTS sales AS SELECT * FROM df" df w1 = (Ok rel, w2) ->
  chat_completions_create S MODEL
    (user_prompt (SQL_GENERATION_PROMPT (S:=S) prompt (df_columns S df) "sales")) None w2 =
    (Ok {| choices := m :: others |}, w3) ->
  content m = None ->
  lookup_sales_data_try prompt st =
    (Raise (AttributeError "strip"),
     {| world := w3; messages := messages st; spans := spans st |}).
Proof.
  intros Hr Hc Hq Hn. unfold lookup_sales_data_try, generate_sql_query, bind, call.
  cbn [world]. rewrite Hr.
  change ("CREATE TABLE IF NOT EXISTS " +:+ "sales" +:+ " AS SELECT * FROM df")
    with "CREATE TABLE IF NOT EXISTS sales AS SELECT * FROM df".
  cbn [world]. rewrite Hc. cbn [world]. rewrite Hq. cbn. rewrite Hn. reflexivity.
Qed.

Lemma dispatch_lookup_sales_data tc prompt (st : State S) :
  name (function tc) = "lookup_sales_data" ->
  json_loads S (arguments (function tc)) = Some (VDict [("prompt", prompt)]) ->
  dispatch tc st =
  match lookup_sales_data prompt st with
  | (Ok result, st1) =>
      (Ok tt, {| world := world st1;
                 messages := messages st1 ++ [tool_message result (id tc)];
                 spans := spans st1 |})
  | (Raise e, st1) => (Raise e, st1)
  end.
Proof.
  intros Hn Hj. unfold dispatch, bind at 1.
  rewrite Hn, registry_lookup_sales_data. unfold ret at 1, bind at 1. rewrite Hj.
  unfold ret at 1, bind. cbn.
  destruct (lookup_sales_data prompt st) as [[result|e] st1]; reflexivity.
Qed.

(** C6.  [lookup_sales_data] never lets an [Exception] out.  When a step of
    its [try] block raises one, the tool returns normally, its result is the
    text [Error accessing data: ] followed by the message of the exception,
    and a dispatch of the tool appends one message to the conversation, the
    dictionary of line 200 whose [role] is [tool], whose [content] is exactly
    that text and whose [tool_call_id] is the identifier of the call. *)
Theorem lookup_sales_data_contains_errors prompt :
  (forall (st : State S) e st',
     lookup_sales_data prompt st = (Raise e, st') -> is_Exception e = false) /\
  (forall (st : State S) e st1,
     lookup_sales_data_try prompt (entered TOOL "lookup_sales_data" (SVArgs [prompt]) st)
       = (Raise e, st1) ->
     is_Exception e = true ->
     let text := ("Error accessing data: " ++ exc_str S e)%string in
     String.prefix "Error accessing data:" text = true /\
     (exists st', lookup_sales_data prompt st = (Ok text, st')) /\
     (forall tc,
        name (function tc) = "lookup_sales_data" ->
        json_loads S (arguments (function tc)) = Some (VDict [("prompt", prompt)]) ->
        exists st', dispatch tc st = (Ok tt, st') /\
          messages st' = messages st ++
            [MVal (VDict [("role", VStr "tool"); ("content", VStr text);
                          ("tool_call_id", VStr (id tc))])])).
Proof.
  split.
  - intros st e st'. rewrite lookup_sales_data_unfold. cbn zeta.
    destruct (lookup_sales_data_try prompt _) as [[text|e1] st1]; [discriminate|].
    destruct (is_Exception e1) eqn:He; [discriminate|]. intros H. injection H as <- _. exact He.
  - intros st e st1 Htry He text.
    assert (Hl : exists st', lookup_sales_data prompt st = (Ok text, st') /\
                   messages st' = messages st).
    { pose proof (keeps_lookup_sales_data prompt st) as Hk.
      rewrite lookup_sales_data_unfold in *. cbn zeta in *. rewrite Htry, He in *.
      eexists. split; [reflexivity|exact Hk]. }
    split; [reflexivity|]. destruct Hl as (st' & Hl & Hm). split; [eauto|].
    intros tc Hn Hj. rewrite (dispatch_lookup_sales_data tc prompt st Hn Hj), Hl.
    eexists. split; [reflexivity|]. cbn [messages]. now rewrite Hm.
Qed.

(** ** The analysis *)

Lemma analyze_sales_data_unfold prompt data (st : State S) :
  analyze_sales_data prompt data st =
  let span := length (spans st) in
  let st0 := entered TOOL "analyze_sales_data" (SVArgs [prompt; data]) st in
  match chat_completions_create S MODEL (user_prompt (DATA_ANALYSIS_PROMPT (S:=S) data prompt)) None
          (world st) with
  | (Ok response, w) =>
      match choices response with
      | m :: _ =>
          let text :=
            match content m with
            | Some (String c s) => String c s
            | _ => "No analysis could be generated"
            end in
          (Ok text,
           {| world := w; messages := messages st;
              spans := spans st0 ++
                [SetOutput span (SVStr text); SetStatus span OK; SpanEnd span] |})
      | [] =>
          (Raise (IndexError "list index out of range"),
           {| world := w; messages := messages st;
              spans := spans st0 ++ [SetStatus span ERROR; SpanEnd span] |})
      end
  | (Raise e, w) =>
      (Raise e,
       {| world := w; messages := messages st;
          spans := spans st0 ++ exit_events span (@Raise unit e) |})
  end.
Proof.
  unfold analyze_sales_data. rewrite traced_unfold. cbn zeta.
  unfold bind at 1, call. cbn [world record_event].
  destruct (chat_completions_create S MODEL _ None (world st)) as [[response|e] w]; [|reflexivity].
  unfold bind, first_choice, ret, raise.
  destruct (choices response) as [|m l]; cbn;
    unfold entered, leave_span, record_event; cbn; rewrite <- !app_assoc; reflexivity.
Qed.

Lemma dispatch_analyze_sales_data tc (st : State S) st' :
  name (function tc) = "analyze_sales_data" ->
  dispatch tc st = (Ok tt, st') ->
  exists prompt data text st1,
    analyze_sales_data prompt data st = (Ok text, st1) /\
    messages st' = messages st1 ++ [tool_message text (id tc)].
Proof.
  intros Hn. unfold dispatch, bind at 1.
  rewrite Hn, registry_analyze_sales_data. unfold ret at 1, bind at 1.
  destruct (json_loads S (arguments (function tc))) as [v|]; [|discriminate].
  unfold ret at 1, bind, call_kwargs.
  destruct v as [| | | | | |d]; try discriminate.
  destruct (forallb _ _); [|discriminate].
  cbn [f_params analyze_sales_data_fn mapM]. unfold mbind, option_bind, mret, option_ret.
  destruct (dict_get "prompt" d) as [prompt|]; [|discriminate].
  destruct (dict_get "data" d) as [data|]; [|discriminate].
  cbn [f_call analyze_sales_data_fn].
  destruct (analyze_sales_data prompt data st) as [[text|e] st1] eqn:Ha; [|discriminate].
  intros H. injection H as <-. exists prompt, data, text, st1. split; [exact Ha|reflexivity].
Qed.

(** C9.  Whatever [analyze_sales_data] returns is a non-empty string.  It
    returns whenever the model answers: the content of the answer when there
    is some, and the fixed text [No analysis could be generated] when the
    content is [None] or empty.  The message that a dispatch of the tool
    appends to the conversation, the dictionary of line 200, therefore holds
    under [content] a string that is not empty, and never [None]. *)
Theorem analyze_sales_data_nonempty prompt data :
  (forall (st : State S) text st',
     analyze_sales_data prompt data st = (Ok text, st') -> text <> "") /\
  (forall (st : State S) response w m others,
     chat_completions_create S MODEL (user_prompt (DATA_ANALYSIS_PROMPT (S:=S) data prompt)) None
       (world st) = (Ok response, w) ->
     choices response = m :: others ->
     exists text st',
       analyze_sales_data prompt data st = (Ok text, st') /\ text <> "" /\
       (content m = None \/ content m = Some "" -> text = "No analysis could be generated") /\
       (forall s, content m = Some s -> s <> "" -> text = s)) /\
  (forall tc (st : State S) st',
     name (function tc) = "analyze_sales_data" ->
     dispatch tc st = (Ok tt, st') ->
     exists text,
       text <> "" /\
       messages st' = messages st ++
         [MVal (VDict [("role", VStr "tool"); ("content", VStr text);
                       ("tool_call_id", VStr (id tc))])]).
Proof.
  assert (Hne : forall (p d : pyval) (st : State S) text st',
            analyze_sales_data p d st = (Ok text, st') -> text <> "").
  { intros p d st text st'. rewrite analyze_sales_data_unfold. cbn zeta.
    destruct (chat_completions_create S MODEL _ None (world st)) as [[response|e] w]; [|discriminate].
    destruct (choices response) as [|m l]; [discriminate|].
    intros H. injection H as <- _. destruct (content m) as [[|c s]|]; discriminate. }
  split; [apply Hne|]. split.
  - intros st response w m others Hc Hm.
    destruct (analyze_sales_data prompt data st) as [r st'] eqn:Ha.
    pose proof Ha as Hb. rewrite analyze_sales_data_unfold in Hb. cbn zeta in Hb.
    rewrite Hc, Hm in Hb. injection Hb as <- _.
    eexists _, st'. split; [reflexivity|].
    destruct (content m) as [[|c s]|]; (split; [discriminate|]); split; try reflexivity.
    + intros s [=<-] Hs. now destruct Hs.
    + intros [H|H]; discriminate.
    + intros s0 [=<-] _. reflexivity.
    + intros s H. discriminate.
  - intros tc st st' Hn Hd.
    destruct (dispatch_analyze_sales_data tc st st' Hn Hd) as (p & d & text & st1 & Ha & Hm).
    exists text. split; [eapply Hne; exact Ha|].
    rewrite Hm. pose proof (keeps_analyze_sales_data p d st) as Hk.
    rewrite Ha in Hk. cbn in Hk. now rewrite Hk.
Qed.

(** ** Spans of the agent loop *)

(** A [with] block logs the start of its span first and its end last. *)
Lemma with_span_brackets {A} n kind (body : nat -> M S A) (st : State S) :
  let span := length (spans st) in
  spans (snd (with_span n kind body st)) =
  spans (snd (body span (record_event (SpanStart span n kind) st)))
    ++ exit_events span (fst (with_span n kind body st)).
Proof. unfold with_span. cbn zeta. destruct (body _ _) as [r st1]. reflexivity. Qed.

(** In a pass that returns, the output of the router span is set after the
    span has ended. *)
Lemma iteration_output_after_end (st : State S) final st' :
  iteration st = (Ok (Return final), st') ->
  let span := length (spans st) in
  spans st' = spans st ++
    [SpanStart span "router_call" CHAIN; SetInput span (SVMessages (messages st));
     SetStatus span OK; SpanEnd span; SetOutput span (SVText final)].
Proof.
  rewrite iteration_unfold, router_call_unfold. cbn zeta.
  destruct (chat_completions_create S MODEL _ _ _) as [[response|e] w]; [|discriminate].
  destruct (choices response) as [|m l]; [discriminate|].
  destruct (tool_calls m) as [[|tc rest]|].
  - intros H. injection H as <- <-. cbn. rewrite <- app_assoc. reflexivity.
  - destruct (handle_tool_calls _ _) as [[r|e] st2]; discriminate.
  - intros H. injection H as <- <-. cbn. rewrite <- app_assoc. reflexivity.
Qed.

End Facts.

(** ** The dependency probe *)

(** C8.  The probe launches at most one install command, and it is the one
    that belongs to the first of [requirements.txt], [setup.py] and
    [pyproject.toml] that exists in the repository; none when none exists. *)
Theorem install_dependencies_priority fs repo_path :
  length (Harness.install_dependencies fs repo_path) <= 1 /\
  Harness.install_dependencies fs repo_path =
    match Harness.first_existing fs repo_path with
    | Some (_, command) => [command repo_path]
    | None => []
    end.
Proof.
  unfold Harness.install_dependencies, Harness.first_existing, Harness.probes.
  cbn [List.find fst].
  destruct (Harness.path_exists fs (Harness.path_join repo_path "requirements.txt"));
    [cbn; split; [lia|reflexivity]|].
  destruct (Harness.path_exists fs (Harness.path_join repo_path "setup.py"));
    [cbn; split; [lia|reflexivity]|].
  destruct (Harness.path_exists fs (Harness.path_join repo_path "pyproject.toml"));
    cbn; split; (lia || reflexivity).
Qed.

Example install_prefers_requirements :
  Harness.install_dependencies
    {["octo__demo/requirements.txt"; "octo__demo/setup.py"; "octo__demo/pyproject.toml"]}
    "octo__demo"
  = [Harness.pip_requirements "octo__demo"].
Proof. vm_compute. reflexivity. Qed.

Example install_falls_back_to_pyproject :
  Harness.install_dependencies {["octo__demo/pyproject.toml"; "octo__demo/README.md"]}
    "octo__demo"
  = [Harness.pip_project "octo__demo"].
Proof. vm_compute. reflexivity. Qed.

Example install_nothing : Harness.install_dependencies ∅ "octo__demo" = [].
Proof. vm_compute. reflexivity. Qed.

(** * Runs against the scripted services *)

(** C1, witness: the scripted model asks for one lookup and then answers, so
    the run returns that answer; a model that asks for a lookup in every
    response keeps the loop running. *)
Lemma run_agent_termination_witness :
  (exists st', run_agent (S:=demo) 3 (InStr "What were total sales last week?") 0 [] =
     Some (Ok (Some "Total sales were 42."), st')) /\
  run_agent (S:=always_lookup) 7 (InStr "What were total sales last week?") 0 [] = None.
Proof.
  split.
  - destruct (run_agent_termination (S:=demo) 3 (InStr "What were total sales last week?") 0 [])
      as (_ & H & _).
    eapply (H 1 _ {| content := Some "Total sales were 42."; tool_calls := None |});
      [lia | vm_compute; reflexivity | vm_compute; reflexivity | reflexivity].
  - destruct (run_agent_termination (S:=always_lookup) 7 (InStr "What were total sales last week?") 0 [])
      as (_ & _ & _ & _ & _ & _ & H).
    apply (H (fun _ => True)); [exact Logic.I|]. intros st _. split; [|split].
    + eexists. split; [vm_compute; reflexivity | reflexivity].
    + intros e st' He. vm_compute in He. discriminate He.
    + intros st' _. exact Logic.I.
Defined.

(** C1, counterexample: the first response names an unregistered tool and
    the second one is the first without tool calls, with content [done]; no
    run returns it, every run that ends raises the lookup error.  A model that
    names an unregistered tool in every response does not keep the loop
    running either. *)
Lemma run_agent_termination_counterexample :
  unknown_then_done 1 = Ok (assistant (Some "done") None) /\
  (forall fuel r st', run_agent (S:=misrouted) fuel (InStr "hi") 0 [] = Some (r, st') ->
     r = Raise (KeyError "no_such_tool")) /\
  (forall fuel, run_agent (S:=always_unknown) (Datatypes.S fuel) (InStr "hi") 0 [] <> None).
Proof.
  split; [reflexivity|]. split.
  - intros [|fuel] r st' H; [discriminate|].
    unfold run_agent in H. rewrite agent_loop_S in H.
    vm_compute in H. congruence.
  - intros fuel. unfold run_agent. rewrite agent_loop_S. vm_compute. discriminate.
Qed.

(** C2, witness: a bare string. *)
Lemma normalize_system_message_witness :
  normalize (InStr "hi") = [msg_dict "user" (VStr "hi"); msg_dict "system" (VStr SYSTEM_PROMPT)] /\
  count_system (normalize (InStr "hi")) = 1.
Proof.
  destruct (normalize_system_message (InStr "hi")) as (H1 & _ & _ & _ & H5).
  split; [apply H1; reflexivity | apply H5; vm_compute; lia].
Defined.

(** C2, counterexample: after a bare string the conversation begins with the
    user message, not with the system prompt; an input that holds two system
    messages keeps both. *)
Lemma normalize_counterexample :
  head (normalize (InStr "hi")) = Some (msg_dict "user" (VStr "hi")) /\
  is_system (msg_dict "user" (VStr "hi")) = false /\
  count_system
    (normalize (InList [msg_dict "system" (VStr "Be brief."); msg_dict "user" (VStr "hi");
                        msg_dict "system" (VStr "Be kind.")])) = 2.
Proof.
  repeat split.
Qed.

(** C3, witness: the run with one lookup. *)
Lemma tool_results_correlate_witness :
  exists r st' app,
    run_agent (S:=demo) 3 (InStr "What were total sales last week?") 0 [] = Some (r, st') /\
    messages st' = normalize (InStr "What were total sales last week?") ++ app /\
    run_blocks (is_Ok r) app /\
    result_ids app `prefix_of` request_ids app.
Proof.
  destruct (run_agent (S:=demo) 3 (InStr "What were total sales last week?") 0 [])
    as [[r st']|] eqn:Hrun; [|vm_compute in Hrun; discriminate].
  destruct (tool_results_correlate (S:=demo)) as (_ & _ & H).
  destruct (H _ _ _ _ _ _ Hrun) as (app & Hm & Hb & _ & Hp & _).
  exists r, st', app. auto.
Defined.

(** C3, counterexample: the model gives two calls of one response the same
    identifier; both tool results carry it, so each of them matches two
    requests and the two results share their identifier.  And a conversation
    handed over with a tool result keeps it after the run, where it matches
    no request at all. *)
Lemma same_id_counterexample :
  (exists st',
     run_agent (S:=reusing) 3 (InStr "hi") 0 [] = Some (Ok (Some "done"), st') /\
     request_ids (messages st') = ["call_a"; "call_a"] /\
     result_ids (messages st') = ["call_a"; "call_a"] /\
     ~ NoDup (result_ids (messages st'))) /\
  (exists st',
     run_agent (S:=answering) 3 (InList stale_conversation) 0 [] =
       Some (Ok (Some "hello"), st') /\
     result_ids (messages st') = ["call_0"] /\
     request_ids (messages st') = []).
Proof.
  split.
  - eexists. split; [vm_compute; reflexivity|]. split; [reflexivity|]. split; [reflexivity|].
    cbn. intros H. apply NoDup_cons in H as [H _]. apply H. left.
  - eexists. split; [vm_compute; reflexivity|]. split; reflexivity.
Qed.

(** C4, witness: the first call of the response names an unregistered tool. *)
Lemma unknown_tool_propagates_witness :
  exists e' st' results,
    agent_loop (S:=misrouted) 1 (initial (S:=misrouted) 0 (normalize (InStr "hi")))
      = Some (Raise e', st') /\
    messages st' = normalize (InStr "hi") ++
      MObj {| content := None; tool_calls := Some [tool_call "call_1" "no_such_tool" "{}"] |}
      :: answers results [] /\
    length results <= 0 /\
    (length results = 0 -> e' = KeyError "no_such_tool").
Proof.
  destruct (unknown_tool_propagates (S:=misrouted) (tool_call "call_1" "no_such_tool" "{}")
              (KeyError "no_such_tool")) as (_ & _ & H).
  - left. split; reflexivity.
  - apply (H 0 (initial (S:=misrouted) 0 (normalize (InStr "hi")))
             {| content := None; tool_calls := Some [tool_call "call_1" "no_such_tool" "{}"] |}
             [] []); reflexivity.
Defined.

(** C5, witness: the content of the structured-output reply is [None]. *)
Lemma extract_chart_config_fallback_witness :
  exists st',
    extract_chart_config (S:=demo) (VStr "Store_ID 1 42") (VStr "sales by store") (initial (S:=demo) 0 []) =
      (Ok [("chart_type", VStr "line"); ("x_axis", VStr "date"); ("y_axis", VStr "value");
           ("title", VStr "sales by store"); ("data", VStr "Store_ID 1 42")], st').
Proof.
  apply (extract_chart_config_fallback (S:=demo) (VStr "Store_ID 1 42") (VStr "sales by store")
           (initial (S:=demo) 0 []) {| parsed_choices := [ContentNone] |} 0).
  - reflexivity.
  - intros c rest H. discriminate H.
Defined.

(** C5, counterexample: with a content that is [None] the result has the
    [data] entry on top of the four documented ones, so it is not the
    documented default; and when the structured-output request itself raises,
    so does [extract_chart_config], the request being made before the [try]. *)
Lemma extract_chart_config_counterexample :
  (exists config st',
     extract_chart_config (S:=demo) (VStr "Store_ID 1 42") (VStr "sales by store") (initial (S:=demo) 0 []) =
       (Ok config, st') /\
     config <> documented_default_config (VStr "sales by store")) /\
  (exists e st',
     extract_chart_config (S:=unparsed) (VStr "Store_ID 1 42") (VStr "sales by store") (initial (S:=unparsed) 0 []) =
       (Raise e, st')).
Proof.
  split.
  - eexists _, _. split; [vm_compute; reflexivity|]. discriminate.
  - eexists _, _. vm_compute. reflexivity.
Qed.

(** C6, witness: the parquet file is missing. *)
Lemma lookup_sales_data_contains_errors_witness :
  exists st',
    dispatch (S:=demo) (tool_call "call_1" "lookup_sales_data" prompt_payload) (initial (S:=demo) 0 []) = (Ok tt, st') /\
    messages st' =
      [MVal (VDict [("role", VStr "tool");
                    ("content", VStr "Error accessing data: No such file or directory");
                    ("tool_call_id", VStr "call_1")])].
Proof.
  destruct (lookup_sales_data_contains_errors (S:=demo) (VStr "total sales")) as [_ H].
  edestruct (H (initial (S:=demo) 0 []) file_not_found) as (_ & _ & Hd).
  - vm_compute. reflexivity.
  - reflexivity.
  - apply (Hd (tool_call "call_1" "lookup_sales_data" prompt_payload)); reflexivity.
Defined.

(** C7, at a run in which the model answers at once: the router span is
    started, given its input and its status, and ended by the [with] block;
    its output is set only afterwards, on the span that has already ended. *)
Theorem router_output_set_after_span_end :
  exists st',
    run_agent (S:=answering) 1 (InStr "hi") 0 [] = Some (Ok (Some "hello"), st') /\
    spans st' =
      [SpanStart 0 "router_call" CHAIN; SetInput 0 (SVMessages (normalize (InStr "hi")));
       SetStatus 0 OK; SpanEnd 0; SetOutput 0 (SVText (Some "hello"))].
Proof.
  eexists. split; vm_compute; reflexivity.
Qed.

(** The spans next to it set their output before they end: the span of
    [start_main_span] around the same run, and the query span of
    [lookup_sales_data]. *)
Example main_span_output_set_before_end :
  exists st',
    start_main_span (S:=answering) 1 (InStr "hi") 0 [] = Some (Ok (Some "hello"), st') /\
    spans st' =
      [SpanStart 0 "AgentRun" AGENT; SetInput 0 (SVInput (inr "hi"));
       SpanStart 2 "router_call" CHAIN; SetInput 2 (SVMessages (normalize (InStr "hi")));
       SetStatus 2 OK; SpanEnd 2; SetOutput 2 (SVText (Some "hello"));
       SetOutput 0 (SVText (Some "hello")); SetStatus 0 OK; SpanEnd 0].
Proof.
  eexists. split; vm_compute; reflexivity.
Qed.

Example query_span_output_set_before_end :
  exists st',
    lookup_sales_data (S:=stocked) (VStr "total sales") (initial (S:=stocked) 0 []) =
      (Ok "Total_Sale_Value", st') /\
    spans st' =
      [SpanStart 0 "lookup_sales_data" TOOL; SetInput 0 (SVArgs [VStr "total sales"]);
       SpanStart 2 "execute_sql_query" CHAIN; SetInput 2 (SVStr "SELECT 1");
       SetOutput 2 (SVStr "Total_Sale_Value"); SetStatus 2 OK; SpanEnd 2;
       SetOutput 0 (SVStr "Total_Sale_Value"); SetStatus 0 OK; SpanEnd 0].
Proof.
  eexists. split; vm_compute; reflexivity.
Qed.

(** C9, witness: the model answers without content, in a call of the tool
    and in a dispatch of it. *)
Lemma analyze_sales_data_nonempty_witness :
  (exists st',
     analyze_sales_data (S:=silent) (VStr "total sales") (VStr "Store_ID 1 42")
       (initial (S:=silent) 0 []) = (Ok "No analysis could be generated", st')) /\
  (exists st',
     dispatch (S:=silent) (tool_call "call_2" "analyze_sales_data" analysis_payload)
       (initial (S:=silent) 0 []) = (Ok tt, st') /\
     messages st' =
       [MVal (VDict [("role", VStr "tool"); ("content", VStr "No analysis could be generated");
                     ("tool_call_id", VStr "call_2")])]).
Proof.
  destruct (analyze_sales_data_nonempty (S:=silent) (VStr "total sales") (VStr "Store_ID 1 42"))
    as (_ & H & Hd).
  split.
  - destruct (H (initial (S:=silent) 0 []) (assistant None None) 0
                {| content := None; tool_calls := None |} [])
      as (text & st' & Ha & _ & Ht & _); [reflexivity|reflexivity|].
    exists st'. rewrite Ha, Ht by (left; reflexivity). reflexivity.
  - destruct (dispatch (S:=silent) (tool_call "call_2" "analyze_sales_data" analysis_payload)
                (initial (S:=silent) 0 [])) as [r st'] eqn:Hrun.
    pose proof Hrun as Hc. vm_compute in Hc. injection Hc as <- Hst. subst st'.
    destruct (Hd (tool_call "call_2" "analyze_sales_data" analysis_payload) _ _ eq_refl Hrun)
      as (text & _ & Hm).
    eexists. split; [reflexivity|]. rewrite Hm.
    vm_compute in Hm. injection Hm as <-. reflexivity.
Defined.

(** C10, witness: the structured-output reply holds a configuration. *)
Lemma extract_chart_config_carries_data_witness :
  exists config st',
    extract_chart_config (S:=charted) (VStr "Store_ID 1 42") (VStr "sales by store") (initial (S:=charted) 0 []) =
      (Ok config, st') /\
    dict_get "data" config = Some (VStr "Store_ID 1 42") /\
    dict_get "chart_type" config = Some (VStr "bar").
Proof.
  destruct (extract_chart_config_carries_data (S:=charted) (VStr "Store_ID 1 42")
              (VStr "sales by store") (initial (S:=charted) 0 [])) as (_ & H).
  destruct (H {| parsed_choices :=
                   [ContentConfig {| chart_type := "bar"; x_axis := "Store_ID";
                                     y_axis := "Total_Sale_Value"; title := "Sales by store" |}] |} 0)
    as (config & st' & He & Hd & Hc & _); [reflexivity|].
  exists config, st'. split; [exact He|]. split; [exact Hd|].
  rewrite (Hc _ _ eq_refl). reflexivity.
Defined.

(** * Span discipline of the whole run *)

Lemma check_spans_app l1 : forall open pos l2,
  check_spans open pos (l1 ++ l2) =
  match check_spans open pos l1 with
  | Some open' => check_spans open' (pos + length l1) l2
  | None => None
  end.
Proof.
  induction l1 as [|ev l1 IH]; intros open pos l2.
  - cbn. now rewrite Nat.add_0_r.
  - cbn [app check_spans length]. replace (pos + Datatypes.S (length l1)) with (Datatypes.S pos + length l1) by lia.
    destruct ev as [s n k|s v|s v|s c|s].
    + destruct (Nat.eqb s pos); [apply IH|reflexivity].
    + apply IH.
    + apply IH.
    + apply IH.
    + destruct open as [|o open']; [reflexivity|].
      destruct (Nat.eqb s o); [apply IH|reflexivity].
Qed.

(** Spans that were open before a stretch stay untouched below it. *)
Lemma check_spans_frame l : forall open pos open' below,
  check_spans open pos l = Some open' ->
  check_spans (open ++ below) pos l = Some (open' ++ below).
Proof.
  induction l as [|ev l IH]; intros open pos open' below H.
  - cbn in *. congruence.
  - destruct ev as [s n k|s v|s v|s c|s]; cbn [check_spans] in *.
    + destruct (Nat.eqb s pos); [|discriminate]. apply (IH (s :: open)), H.
    + now apply IH.
    + now apply IH.
    + now apply IH.
    + destruct open as [|o open1]; [discriminate|]. cbn [app].
      destruct (Nat.eqb s o); [|discriminate]. now apply IH.
Qed.

Lemma well_nested_app pos l1 l2 :
  well_nested pos l1 -> well_nested (pos + length l1) l2 -> well_nested pos (l1 ++ l2).
Proof. unfold well_nested. intros H1 H2. now rewrite check_spans_app, H1. Qed.

Lemma well_nested_span pos n k body :
  well_nested (Datatypes.S pos) body ->
  well_nested pos (SpanStart pos n k :: body ++ [SpanEnd pos]).
Proof.
  unfold well_nested. intros H. cbn [check_spans]. rewrite Nat.eqb_refl, check_spans_app.
  pose proof (check_spans_frame body [] (Datatypes.S pos) [] [pos] H) as Hf.
  cbn [app] in Hf. rewrite Hf. cbn. now rewrite Nat.eqb_refl.
Qed.

Lemma well_nested_attribute pos ev : is_attribute ev = true -> well_nested pos [ev].
Proof. unfold well_nested. destruct ev; intros H; try discriminate H; reflexivity. Qed.

Lemma well_nested_attributes pos l :
  Forall (fun ev => is_attribute ev = true) l -> well_nested pos l.
Proof.
  intros H. revert pos. induction H as [|ev l Hev _ IH]; intros pos; [reflexivity|].
  apply (well_nested_app pos [ev] l); [now apply well_nested_attribute|]. apply IH.
Qed.

(** What leaving a span logs: attributes at most, then the end. *)
Lemma exit_events_split {A} span (r : Result A) :
  exists attrs,
    exit_events span r = attrs ++ [SpanEnd span] /\
    Forall (fun ev => is_attribute ev = true) attrs.
Proof.
  destruct r as [a|e]; cbn; [exists []; auto|].
  destruct (is_Exception e); [exists [SetStatus span ERROR]|exists []]; auto.
Qed.

Lemma count_starts_cons s ev l :
  count_starts s (ev :: l) =
  (match ev with SpanStart s' _ _ => if Nat.eqb s' s then 1 else 0 | _ => 0 end)
  + count_starts s l.
Proof. unfold count_starts. cbn. destruct ev; try reflexivity. now destruct (Nat.eqb _ _). Qed.

Lemma count_ends_cons s ev l :
  count_ends s (ev :: l) =
  (match ev with SpanEnd s' => if Nat.eqb s' s then 1 else 0 | _ => 0 end)
  + count_ends s l.
Proof. unfold count_ends. cbn. destruct ev; try reflexivity. now destruct (Nat.eqb _ _). Qed.

Lemma count_open_below s open pos :
  Forall (fun o => o < pos) open -> pos <= s -> count_open s open = 0.
Proof.
  unfold count_open. induction 1 as [|o open Ho _ IH]; intros Hs; [reflexivity|].
  cbn. destruct (Nat.eqb_spec s o); [lia|auto].
Qed.

(** What a successful replay says about the number of starts and ends of
    each span. *)
Lemma check_spans_counts l : forall open pos open',
  check_spans open pos l = Some open' ->
  Forall (fun o => o < pos) open ->
  forall s,
    count_starts s l <= 1 /\
    (1 <= count_starts s l -> pos <= s < pos + length l) /\
    count_starts s l + count_open s open = count_ends s l + count_open s open'.
Proof.
  induction l as [|ev l IH]; intros open pos open' H Hlt s.
  - cbn in H. injection H as <-. cbn. lia.
  - rewrite count_starts_cons, count_ends_cons. cbn [length].
    destruct ev as [s0 n k|s0 v|s0 v|s0 c|s0]; cbn [check_spans] in H.
    + destruct (Nat.eqb_spec s0 pos) as [->|]; [|discriminate].
      assert (Hlt' : Forall (fun o => o < Datatypes.S pos) (pos :: open)).
      { constructor; [lia|]. eapply Forall_impl; [exact Hlt|]. cbn. intros; lia. }
      destruct (IH _ _ _ H Hlt' s) as (H1 & H2 & H3).
      unfold count_open in H3 |- *. cbn [List.filter] in H3.
      destruct (Nat.eqb_spec pos s) as [->|Hne].
      * rewrite Nat.eqb_refl in H3. cbn [length] in H3.
        pose proof (count_open_below s open s Hlt ltac:(lia)) as H0.
        unfold count_open in H0. lia.
      * destruct (Nat.eqb_spec s pos); [congruence|]. lia.
    + assert (Hlt' : Forall (fun o => o < Datatypes.S pos) open)
        by (eapply Forall_impl; [exact Hlt|]; cbn; intros; lia).
      destruct (IH _ _ _ H Hlt' s) as (H1 & H2 & H3). lia.
    + assert (Hlt' : Forall (fun o => o < Datatypes.S pos) open)
        by (eapply Forall_impl; [exact Hlt|]; cbn; intros; lia).
      destruct (IH _ _ _ H Hlt' s) as (H1 & H2 & H3). lia.
    + assert (Hlt' : Forall (fun o => o < Datatypes.S pos) open)
        by (eapply Forall_impl; [exact Hlt|]; cbn; intros; lia).
      destruct (IH _ _ _ H Hlt' s) as (H1 & H2 & H3). lia.
    + destruct open as [|o open1]; [discriminate|].
      destruct (Nat.eqb_spec s0 o) as [->|]; [|discriminate].
      assert (Hlt' : Forall (fun o => o < Datatypes.S pos) open1).
      { apply Forall_cons in Hlt as [_ Hlt]. eapply Forall_impl; [exact Hlt|].
        cbn. intros; lia. }
      destruct (IH _ _ _ H Hlt' s) as (H1 & H2 & H3).
      unfold count_open in H3 |- *. cbn [List.filter].
      destruct (Nat.eqb_spec o s) as [->|Hne].
      * rewrite Nat.eqb_refl. cbn [length]. lia.
      * destruct (Nat.eqb_spec s o); [congruence|]. lia.
Qed.

(** A replay that succeeds on a stretch succeeds on each of its prefixes. *)
Lemma check_spans_take l open pos open' k :
  check_spans open pos l = Some open' -> is_Some (check_spans open pos (take k l)).
Proof.
  intros H. rewrite <- (take_drop k l), check_spans_app in H.
  destruct (check_spans open pos (take k l)); [eauto|discriminate].
Qed.

(** In a well-nested stretch every span is started at most once, under an
    identifier that is its position in the log, ended as often as it is
    started, and never ended before it is started. *)
Lemma well_nested_counts pos l :
  well_nested pos l ->
  forall s,
    count_starts s l <= 1 /\
    (1 <= count_starts s l -> pos <= s < pos + length l) /\
    count_ends s l = count_starts s l /\
    (forall k, count_ends s (take k l) <= count_starts s (take k l)).
Proof.
  intros H s. destruct (check_spans_counts l [] pos [] H ltac:(constructor) s) as (H1 & H2 & H3).
  cbn in H3. repeat split; try lia.
  intros k. destruct (check_spans_take l [] pos [] k H) as [open Hk].
  destruct (check_spans_counts _ [] pos open Hk ltac:(constructor) s) as (_ & _ & H4).
  cbn in H4. lia.
Qed.

Section DisciplineFacts.

Context {S : Services}.

Lemma disciplined_ret {A} (a : A) : disciplined (S:=S) (ret a).
Proof. intros st. exists []. cbn. now rewrite app_nil_r. Qed.

Lemma disciplined_raise {A} e : disciplined (S:=S) (@raise S A e).
Proof. intros st. exists []. cbn. now rewrite app_nil_r. Qed.

Lemma disciplined_get_messages : disciplined (S:=S) get_messages.
Proof. intros st. exists []. cbn. now rewrite app_nil_r. Qed.

Lemma disciplined_append_message m : disciplined (S:=S) (append_message m).
Proof. intros st. exists []. cbn. now rewrite app_nil_r. Qed.

Lemma disciplined_call {A} (op : World S -> Result A * World S) : disciplined (call op).
Proof.
  intros st. exists []. unfold call. destruct (op (world st)). cbn. now rewrite app_nil_r.
Qed.

Lemma disciplined_emit ev : is_attribute ev = true -> disciplined (S:=S) (emit ev).
Proof. intros H st. exists [ev]. split; [reflexivity|now apply well_nested_attribute]. Qed.

Lemma disciplined_bind {A B} (c : M S A) (k : A -> M S B) :
  disciplined c -> (forall a, disciplined (k a)) -> disciplined (bind c k).
Proof.
  intros Hc Hk st. unfold bind. destruct (Hc st) as (m1 & H1 & W1).
  destruct (c st) as [[a|e] st1]; cbn in H1; [|exists m1; auto].
  destruct (Hk a st1) as (m2 & H2 & W2). exists (m1 ++ m2). split.
  - now rewrite H2, H1, app_assoc.
  - apply well_nested_app; [exact W1|]. rewrite H1, length_app in W2. exact W2.
Qed.

Lemma disciplined_try_except {A} (body : M S A) handler :
  disciplined body -> (forall e, disciplined (handler e)) ->
  disciplined (try_except body handler).
Proof.
  intros Hb Hh st. unfold try_except. destruct (Hb st) as (m1 & H1 & W1).
  destruct (body st) as [[a|e] st1]; cbn in H1; [exists m1; auto|].
  destruct (is_Exception e); [|exists m1; auto].
  destruct (Hh e st1) as (m2 & H2 & W2). exists (m1 ++ m2). split.
  - now rewrite H2, H1, app_assoc.
  - apply well_nested_app; [exact W1|]. rewrite H1, length_app in W2. exact W2.
Qed.

Lemma disciplined_with_span {A} n kind (body : nat -> M S A) :
  (forall span, disciplined (body span)) -> disciplined (with_span n kind body).
Proof.
  intros Hb st. unfold with_span.
  destruct (Hb (length (spans st)) (record_event (SpanStart (length (spans st)) n kind) st))
    as (m & Hm & Wm).
  destruct (body _ _) as [r st1]. rewrite spans_record_event in Hm, Wm. cbn [snd] in Hm.
  destruct (exit_events_split (length (spans st)) r) as (attrs & He & Ha).
  exists (SpanStart (length (spans st)) n kind :: (m ++ attrs) ++ [SpanEnd (length (spans st))]).
  split.
  - cbn [snd]. rewrite spans_leave_span, He, Hm, <- !app_assoc. reflexivity.
  - apply well_nested_span, well_nested_app; [|now apply well_nested_attributes].
    rewrite length_app, Nat.add_1_r in Wm. exact Wm.
Qed.

Lemma disciplined_first_choice {A} (l : list A) : disciplined (S:=S) (first_choice l).
Proof. destruct l; [apply disciplined_raise|apply disciplined_ret]. Qed.

Lemma disciplined_str_method {A} m s (f : string -> A) : disciplined (S:=S) (str_method m s f).
Proof. destruct s; [apply disciplined_ret|apply disciplined_raise]. Qed.

Lemma disciplined_getattr c attr field : disciplined (S:=S) (getattr c attr field).
Proof. destruct c; (apply disciplined_ret || apply disciplined_raise). Qed.

Create HintDb discipline.
#[local] Hint Resolve disciplined_ret disciplined_raise disciplined_get_messages
  disciplined_append_message disciplined_call disciplined_first_choice
  disciplined_str_method disciplined_getattr : discipline.
#[local] Hint Extern 1 (disciplined (emit _)) => apply disciplined_emit; reflexivity : discipline.
#[local] Hint Extern 2 (disciplined (bind _ _)) =>
  apply disciplined_bind; [|intros ?] : discipline.
#[local] Hint Extern 2 (disciplined (try_except _ _)) =>
  apply disciplined_try_except; [|intros ?] : discipline.
#[local] Hint Extern 2 (disciplined (with_span _ _ _)) =>
  apply disciplined_with_span; intros ? : discipline.

Lemma disciplined_traced {A} kind n i (o : A -> SpanValue) (body : M S A) :
  disciplined body -> disciplined (traced kind n i o body).
Proof. intros Hb. unfold traced. auto 10 with discipline. Qed.

#[local] Hint Extern 2 (disciplined (traced _ _ _ _ _)) =>
  apply disciplined_traced : discipline.

Lemma disciplined_lookup_sales_data prompt : disciplined (S:=S) (lookup_sales_data prompt).
Proof.
  unfold lookup_sales_data, lookup_sales_data_try, generate_sql_query. auto 30 with discipline.
Qed.

Lemma disciplined_analyze_sales_data prompt data :
  disciplined (S:=S) (analyze_sales_data prompt data).
Proof. unfold analyze_sales_data. auto 20 with discipline. Qed.

Lemma disciplined_extract_chart_config data goal :
  disciplined (S:=S) (extract_chart_config data goal).
Proof. unfold extract_chart_config. auto 20 with discipline. Qed.

Lemma disciplined_create_chart config : disciplined (S:=S) (create_chart config).
Proof. unfold create_chart. auto 20 with discipline. Qed.

Lemma disciplined_generate_visualization data goal :
  disciplined (S:=S) (generate_visualization data goal).
Proof.
  unfold generate_visualization.
  apply disciplined_traced, disciplined_bind; [apply disciplined_extract_chart_config|].
  intros config. apply disciplined_create_chart.
Qed.

Lemma disciplined_registry n (f : PyFunction S) args :
  tool_implementations !! n = Some f -> disciplined (f_call f args).
Proof.
  intros H. destruct (registry_cases _ _ H) as [ -> | [ -> | -> ] ]; cbn;
    destruct args as [|a [|b [|c l]]]; unfold arity_error;
    auto using disciplined_lookup_sales_data, disciplined_analyze_sales_data,
      disciplined_generate_visualization with discipline.
Qed.

Lemma disciplined_call_kwargs (f : PyFunction S) function_args :
  (forall args, disciplined (f_call f args)) -> disciplined (call_kwargs f function_args).
Proof.
  intros Hf. unfold call_kwargs.
  destruct function_args; auto with discipline.
  destruct (forallb _ _); auto with discipline.
  destruct (mapM _ _); auto with discipline.
Qed.

Lemma disciplined_dispatch tc : disciplined (S:=S) (dispatch tc).
Proof.
  intros st. unfold dispatch, bind.
  destruct (tool_implementations !! name (function tc)) as [f|] eqn:Hf; cbn;
    [|exists []; cbn; now rewrite app_nil_r].
  destruct (json_loads S (arguments (function tc))) as [v|]; cbn;
    [|exists []; cbn; now rewrite app_nil_r].
  destruct (disciplined_call_kwargs f v (fun args => disciplined_registry _ f args Hf) st)
    as (mid & Hm & Wm).
  destruct (call_kwargs f v st) as [[r|e] st1]; cbn in *; exists mid; auto.
Qed.

Lemma disciplined_for_tool_calls tcs : disciplined (S:=S) (for_tool_calls tcs).
Proof.
  induction tcs as [|tc tcs IH]; cbn [for_tool_calls]; [apply disciplined_ret|].
  apply disciplined_bind; [apply disciplined_dispatch|intros _; exact IH].
Qed.

Lemma disciplined_handle_tool_calls tcs : disciplined (S:=S) (handle_tool_calls tcs).
Proof.
  unfold handle_tool_calls. apply disciplined_bind; [apply disciplined_get_messages|].
  intros before. apply disciplined_traced, disciplined_bind;
    [apply disciplined_for_tool_calls|intros _; apply disciplined_get_messages].
Qed.

Lemma disciplined_router_call : disciplined (S:=S) router_call.
Proof. unfold router_call. auto 20 with discipline. Qed.

(** One pass of the loop, however it ends. *)
Lemma disciplined_iteration : disciplined (S:=S) iteration.
Proof.
  unfold iteration. apply disciplined_bind; [apply disciplined_router_call|].
  intros [span m]. destruct (tool_calls m) as [[|tc rest]|]; auto 10 with discipline.
  apply disciplined_bind; [apply disciplined_handle_tool_calls|]. intros _.
  auto 10 with discipline.
Qed.

Lemma agent_loop_disciplined fuel : forall (st : State S) r st',
  agent_loop fuel st = Some (r, st') ->
  exists mid, spans st' = spans st ++ mid /\ well_nested (length (spans st)) mid.
Proof.
  induction fuel as [|fuel IH]; intros st r st' H; [discriminate|].
  rewrite agent_loop_S in H. destruct (disciplined_iteration st) as (m1 & H1 & W1).
  destruct (iteration st) as [[[|final]|e] st1]; cbn in H1.
  - destruct (IH _ _ _ H) as (m2 & H2 & W2). exists (m1 ++ m2). split.
    + now rewrite H2, H1, app_assoc.
    + apply well_nested_app; [exact W1|]. rewrite H1, length_app in W2. exact W2.
  - injection H as <- <-. eauto.
  - injection H as <- <-. eauto.
Qed.

(** X1.  However [run_agent] ends, by a return or by an exception, it only
    adds to the span log, and what it adds is well nested: every span of the
    run is started at most once, ended exactly as often as it is started, and
    never ended before it is started. *)
Theorem run_agent_span_discipline fuel input (w : World S) log r st' :
  run_agent fuel input w log = Some (r, st') ->
  exists mid,
    spans st' = log ++ mid /\ well_nested (length log) mid /\
    forall s,
      count_starts s mid <= 1 /\
      count_ends s mid = count_starts s mid /\
      (forall k, count_ends s (take k mid) <= count_starts s (take k mid)).
Proof.
  unfold run_agent. intros H. apply agent_loop_disciplined in H as (mid & Hm & Wm).
  cbn [spans] in Hm, Wm. exists mid. split; [exact Hm|]. split; [exact Wm|].
  intros s. destruct (well_nested_counts _ _ Wm s) as (H1 & _ & H3 & H4). auto.
Qed.

(** X2.  [start_main_span] gives back what [run_agent] gives, with the same
    conversation and world, and wraps the spans of the run in the [AgentRun]
    span: that span is started first and ended last on every exit path.  On
    a normal return its output and the status [OK] are set just before it
    ends; when an [Exception] ends the run the status [ERROR] is set just
    before it ends and no output; a [BaseException] that is no [Exception]
    only ends it.  The whole stretch is well nested. *)
Theorem start_main_span_wraps_run fuel input (w : World S) log r st' :
  start_main_span fuel input w log = Some (r, st') ->
  let span := length log in
  let opening := [SpanStart span "AgentRun" AGENT; SetInput span (input_value input)] in
  let closing :=
    match r with
    | Ok final => [SetOutput span (SVText final); SetStatus span OK; SpanEnd span]
    | Raise e => if is_Exception e then [SetStatus span ERROR; SpanEnd span] else [SpanEnd span]
    end in
  exists st1 inner,
    run_agent fuel input w (log ++ opening) = Some (r, st1) /\
    messages st' = messages st1 /\ world st' = world st1 /\
    spans st1 = log ++ opening ++ inner /\
    spans st' = log ++ opening ++ inner ++ closing /\
    well_nested (length log) (opening ++ inner ++ closing).
Proof.
  unfold start_main_span. cbn zeta.
  set (span := length log).
  set (opening := [SpanStart span "AgentRun" AGENT; SetInput span (input_value input)]).
  destruct (run_agent fuel input w (log ++ opening)) as [[r1 st1]|] eqn:Hrun; [|discriminate].
  pose proof Hrun as Hd. unfold run_agent in Hd.
  apply agent_loop_disciplined in Hd as (inner & Hm & Wm). cbn [spans] in Hm, Wm.
  rewrite length_app in Wm. cbn [length] in Wm. fold span in Wm.
  assert (Hbody : forall tail, Forall (fun ev => is_attribute ev = true) tail ->
            well_nested (Datatypes.S span) (SetInput span (input_value input) :: inner ++ tail)).
  { intros tail Ht.
    apply (well_nested_app _ [SetInput span (input_value input)]); [reflexivity|].
    cbn [length]. replace (Datatypes.S span + 1) with (span + 2) by lia.
    apply well_nested_app; [exact Wm|]. now apply well_nested_attributes. }
  destruct r1 as [final|e]; intros H; injection H as <- <-; exists st1, inner;
    (split; [reflexivity|]); (split; [reflexivity|]); (split; [reflexivity|]);
    (split; [rewrite Hm, <- app_assoc; reflexivity|]); split.
  - rewrite !spans_record_event, Hm, <- !app_assoc. reflexivity.
  - pose proof (well_nested_span span "AgentRun" AGENT _
                  (Hbody [SetOutput span (SVText final); SetStatus span OK]
                     ltac:(repeat constructor))) as Hw.
    cbn [app] in Hw |- *. rewrite <- !app_assoc in Hw. exact Hw.
  - rewrite spans_leave_span, Hm, <- !app_assoc. reflexivity.
  - destruct (is_Exception e).
    + pose proof (well_nested_span span "AgentRun" AGENT _
                    (Hbody [SetStatus span ERROR] ltac:(repeat constructor))) as Hw.
      cbn [app] in Hw |- *. rewrite <- !app_assoc in Hw. exact Hw.
    + pose proof (well_nested_span span "AgentRun" AGENT _ (Hbody [] ltac:(constructor))) as Hw.
      cbn [app] in Hw |- *. rewrite app_nil_r in Hw. exact Hw.
Qed.

End DisciplineFacts.

(** * More about the tools and the loop *)

Section ToolFacts.

Context {S : Services}.

(** X3.  No registered tool touches the conversation: whatever the payload
    and whether the call returns or raises, the conversation after the call is
    the one before it. *)
Theorem tools_keep_conversation n (f : PyFunction S) :
  tool_implementations !! n = Some f ->
  forall (st : State S),
    (forall args, messages (snd (f_call f args st)) = messages st) /\
    (forall payload, messages (snd (call_kwargs f payload st)) = messages st).
Proof.
  intros Hf st. split.
  - intros args. apply (keeps_registry n f args Hf).
  - intros payload. apply keeps_call_kwargs. intros args. apply (keeps_registry n f args Hf).
Qed.

Lemma mem_str_true k l : mem_str k l = true <-> In k l.
Proof.
  unfold mem_str. rewrite existsb_exists. split.
  - intros (x & Hx & He). apply String.eqb_eq in He. now subst.
  - intros H. exists k. split; [exact H|apply String.eqb_refl].
Qed.

Lemma dict_get_None p kv : ~ In p (dict_keys kv) -> dict_get p kv = None.
Proof.
  induction kv as [|[k v] kv IH]; cbn; [reflexivity|]. intros H.
  destruct (String.eqb_spec k p) as [->|Hne]; [tauto|]. apply IH. tauto.
Qed.

Lemma dispatch_bound tc (f : PyFunction S) kv args (st : State S) :
  tool_implementations !! name (function tc) = Some f ->
  json_loads S (arguments (function tc)) = Some (VDict kv) ->
  forallb (fun k => mem_str k (f_params f)) (dict_keys kv) = true ->
  mapM (fun p => dict_get p kv) (f_params f) = Some args ->
  dispatch tc st = run_and_append f args tc st.
Proof.
  intros Hf Hj Hk Hm. unfold dispatch, run_and_append, bind at 1. rewrite Hf.
  unfold ret at 1, bind at 1. rewrite Hj. unfold ret at 1, bind, call_kwargs.
  rewrite Hk, Hm. destruct (f_call f args st) as [[r|e] st1]; reflexivity.
Qed.

(** X4.  The descriptors sent to the model and the registry agree: for every
    declared tool, a call that names it with a JSON object holding exactly
    the required parameters finds the tool and binds all its parameters, so
    the dispatch runs the tool on the values of the payload and can only
    raise what the tool itself raises. *)
Theorem declared_tools_bind d tc kv (st : State S) :
  In d tools ->
  name (function tc) = d_name d ->
  json_loads S (arguments (function tc)) = Some (VDict kv) ->
  Permutation (dict_keys kv) (d_required d) ->
  exists f args,
    tool_implementations !! name (function tc) = Some f /\
    Forall2 (fun p a => dict_get p kv = Some a) (f_params f) args /\
    dispatch tc st = run_and_append f args tc st.
Proof.
  intros Hd Hn Hj Hp. cbn in Hd. destruct Hd as [<-|[<-|[<-|[]]]]; cbn in Hn, Hp.
  - apply Permutation_sym, Permutation_length_1_inv in Hp.
    destruct kv as [|[k v] [|]]; try discriminate. cbn in Hp. injection Hp as ->.
    exists lookup_sales_data_fn, [v]. rewrite Hn. split; [apply registry_lookup_sales_data|].
    split; [repeat constructor|].
    eapply dispatch_bound; [rewrite Hn; apply registry_lookup_sales_data|exact Hj|reflexivity..].
  - apply Permutation_sym, Permutation_length_2_inv in Hp.
    destruct kv as [|[k1 v1] [|[k2 v2] [|]]]; cbn in Hp; try (destruct Hp; discriminate).
    destruct Hp as [Hp|Hp]; injection Hp as -> ->.
    + exists analyze_sales_data_fn, [v2; v1]. rewrite Hn.
      split; [apply registry_analyze_sales_data|]. split; [repeat constructor|].
      eapply dispatch_bound;
        [rewrite Hn; apply registry_analyze_sales_data|exact Hj|reflexivity..].
    + exists analyze_sales_data_fn, [v1; v2]. rewrite Hn.
      split; [apply registry_analyze_sales_data|]. split; [repeat constructor|].
      eapply dispatch_bound;
        [rewrite Hn; apply registry_analyze_sales_data|exact Hj|reflexivity..].
  - apply Permutation_sym, Permutation_length_2_inv in Hp.
    destruct kv as [|[k1 v1] [|[k2 v2] [|]]]; cbn in Hp; try (destruct Hp; discriminate).
    destruct Hp as [Hp|Hp]; injection Hp as -> ->.
    + exists generate_visualization_fn, [v1; v2]. rewrite Hn.
      split; [apply registry_generate_visualization|]. split; [repeat constructor|].
      eapply dispatch_bound;
        [rewrite Hn; apply registry_generate_visualization|exact Hj|reflexivity..].
    + exists generate_visualization_fn, [v2; v1]. rewrite Hn.
      split; [apply registry_generate_visualization|]. split; [repeat constructor|].
      eapply dispatch_bound;
        [rewrite Hn; apply registry_generate_visualization|exact Hj|reflexivity..].
Qed.

(** X5.  A payload that is valid JSON but does not fit the tool is fatal like
    an unknown tool: when it is not an object, names a key that is no
    parameter of the tool, or lacks a parameter, the dispatch raises a
    [TypeError]: the tool does not run, nothing is requested from outside
    and no message is appended. *)
Theorem payload_binding_errors tc (f : PyFunction S) v (st : State S) :
  tool_implementations !! name (function tc) = Some f ->
  json_loads S (arguments (function tc)) = Some v ->
  match v with
  | VDict kv =>
      (exists k, In k (dict_keys kv) /\ ~ In k (f_params f)) \/
      (exists p, In p (f_params f) /\ ~ In p (dict_keys kv))
  | _ => True
  end ->
  exists msg st',
    dispatch tc st = (Raise (TypeError msg), st') /\
    messages st' = messages st /\ world st' = world st.
Proof.
  intros Hf Hj Hbad. unfold dispatch, bind at 1. rewrite Hf.
  unfold ret at 1, bind at 1. rewrite Hj. unfold ret at 1, bind, call_kwargs.
  destruct v as [| | | | | |kv]; try (eexists _, _; repeat split; reflexivity).
  destruct (forallb _ _) eqn:Hk; [|eexists _, _; repeat split; reflexivity].
  destruct Hbad as [(k & Hin & Hno)|(p & Hin & Hno)].
  - rewrite forallb_forall in Hk. apply Hk in Hin. apply mem_str_true in Hin. tauto.
  - destruct (mapM _ _) as [args|] eqn:Hm; [|eexists _, _; repeat split; reflexivity].
    assert (Hs : is_Some (mapM (fun p => dict_get p kv) (f_params f))) by eauto.
    apply mapM_is_Some in Hs. rewrite Forall_forall in Hs.
    apply list_elem_of_In in Hin. apply Hs in Hin. destruct Hin as [a Ha]. cbn in Ha.
    rewrite dict_get_None in Ha by exact Hno. discriminate.
Qed.

Lemma create_chart_unfold config (st : State S) :
  create_chart config st =
  let span := length (spans st) in
  let st0 := entered CHAIN "create_chart" (SVArgs [VDict config]) st in
  match chat_completions_create S MODEL
          (user_prompt (CREATE_CHART_PROMPT (S:=S) (VDict config))) None (world st) with
  | (Ok response, w) =>
      match choices response with
      | m :: _ =>
          match content m with
          | Some reply =>
              (Ok (chart_code (S:=S) reply),
               {| world := w; messages := messages st;
                  spans := spans st0 ++
                    [SetOutput span (SVStr (chart_code (S:=S) reply)); SetStatus span OK;
                     SpanEnd span] |})
          | None =>
              (Raise (AttributeError "replace"),
               {| world := w; messages := messages st;
                  spans := spans st0 ++ [SetStatus span ERROR; SpanEnd span] |})
          end
      | [] =>
          (Raise (IndexError "list index out of range"),
           {| world := w; messages := messages st;
              spans := spans st0 ++ [SetStatus span ERROR; SpanEnd span] |})
      end
  | (Raise e, w) =>
      (Raise e,
       {| world := w; messages := messages st;
          spans := spans st0 ++ exit_events span (@Raise unit e) |})
  end.
Proof.
  unfold create_chart. rewrite traced_unfold. cbn zeta.
  unfold bind at 1, call. cbn [world record_event].
  destruct (chat_completions_create S MODEL _ None (world st)) as [[response|e] w];
    [|reflexivity].
  unfold bind, first_choice, str_method, ret, raise.
  destruct (choices response) as [|m l]; [reflexivity|].
  destruct (content m) as [reply|]; cbn;
    unfold entered, leave_span, record_event, chart_code; cbn; rewrite <- ?app_assoc;
    reflexivity.
Qed.

Lemma generate_visualization_unfold data goal (st : State S) :
  generate_visualization data goal st =
  let span := length (spans st) in
  match extract_chart_config data goal
          (entered TOOL "generate_visualization" (SVArgs [data; goal]) st) with
  | (Ok config, st1) =>
      match create_chart config st1 with
      | (Ok code, st2) =>
          (Ok code,
           record_event (SpanEnd span)
             (record_event (SetStatus span OK) (record_event (SetOutput span (SVStr code)) st2)))
      | (Raise e, st2) => (Raise e, leave_span span (@Raise unit e) st2)
      end
  | (Raise e, st1) => (Raise e, leave_span span (@Raise unit e) st1)
  end.
Proof.
  unfold generate_visualization. rewrite traced_unfold. cbn zeta. unfold bind, entered.
  destruct (extract_chart_config data goal _) as [[config|e] st1]; [|reflexivity].
  destruct (create_chart config st1) as [[code|e] st2]; reflexivity.
Qed.

(** X6.  [generate_visualization] chains its two model requests: the
    configuration that [extract_chart_config] returns is the one rendered
    into the prompt of [create_chart], and the tool returns the reply to that
    prompt with the code fences removed and the blanks stripped; a reply
    without content makes the tool raise an [AttributeError]. *)
Theorem generate_visualization_outcome data goal (st : State S) config st1 response w m others :
  extract_chart_config data goal
    (entered TOOL "generate_visualization" (SVArgs [data; goal]) st) = (Ok config, st1) ->
  chat_completions_create S MODEL
    (user_prompt (CREATE_CHART_PROMPT (S:=S) (VDict config))) None (world st1)
    = (Ok response, w) ->
  choices response = m :: others ->
  exists st',
    messages st' = messages st /\
    generate_visualization data goal st =
      match content m with
      | Some reply => (Ok (chart_code (S:=S) reply), st')
      | None => (Raise (AttributeError "replace"), st')
      end.
Proof.
  intros He Hc Hm.
  pose proof (keeps_generate_visualization data goal st) as Hk.
  rewrite generate_visualization_unfold in *. cbn zeta in *. rewrite He in *.
  rewrite create_chart_unfold in *. cbn zeta in *. rewrite Hc, Hm in *.
  destruct (content m) as [reply|]; eexists; (split; [|reflexivity]); exact Hk.
Qed.

(** X7.  Unlike the data lookup, the analysis and the visualization contain
    nothing: an exception raised by one of their model requests, whatever its
    class, is raised by the tool, and a dispatch of the tool raises it in turn
    without appending a message. *)
Theorem tools_propagate_request_errors e :
  (forall prompt data (st : State S) w,
     chat_completions_create S MODEL
       (user_prompt (DATA_ANALYSIS_PROMPT (S:=S) data prompt)) None (world st) = (Raise e, w) ->
     (exists st', analyze_sales_data prompt data st = (Raise e, st')) /\
     forall tc,
       name (function tc) = "analyze_sales_data" ->
       json_loads S (arguments (function tc)) =
         Some (VDict [("prompt", prompt); ("data", data)]) ->
       exists st', dispatch tc st = (Raise e, st') /\ messages st' = messages st) /\
  (forall data goal (st : State S) w,
     chat_completions_parse S MODEL
       (user_prompt (CHART_CONFIGURATION_PROMPT (S:=S) data goal)) (world st) = (Raise e, w) ->
     (exists st', generate_visualization data goal st = (Raise e, st')) /\
     forall tc,
       name (function tc) = "generate_visualization" ->
       json_loads S (arguments (function tc)) =
         Some (VDict [("data", data); ("visualization_goal", goal)]) ->
       exists st', dispatch tc st = (Raise e, st') /\ messages st' = messages st) /\
  (forall data goal (st : State S) config st1 w,
     extract_chart_config data goal
       (entered TOOL "generate_visualization" (SVArgs [data; goal]) st) = (Ok config, st1) ->
     chat_completions_create S MODEL
       (user_prompt (CREATE_CHART_PROMPT (S:=S) (VDict config))) None (world st1)
       = (Raise e, w) ->
     (exists st', generate_visualization data goal st = (Raise e, st')) /\
     forall tc,
       name (function tc) = "generate_visualization" ->
       json_loads S (arguments (function tc)) =
         Some (VDict [("data", data); ("visualization_goal", goal)]) ->
       exists st', dispatch tc st = (Raise e, st') /\ messages st' = messages st).
Proof.
  split; [|split].
  - intros prompt data st w Hc.
    assert (Ha : exists st', analyze_sales_data prompt data st = (Raise e, st')).
    { rewrite analyze_sales_data_unfold. cbn zeta. rewrite Hc. eauto. }
    split; [exact Ha|]. destruct Ha as [st' Ha]. intros tc Hn Hj.
    rewrite (dispatch_bound tc analyze_sales_data_fn _ [prompt; data] st
               ltac:(rewrite Hn; apply registry_analyze_sales_data) Hj eq_refl eq_refl).
    unfold run_and_append. cbn [f_call analyze_sales_data_fn]. rewrite Ha.
    exists st'. split; [reflexivity|].
    pose proof (keeps_analyze_sales_data prompt data st) as Hk. now rewrite Ha in Hk.
  - intros data goal st w Hp.
    assert (Hg : exists st', generate_visualization data goal st = (Raise e, st')).
    { rewrite generate_visualization_unfold. cbn zeta.
      rewrite extract_chart_config_unfold. cbn zeta.
      change (world (entered TOOL "generate_visualization" (SVArgs [data; goal]) st))
        with (world st).
      rewrite Hp. eauto. }
    split; [exact Hg|]. destruct Hg as [st' Hg]. intros tc Hn Hj.
    rewrite (dispatch_bound tc generate_visualization_fn _ [data; goal] st
               ltac:(rewrite Hn; apply registry_generate_visualization) Hj eq_refl eq_refl).
    unfold run_and_append. cbn [f_call generate_visualization_fn]. rewrite Hg.
    exists st'. split; [reflexivity|].
    pose proof (keeps_generate_visualization data goal st) as Hk. now rewrite Hg in Hk.
  - intros data goal st config st1 w He Hc.
    assert (Hg : exists st', generate_visualization data goal st = (Raise e, st')).
    { rewrite generate_visualization_unfold. cbn zeta. rewrite He.
      rewrite create_chart_unfold. cbn zeta. rewrite Hc. eauto. }
    split; [exact Hg|]. destruct Hg as [st' Hg]. intros tc Hn Hj.
    rewrite (dispatch_bound tc generate_visualization_fn _ [data; goal] st
               ltac:(rewrite Hn; apply registry_generate_visualization) Hj eq_refl eq_refl).
    unfold run_and_append. cbn [f_call generate_visualization_fn]. rewrite Hg.
    exists st'. split; [reflexivity|].
    pose proof (keeps_generate_visualization data goal st) as Hk. now rewrite Hg in Hk.
Qed.

(** X15.  When every step of [lookup_sales_data] succeeds, the query sent to
    the SQL engine is the reply of the model with the blanks stripped and the
    code fences removed, the tool returns the rendering of the table that the
    query gives, the conversation is untouched, and the span of the query
    lies inside the span of the tool, each with its output set before it
    ends. *)
Theorem lookup_sales_data_success prompt (st : State S)
    df w1 created w2 response w3 m others reply relation w4 result w5 :
  read_parquet S TRANSACTION_DATA_FILE_PATH (world st) = (Ok df, w1) ->
  duckdb_sql S "CREATE TABLE IF NOT EXISTS sales AS SELECT * FROM df" df w1 = (Ok created, w2) ->
  chat_completions_create S MODEL
    (user_prompt (SQL_GENERATION_PROMPT (S:=S) prompt (df_columns S df) "sales")) None w2 =
    (Ok response, w3) ->
  choices response = m :: others ->
  content m = Some reply ->
  let sql_query := str_replace S (str_replace S (str_strip S reply) "```sql" "") "```" "" in
  duckdb_sql S sql_query df w3 = (Ok relation, w4) ->
  relation_df S relation w4 = (Ok result, w5) ->
  let span := length (spans st) in
  lookup_sales_data prompt st =
    (Ok (df_to_string S result),
     {| world := w5; messages := messages st;
        spans := spans st ++
          [SpanStart span "lookup_sales_data" TOOL; SetInput span (SVArgs [prompt]);
           SpanStart (span + 2) "execute_sql_query" CHAIN;
           SetInput (span + 2) (SVStr sql_query);
           SetOutput (span + 2) (SVStr (df_str S result));
           SetStatus (span + 2) OK; SpanEnd (span + 2);
           SetOutput span (SVStr (df_to_string S result)); SetStatus span OK;
           SpanEnd span] |}).
Proof.
  intros Hr Hc Hq Hm Hreply sql_query Hs Hd span.
  rewrite lookup_sales_data_unfold. cbn zeta.
  unfold lookup_sales_data_try, generate_sql_query, bind, call, entered.
  cbn [world record_event]. rewrite Hr.
  change ("CREATE TABLE IF NOT EXISTS " +:+ "sales" +:+ " AS SELECT * FROM df")
    with "CREATE TABLE IF NOT EXISTS sales AS SELECT * FROM df".
  cbn [world]. rewrite Hc. cbn [world]. rewrite Hq. rewrite Hm.
  cbn [first_choice ret]. rewrite Hreply. cbn [str_method ret].
  unfold with_span, leave_span, bind, emit, ret, record_event. cbn [world spans messages].
  fold sql_query. rewrite Hs. cbn [world]. rewrite Hd. cbn [world spans messages exit_events].
  f_equal. f_equal. rewrite !length_app. cbn [length]. fold span.
  rewrite <- !app_assoc. cbn [app]. replace (span + 1 + 1) with (span + 2) by lia.
  reflexivity.
Qed.

End ToolFacts.

Section LoopFacts.

Context {S : Services}.

Lemma passes_messages k : forall (st st_k : State S),
  passes k st = Some st_k -> exists pre, messages st_k = messages st ++ pre.
Proof.
  induction k as [|k IH]; intros st st_k H.
  - injection H as <-. exists []. now rewrite app_nil_r.
  - rewrite passes_S in H. pose proof (iteration_spec st) as Hi.
    destruct (iteration st) as [[[|final]|e] st1]; try discriminate.
    destruct Hi as (m & rs & _ & _ & _ & Hm). destruct (IH _ _ H) as [pre Hp].
    exists ((MObj m :: answers rs (calls_of m)) ++ pre). now rewrite Hp, Hm, <- app_assoc.
Qed.

Lemma count_assistant_app l1 l2 :
  count_assistant (l1 ++ l2) = count_assistant l1 + count_assistant l2.
Proof. unfold count_assistant. now rewrite List.filter_app, length_app. Qed.

Lemma count_assistant_answers results calls : count_assistant (answers results calls) = 0.
Proof.
  unfold answers, count_assistant. revert calls.
  induction results as [|r rs IH]; intros [|c cs]; cbn; auto.
Qed.

Lemma length_answers results calls :
  length results = length calls -> length (answers results calls) = length calls.
Proof.
  unfold answers. intros H. rewrite length_zip_with, length_map. lia.
Qed.

(** In a run of complete blocks there is nothing but assistant messages and
    one tool result for each request. *)
Lemma blocks_length app :
  run_blocks true app -> length app = count_assistant app + length (request_ids app).
Proof.
  remember true as c eqn:Hc. induction 1 as [c|m rs Hl|c m rs rest Hl Hb IH].
  - reflexivity.
  - discriminate.
  - change (MObj m :: answers rs (calls_of m) ++ rest)
      with ([MObj m] ++ answers rs (calls_of m) ++ rest).
    rewrite !request_ids_app, !count_assistant_app, !length_app, request_ids_answers,
      count_assistant_answers, (length_answers _ _ Hl), (IH Hc).
    cbn. rewrite app_nil_r, length_map. lia.
Qed.

Lemma normalize_has_system input : existsb is_system (normalize input) = true.
Proof.
  unfold normalize. cbn zeta.
  set (raw := match input with InStr s => [msg_dict "user" (VStr s)] | InList l => l end).
  destruct (existsb is_system raw) eqn:H; [exact H|].
  rewrite existsb_app. cbn. apply orb_true_r.
Qed.

(** X8.  When [run_agent] returns, the last message of the conversation is
    the assistant response whose content is returned, it carries no tool
    call, and the conversation consists of the normalized input followed only
    by assistant responses and one tool result per request issued: its length
    is the length of the normalized input plus the number of responses plus
    the number of requests. *)
Theorem run_agent_returned_conversation fuel input (w : World S) log final st' :
  run_agent fuel input w log = Some (Ok final, st') ->
  exists app m,
    messages st' = normalize input ++ app ++ [MObj m] /\
    content m = final /\ truthy (tool_calls m) = false /\
    length (messages st') =
      length (normalize input) + count_assistant (app ++ [MObj m])
      + length (request_ids (app ++ [MObj m])).
Proof.
  unfold run_agent. intros H.
  pose proof (agent_loop_blocks _ _ _ _ H) as (total & Ht & Hb). cbn [messages is_Ok] in Ht, Hb.
  apply agent_loop_Some in H as (k & st_k & _ & Hp & Hi).
  apply passes_messages in Hp as [pre Hpre]. cbn [messages] in Hpre.
  pose proof (iteration_spec st_k) as Hs. rewrite Hi in Hs.
  destruct Hs as (m & _ & Htr & Hf & Hm).
  exists pre, m. rewrite Hm, Hpre, <- app_assoc. split; [reflexivity|].
  split; [now symmetry|]. split; [exact Htr|].
  rewrite Hm, Hpre, <- app_assoc in Ht. apply app_inv_head in Ht. subst total.
  rewrite length_app, (blocks_length _ Hb). lia.
Qed.

(** X9.  A run never removes or reorders what it was given: after any run,
    returned or raised, the conversation begins with the normalized input, a
    list handed over by the caller is a prefix of it, and since the system
    message is still there, normalizing the conversation again (a second call
    on the same list) adds nothing. *)
Theorem normalize_after_run fuel input (w : World S) log r st' :
  run_agent fuel input w log = Some (r, st') ->
  (exists app, messages st' = normalize input ++ app) /\
  (forall l, input = InList l -> exists rest, messages st' = l ++ rest) /\
  normalize (InList (messages st')) = messages st'.
Proof.
  unfold run_agent. intros H.
  apply agent_loop_blocks in H as (app & Hm & _). cbn [messages] in Hm.
  split; [eauto|]. split.
  - intros l ->. rewrite Hm. unfold normalize.
    destruct (existsb is_system l); [eauto|]. rewrite <- app_assoc. eauto.
  - unfold normalize. rewrite Hm, existsb_app, normalize_has_system. reflexivity.
Qed.

End LoopFacts.

(** * The environment helpers *)

(** X10.  [get_openai_api_key] gives the value the [.env] file holds for
    [OPENAI_API_KEY] when it holds one, else the value already in the
    environment, and [None] exactly when neither has one; it leaves every
    variable of the file set to the value of the file and all the others as
    they were. *)
Theorem get_openai_api_key_prefers_dotenv dotenv_values environ :
  let file := dotenv_values environ in
  let result := Helper.get_openai_api_key dotenv_values environ in
  fst result =
    match file !! "OPENAI_API_KEY" with
    | Some v => Some v
    | None => environ !! "OPENAI_API_KEY"
    end /\
  (fst result = None <->
     file !! "OPENAI_API_KEY" = None /\ environ !! "OPENAI_API_KEY" = None) /\
  forall k,
    snd result !! k = match file !! k with Some v => Some v | None => environ !! k end.
Proof.
  cbn zeta. unfold Helper.get_openai_api_key, Helper.load_env. cbn [fst snd].
  assert (Hu : forall k, (dotenv_values environ ∪ environ) !! k =
                 match dotenv_values environ !! k with
                 | Some v => Some v
                 | None => environ !! k
                 end).
  { intros k. rewrite lookup_union.
    destruct (dotenv_values environ !! k), (environ !! k); reflexivity. }
  split; [apply Hu|]. split; [|apply Hu].
  rewrite Hu. destruct (dotenv_values environ !! "OPENAI_API_KEY"); [|tauto].
  split; [discriminate|intros [? _]; discriminate].
Qed.

(** X11.  [setup_phoenix] launches the application in an environment in
    which [PHOENIX_COLLECTOR_ENDPOINT] is unset, also when the [.env] file
    sets it, and in which every other variable is as [load_env] leaves it;
    it gives back what the launch gives, and the line with the endpoint is
    printed only when the launch returns. *)
Theorem setup_phoenix_clears_collector {Session : Type} dotenv_values
    (launch_app : gmap string string -> Result Session) environ :
  let file := dotenv_values environ in
  let outcome := Helper.setup_phoenix dotenv_values launch_app environ in
  let after := snd (fst outcome) in
  after !! "PHOENIX_COLLECTOR_ENDPOINT" = None /\
  (forall k, k <> "PHOENIX_COLLECTOR_ENDPOINT" ->
     after !! k = match file !! k with Some v => Some v | None => environ !! k end) /\
  fst (fst outcome) = launch_app after /\
  snd outcome =
    (if is_Ok (launch_app after) then ["Phoenix is running at: http://localhost:6006/"]
     else []).
Proof.
  cbn zeta. unfold Helper.setup_phoenix, Helper.load_env.
  set (loaded := dotenv_values environ ∪ environ).
  assert (Hu : forall k, loaded !! k =
                 match dotenv_values environ !! k with
                 | Some v => Some v
                 | None => environ !! k
                 end).
  { intros k. unfold loaded. rewrite lookup_union.
    destruct (dotenv_values environ !! k), (environ !! k); reflexivity. }
  set (after := if bool_decide ("PHOENIX_COLLECTOR_ENDPOINT" ∈ dom loaded)
                then delete "PHOENIX_COLLECTOR_ENDPOINT" loaded else loaded).
  assert (Ha : after !! "PHOENIX_COLLECTOR_ENDPOINT" = None /\
               forall k, k <> "PHOENIX_COLLECTOR_ENDPOINT" -> after !! k = loaded !! k).
  { unfold after. case_bool_decide as Hd.
    - split; [apply lookup_delete_eq|]. intros k Hk. now apply lookup_delete_ne.
    - split; [|reflexivity]. now apply not_elem_of_dom. }
  destruct Ha as [Ha1 Ha2].
  assert (Hout : forall o : Result Session * gmap string string * list string,
            o = match launch_app after with
                | Ok session =>
                    (Ok session, after,
                     ["Phoenix is running at: " +:+ Helper.get_phoenix_endpoint])
                | Raise e => (Raise e, after, [])
                end ->
            snd (fst o) = after /\ fst (fst o) = launch_app after /\
            snd o = (if is_Ok (launch_app after)
                     then ["Phoenix is running at: http://localhost:6006/"] else [])).
  { intros o ->. destruct (launch_app after); cbn; auto. }
  destruct (Hout _ eq_refl) as (H1 & H2 & H3). rewrite H1.
  split; [exact Ha1|]. split; [|split; assumption].
  intros k Hk. rewrite Ha2 by exact Hk. apply Hu.
Qed.

(** * The benchmark script *)

Lemma append_cons c s t : String c s +:+ t = String c (s +:+ t).
Proof. reflexivity. Qed.

Lemma length_append s t : String.length (s +:+ t) = String.length s + String.length t.
Proof. induction s as [|c s IH]; [reflexivity|]. rewrite append_cons. cbn. now rewrite IH. Qed.

Lemma occurs_replace_slash s : Script.occurs "/" (Script.replace_slash s) = false.
Proof.
  induction s as [|c s IH]; [reflexivity|]. cbn [Script.replace_slash].
  destruct (Ascii.eqb c "/") eqn:Hc; cbn [Script.occurs]; rewrite ?Hc, IH; reflexivity.
Qed.

Lemma no_slash_no_trailing_slash s :
  Script.occurs "/" s = false -> Harness.ends_with_slash s = false.
Proof.
  induction s as [|c s IH]; [reflexivity|]. cbn [Script.occurs]. intros H.
  apply orb_false_elim in H as [Hc Hs]. destruct s as [|c' s']; [exact Hc|].
  apply IH, Hs.
Qed.

Lemma no_slash_no_leading_slash s t :
  Script.occurs "/" s = false -> s <> "" -> String.prefix "/" (s +:+ t) = false.
Proof.
  destruct s as [|c s]; [congruence|]. cbn [Script.occurs]. intros H _.
  apply orb_false_elim in H as [Hc _]. rewrite append_cons.
  change (String.prefix "/" (String c (s +:+ t)))
    with (if Ascii.ascii_dec "/" c then String.prefix "" (s +:+ t) else false).
  destruct (Ascii.ascii_dec "/" c) as [He|]; [|reflexivity].
  subst c. rewrite Ascii.eqb_refl in Hc. discriminate Hc.
Qed.

Lemma replace_slash_empty s : Script.replace_slash s = "" <-> s = "".
Proof.
  destruct s as [|c s]; [tauto|]. cbn. destruct (Ascii.eqb c "/"); split; discriminate.
Qed.

Lemma path_join_inside dir file :
  Script.occurs "/" dir = false -> dir <> "" -> String.prefix "/" file = false ->
  Harness.path_join dir file = dir +:+ "/" +:+ file.
Proof.
  intros Hd Hne Hf. unfold Harness.path_join. rewrite Hf.
  apply String.eqb_neq in Hne. rewrite Hne, (no_slash_no_trailing_slash _ Hd). reflexivity.
Qed.

(** X12.  The directory name the script derives from the repository name
    holds no slash, and is empty only for an empty name; so for a non-empty
    name the probed files and the patch file lie directly inside that
    directory: joining it with a relative file name gives directory, slash,
    file name. *)
Theorem repo_path_is_flat repo_name :
  let repo_path := Script.replace_slash repo_name in
  Script.occurs "/" repo_path = false /\
  (repo_path = "" <-> repo_name = "") /\
  (repo_name <> "" ->
   forall file, String.prefix "/" file = false ->
     Harness.path_join repo_path file = repo_path +:+ "/" +:+ file).
Proof.
  cbn zeta. split; [apply occurs_replace_slash|]. split; [apply replace_slash_empty|].
  intros Hne file Hf. apply path_join_inside; [apply occurs_replace_slash| |exact Hf].
  intros He. apply Hne, replace_slash_empty, He.
Qed.

(** X13.  [git apply] runs in the repository directory but is handed the
    path of the patch file as the script sees it; read from the repository
    directory that path names a file one level further down, not the file
    the script wrote (for a non-empty repository name). *)
Theorem patch_path_seen_from_repository repo_name :
  repo_name <> "" ->
  let repo_path := Script.replace_slash repo_name in
  let patch_file := Harness.path_join repo_path "solution.patch" in
  let command := Script.git_apply patch_file repo_path in
  Script.r_argv command = ["git"; "apply"; patch_file] /\
  Script.r_cwd command = Some repo_path /\
  patch_file = repo_path +:+ "/solution.patch" /\
  Script.seen_from (Script.r_cwd command) patch_file =
    repo_path +:+ "/" +:+ repo_path +:+ "/solution.patch" /\
  Script.seen_from (Script.r_cwd command) patch_file <> patch_file.
Proof.
  intros Hne. cbn zeta.
  assert (Hrp : Script.replace_slash repo_name <> "")
    by (intros He; apply Hne, replace_slash_empty, He).
  pose proof (occurs_replace_slash repo_name) as Hocc.
  set (rp := Script.replace_slash repo_name) in *.
  assert (Hpf : Harness.path_join rp "solution.patch" = rp +:+ "/solution.patch")
    by (now apply path_join_inside).
  rewrite Hpf. cbn [Script.git_apply Script.r_argv Script.r_cwd Script.seen_from].
  assert (Hseen : Harness.path_join rp (rp +:+ "/solution.patch") =
                  rp +:+ "/" +:+ rp +:+ "/solution.patch").
  { apply path_join_inside; [exact Hocc|exact Hrp|]. now apply no_slash_no_leading_slash. }
  repeat split; try reflexivity; rewrite Hseen; [reflexivity|].
  intros He. apply (f_equal String.length) in He. rewrite !length_append in He.
  cbn in He. lia.
Qed.

Section ScriptFacts.

Context {H : Script.Shell}.

Lemma andthen_unfold {A B} (c : Script.Step H A) (k : A -> Script.Step H B) st :
  Script.andthen c k st =
  match c st with
  | (Ok a, st') => k a st'
  | (Raise e, st') => (Raise e, st')
  end.
Proof. reflexivity. Qed.

Lemma quiet_on_machine {A} (op : Script.Machine H -> Result A * Script.Machine H) :
  Script.quiet (Script.on_machine op).
Proof. intros st. unfold Script.on_machine. destruct (op _). split; reflexivity. Qed.

Lemma quiet_subscript instance key : Script.quiet (H:=H) (Script.subscript instance key).
Proof.
  intros st. unfold Script.subscript. destruct instance; try (split; reflexivity).
  destruct (dict_get key d); split; reflexivity.
Qed.

(** One process: it is logged with its outcome, and it raises only when it
    cannot be launched or when it is checked and exits with another status
    than zero. *)
Lemma run_spec r (st : Script.Progress H) :
  exists out,
    Script.launched (snd (Script.run r st)) = Script.launched st ++ [(r, out)] /\
    Script.printed (snd (Script.run r st)) = Script.printed st /\
    match fst (Script.run r st) with
    | Ok c => out = Ok c /\ (Script.r_check r = true -> Script.returncode c = 0%Z)
    | Raise e =>
        out = Raise e \/
        exists c, out = Ok c /\ Script.r_check r = true /\ Script.returncode c <> 0%Z /\
          e = OtherException "CalledProcessError"
                (Script.process_error_text H r (Script.returncode c))
    end.
Proof.
  unfold Script.run. destruct (Script.subprocess_run H r (Script.machine st)) as [[c|e] m].
  - exists (Ok c). destruct (Script.r_check r) eqn:Hc; cbn [andb].
    + destruct (Z.eqb_spec (Script.returncode c) 0) as [Hz|Hz]; cbn.
      * auto.
      * split; [reflexivity|]. split; [reflexivity|]. right. exists c. auto.
    + cbn. split; [reflexivity|]. split; [reflexivity|]. split; [reflexivity|discriminate].
  - exists (Raise e). cbn. auto.
Qed.




(** Writing the patch launches and prints nothing. *)
Lemma write_patch_spec instance repo_path (st : Script.Progress H) :
  Script.launched (snd (Script.write_patch instance repo_path st)) = Script.launched st /\
  Script.printed (snd (Script.write_patch instance repo_path st)) = Script.printed st /\
  forall patch_file, fst (Script.write_patch instance repo_path st) = Ok patch_file ->
    patch_file = Harness.path_join repo_path "solution.patch".
Proof.
  unfold Script.write_patch. cbn zeta. rewrite andthen_unfold.
  set (pf := Harness.path_join repo_path "solution.patch").
  destruct (quiet_on_machine (Script.open_write H pf) st) as [Hl1 Hp1].
  destruct (Script.on_machine (Script.open_write H pf) st) as [[[]|e] st1]; cbn [snd] in *;
    [|repeat split; auto; discriminate].
  rewrite andthen_unfold.
  destruct (quiet_subscript instance "patch" st1) as [Hl2 Hp2].
  destruct (Script.subscript instance "patch" st1) as [[patch|e] st2]; cbn [snd] in *;
    [|repeat split; try congruence; discriminate].
  destruct patch as [| | | |text| |]; cbn [Script.fail snd fst];
    try (repeat split; try congruence; discriminate).
  rewrite andthen_unfold.
  destruct (quiet_on_machine (Script.file_write H pf text) st2) as [Hl3 Hp3].
  destruct (Script.on_machine (Script.file_write H pf text) st2) as [[[]|e] st3];
    cbn [snd fst Script.done] in *; repeat split; try congruence; discriminate.
Qed.

(** The last part of the script, by the outcome of its processes. *)
Lemma apply_and_test_spec patch_file repo_path (st : Script.Progress H) :
  let a := Script.git_apply patch_file repo_path in
  let r := fst (Script.apply_and_test patch_file repo_path st) in
  let st' := snd (Script.apply_and_test patch_file repo_path st) in
  exists tail lines,
    Script.launched st' = Script.launched st ++ tail /\
    Script.printed st' = Script.printed st ++ lines /\
    ((exists applied,
        tail = [(a, applied)] /\
        (forall c, applied = Ok c ->
           Script.returncode c <> 0%Z /\ r = Ok tt /\
           lines = ["❌ Failed to apply patch: "
                    +:+ Script.process_error_text H a (Script.returncode c)])) \/
     (exists c0 tested,
        tail = [(a, Ok c0); (Script.pytest repo_path, tested)] /\
        Script.returncode c0 = 0%Z /\
        (forall c, tested = Ok c ->
           r = Ok tt /\
           lines = if Z.eqb (Script.returncode c) 0
                   then ["✅ Solution appears to work!"]
                   else ["❌ Tests failed:"; Script.stdout c]))).
Proof.
  cbn zeta. unfold Script.apply_and_test. rewrite andthen_unfold.
  set (a := Script.git_apply patch_file repo_path).
  pose (Q := fun (o : Result unit * Script.Progress H) =>
    exists tail lines,
      Script.launched (snd o) = Script.launched st ++ tail /\
      Script.printed (snd o) = Script.printed st ++ lines /\
      ((exists applied,
          tail = [(a, applied)] /\
          (forall c, applied = Ok c ->
             Script.returncode c <> 0%Z /\ fst o = Ok tt /\
             lines = ["❌ Failed to apply patch: "
                      +:+ Script.process_error_text H a (Script.returncode c)])) \/
       (exists c0 tested,
          tail = [(a, Ok c0); (Script.pytest repo_path, tested)] /\
          Script.returncode c0 = 0%Z /\
          (forall c, tested = Ok c ->
             fst o = Ok tt /\
             lines = if Z.eqb (Script.returncode c) 0
                     then ["✅ Solution appears to work!"]
                     else ["❌ Tests failed:"; Script.stdout c])))).
  match goal with |- exists tail lines, _ (snd ?o) = _ /\ _ => change (Q o) end.
  destruct (run_spec a st) as (applied & Hl & Hp & Ho).
  destruct (Script.run a st) as [[c0|e] st1]; cbn [fst snd] in *.
  - destruct Ho as [-> Hz]. specialize (Hz eq_refl).
    rewrite andthen_unfold.
    destruct (run_spec (Script.pytest repo_path) st1) as (tested & Hl2 & Hp2 & Ho2).
    assert (Htail : forall (st3 : Script.Progress H) r lines,
              Script.launched st3 = Script.launched st1 ++ [(Script.pytest repo_path, tested)] ->
              Script.printed st3 = Script.printed st1 ++ lines ->
              (forall c, tested = Ok c ->
                 r = Ok tt /\
                 lines = if Z.eqb (Script.returncode c) 0
                         then ["✅ Solution appears to work!"]
                         else ["❌ Tests failed:"; Script.stdout c]) ->
              Q (r, st3)).
    { intros st3 r lines H1 H2 H3.
      exists [(a, Ok c0); (Script.pytest repo_path, tested)], lines. cbn [fst snd].
      split; [rewrite H1, Hl, <- app_assoc; reflexivity|].
      split; [rewrite H2, Hp; reflexivity|].
      right. exists c0, tested. split; [reflexivity|]. split; [exact Hz|exact H3]. }
    destruct (Script.run (Script.pytest repo_path) st1) as [[c|e] st2]; cbn [fst snd] in *.
    + destruct Ho2 as [-> _].
      destruct (Z.eqb (Script.returncode c) 0) eqn:Hrc.
      * apply (Htail _ _ ["✅ Solution appears to work!"]).
        -- cbn. exact Hl2.
        -- cbn. now rewrite Hp2.
        -- intros c' Hc'. injection Hc' as <-. rewrite Hrc. split; reflexivity.
      * rewrite andthen_unfold.
        apply (Htail _ _ ["❌ Tests failed:"; Script.stdout c]).
        -- cbn. exact Hl2.
        -- cbn. rewrite Hp2, <- app_assoc. reflexivity.
        -- intros c' Hc'. injection Hc' as <-. rewrite Hrc. split; reflexivity.
    + assert (Hte : tested = Raise e).
      { destruct Ho2 as [Ht|(c & _ & Hchk & _)]; [exact Ht|discriminate Hchk]. }
      subst tested.
      assert (Hraise : Q (Raise e, st2)).
      { apply (Htail _ _ []); [exact Hl2|now rewrite app_nil_r|discriminate]. }
      assert (Hprint : forall text,
                Q (Script.print ("❌ Failed to apply patch: " +:+ text) st2)).
      { intros text. apply (Htail _ _ ["❌ Failed to apply patch: " +:+ text]).
        - cbn. exact Hl2.
        - cbn. now rewrite Hp2.
        - discriminate. }
      destruct e as [k|dcm|msg|msg|msg|cls text|cls]; try exact Hraise.
      destruct (String.eqb cls "CalledProcessError"); [apply Hprint|exact Hraise].
  - assert (Htail : forall (st3 : Script.Progress H) r lines,
              Script.launched st3 = Script.launched st1 ->
              Script.printed st3 = Script.printed st1 ++ lines ->
              (forall c, applied = Ok c ->
                 Script.returncode c <> 0%Z /\ r = Ok tt /\
                 lines = ["❌ Failed to apply patch: "
                          +:+ Script.process_error_text H a (Script.returncode c)]) ->
              Q (r, st3)).
    { intros st3 r lines H1 H2 H3. exists [(a, applied)], lines. cbn [fst snd].
      split; [rewrite H1, Hl; reflexivity|]. split; [rewrite H2, Hp; reflexivity|].
      left. exists applied. split; [reflexivity|exact H3]. }
    destruct Ho as [->|(c & -> & _ & Hrc & ->)].
    + assert (Hraise : Q (Raise e, st1)).
      { apply (Htail _ _ []); [reflexivity|now rewrite app_nil_r|discriminate]. }
      destruct e as [k|dcm|msg|msg|msg|cls text|cls]; try exact Hraise.
      destruct (String.eqb cls "CalledProcessError"); [|exact Hraise].
      apply (Htail _ _ ["❌ Failed to apply patch: " +:+ text]);
        [reflexivity|reflexivity|discriminate].
    + cbn [String.eqb]. 
      change (Q (Script.print ("❌ Failed to apply patch: "
                 +:+ Script.process_error_text H a (Script.returncode c)) st1)).
      apply (Htail _ _ ["❌ Failed to apply patch: "
                        +:+ Script.process_error_text H a (Script.returncode c)]);
        [reflexivity|reflexivity|].
      intros c' Hc'. injection Hc' as <-. auto.
Qed.


Lemma run_all_installs l :
  Forall (fun r => Script.is_install r = true) l ->
  forall st : Script.Progress H, exists added,
    Script.launched (snd (Script.run_all l st)) = Script.launched st ++ added /\
    Forall (fun ro => Script.is_install (fst ro) = true) added.
Proof.
  induction 1 as [|r l Hr _ IH]; intros st.
  - exists []. cbn. rewrite app_nil_r. auto.
  - cbn [Script.run_all]. rewrite andthen_unfold.
    destruct (run_spec r st) as (out & Hl & _ & _).
    destruct (Script.run r st) as [[c|e] st1]; cbn [snd] in *.
    + destruct (IH st1) as (added & Hl' & Hf).
      exists ((r, out) :: added). rewrite Hl', Hl, <- app_assoc. split; [reflexivity|].
      constructor; assumption.
    + exists [(r, out)]. rewrite Hl. split; [reflexivity|]. repeat constructor. assumption.
Qed.

Lemma install_commands_are_installs fs repo_path :
  Forall (fun r => Script.is_install r = true)
    (map Script.install (Harness.install_dependencies fs repo_path)).
Proof.
  unfold Harness.install_dependencies.
  repeat (destruct (Harness.path_exists fs _)); cbn; repeat constructor.
Qed.

(** What the preparation launches for an instance that names its repository
    and commit: the clone exactly when the directory is missing, then
    installs only. *)
Lemma prepare_clone d repo_name base_commit (st : Script.Progress H) :
  dict_get "repo" d = Some (VStr repo_name) ->
  dict_get "base_commit" d = Some base_commit ->
  let repo_path := Script.replace_slash repo_name in
  exists cloned installed,
    Script.launched (snd (Script.prepare (VDict d) st)) =
      Script.launched st ++ cloned ++ installed /\
    Forall (fun ro => Script.is_install (fst ro) = true) installed /\
    (if Harness.path_exists (Script.paths H (Script.machine st)) repo_path
     then cloned = []
     else exists out, cloned = [(Script.clone repo_name repo_path, out)]).
Proof.
  intros Hrepo Hbase. cbn zeta. set (rp := Script.replace_slash repo_name).
  unfold Script.prepare. rewrite andthen_unfold. unfold Script.subscript at 1.
  rewrite Hrepo. cbn [Script.done]. rewrite andthen_unfold. unfold Script.subscript.
  rewrite Hbase. cbn [Script.done]. fold rp.
  rewrite andthen_unfold. unfold Script.exists_ at 1. rewrite andthen_unfold.
  assert (Hclone : exists cloned st1 r1,
            (if Harness.path_exists (Script.paths H (Script.machine st)) rp
             then Script.done tt
             else Script.andthen (Script.run (Script.clone repo_name rp))
                    (fun _ => Script.done tt)) st = (r1, st1) /\
            Script.launched st1 = Script.launched st ++ cloned /\
            (if Harness.path_exists (Script.paths H (Script.machine st)) rp
             then cloned = []
             else exists out, cloned = [(Script.clone repo_name rp, out)])).
  { destruct (Harness.path_exists _ rp).
    - exists [], st, (Ok tt). rewrite app_nil_r. auto.
    - rewrite andthen_unfold.
      destruct (run_spec (Script.clone repo_name rp) st) as (out & Hl & _ & _).
      destruct (Script.run (Script.clone repo_name rp) st) as [[c|e] st1]; cbn [snd] in *;
        eexists [_], st1, _; (split; [reflexivity|]); rewrite Hl; eauto. }
  destruct Hclone as (cloned & st1 & r1 & Hc & Hl1 & Hcl). rewrite Hc.
  assert (Hstop : forall e (st2 : Script.Progress H),
            Script.launched st2 = Script.launched st1 ->
            exists cloned0 installed,
              Script.launched (snd (@Raise string e, st2)) =
                Script.launched st ++ cloned0 ++ installed /\
              Forall (fun ro => Script.is_install (fst ro) = true) installed /\
              (if Harness.path_exists (Script.paths H (Script.machine st)) rp
               then cloned0 = []
               else exists out, cloned0 = [(Script.clone repo_name rp, out)])).
  { intros e st2 Hl. exists cloned, []. cbn [snd]. rewrite app_nil_r, Hl, Hl1. auto. }
  destruct r1 as [[]|e]; [|now apply Hstop].
  rewrite andthen_unfold.
  destruct (quiet_on_machine (Script.git_repo H rp) st1) as [Hl2 _].
  destruct (Script.on_machine (Script.git_repo H rp) st1) as [[[]|e] st2]; cbn [snd] in *;
    [|now apply Hstop].
  rewrite andthen_unfold.
  destruct (quiet_on_machine (Script.git_checkout H rp base_commit) st2) as [Hl3 _].
  destruct (Script.on_machine (Script.git_checkout H rp base_commit) st2) as [[[]|e] st3];
    cbn [snd] in *; [|apply Hstop; congruence].
  rewrite andthen_unfold.
  destruct (run_all_installs _
              (install_commands_are_installs (Script.paths H (Script.machine st3)) rp) st3)
    as (installed & Hl4 & Hf4).
  destruct (Script.run_all _ st3) as [[[]|e] st4]; cbn [snd] in *;
    exists cloned, installed; cbn [snd Script.done];
    rewrite Hl4, Hl3, Hl2, Hl1, <- app_assoc; auto.
Qed.

(** X16.  The script clones exactly when the directory of the repository is
    missing: when it exists no clone is launched at all, and when it is
    missing the clone is the first process launched and the only clone. *)
Theorem clone_only_when_missing d repo_name base_commit (m : Script.Machine H) :
  dict_get "repo" d = Some (VStr repo_name) ->
  dict_get "base_commit" d = Some base_commit ->
  let repo_path := Script.replace_slash repo_name in
  let st' := snd (Script.evaluate (VDict d) (Script.start m)) in
  (Harness.path_exists (Script.paths H m) repo_path = true ->
   Forall (fun ro => Script.is_clone (fst ro) = false) (Script.launched st')) /\
  (Harness.path_exists (Script.paths H m) repo_path = false ->
   exists out rest,
     Script.launched st' = (Script.clone repo_name repo_path, out) :: rest /\
     Forall (fun ro => Script.is_clone (fst ro) = false) rest).
Proof.
  intros Hrepo Hbase. cbn zeta.
  assert (Hinst : forall l : list (Script.Run * Result Script.Completed),
            Forall (fun ro => Script.is_install (fst ro) = true) l ->
            Forall (fun ro => Script.is_clone (fst ro) = false) l).
  { intros l Hf. eapply Forall_impl; [exact Hf|]. intros [r out].
    unfold Script.is_install, Script.is_clone. cbn [fst].
    destruct (Script.r_argv r) as [|a0 [|a1 t]]; try discriminate.
    destruct (String.eqb_spec a0 "pip") as [->|Hne]; [reflexivity|discriminate]. }
  assert (Hshape : exists tail,
            Script.launched (snd (Script.evaluate (VDict d) (Script.start m))) =
              Script.launched (snd (Script.prepare (VDict d) (Script.start m))) ++ tail /\
            Forall (fun ro => Script.is_clone (fst ro) = false) tail).
  { unfold Script.evaluate. rewrite andthen_unfold.
    destruct (Script.prepare (VDict d) (Script.start m)) as [[rp|e] st1]; cbn [snd];
      [|exists []; rewrite app_nil_r; auto].
    rewrite andthen_unfold.
    destruct (write_patch_spec (VDict d) rp st1) as (Hl2 & _ & _).
    destruct (Script.write_patch (VDict d) rp st1) as [[pf|e] st2]; cbn [snd] in *;
      [|exists []; rewrite app_nil_r; auto].
    destruct (apply_and_test_spec pf rp st2) as (tail & lines & Hl3 & _ & Hcases).
    cbn zeta in Hl3, Hcases. exists tail. rewrite Hl3, Hl2. split; [reflexivity|].
    destruct Hcases as [(applied & -> & _)|(c0 & tested & -> & _)]; repeat constructor. }
  destruct Hshape as (tail & Hl & Htail).
  destruct (prepare_clone d repo_name base_commit (Script.start m) Hrepo Hbase)
    as (cloned & installed & Hp & Hi & Hc).
  cbn zeta in Hc. cbn [Script.start Script.machine Script.launched app] in Hp, Hc.
  rewrite Hl, Hp. split; intros Hex; rewrite Hex in Hc.
  - subst cloned. cbn [app]. apply Forall_app. auto.
  - destruct Hc as [out ->]. exists out, (installed ++ tail). cbn [app].
    split; [reflexivity|]. apply Forall_app. auto.
Qed.

End ScriptFacts.

Lemma replace_slash_app s t :
  Script.replace_slash (s +:+ t) = Script.replace_slash s +:+ Script.replace_slash t.
Proof.
  induction s as [|c s IH]; [reflexivity|]. rewrite append_cons. cbn [Script.replace_slash].
  rewrite IH. destruct (Ascii.eqb c "/"); reflexivity.
Qed.

(** X17.  The directory name does not tell a slash from two underscores:
    two repository names that differ only there get the same directory, so
    the name is not determined by the directory. *)
Theorem repo_path_collisions s t :
  Script.replace_slash (s +:+ "/" +:+ t) = Script.replace_slash (s +:+ "__" +:+ t) /\
  s +:+ "/" +:+ t <> s +:+ "__" +:+ t.
Proof.
  split.
  - rewrite !replace_slash_app. reflexivity.
  - intros He. apply (f_equal String.length) in He. rewrite !length_append in He.
    cbn in He. lia.
Qed.

(** * The additional properties at work *)

(** X1, witness: a run that ends by an exception. *)
Lemma run_agent_span_discipline_witness :
  exists r st' mid,
    run_agent (S:=misrouted) 2 (InStr "hi") 0 [] = Some (r, st') /\
    is_Ok r = false /\ spans st' = mid /\ well_nested 0 mid.
Proof.
  destruct (run_agent (S:=misrouted) 2 (InStr "hi") 0 []) as [[r st']|] eqn:Hrun;
    [|vm_compute in Hrun; discriminate].
  destruct (run_agent_span_discipline (S:=misrouted) _ _ _ _ _ _ Hrun) as (mid & Hm & Hw & _).
  exists r, st', mid. split; [reflexivity|]. split; [|auto].
  vm_compute in Hrun. injection Hrun as <- _. reflexivity.
Defined.

(** X2, witness: the run with one lookup under its [AgentRun] span, and a
    run that a call of an unregistered tool ends by a [KeyError]. *)
Lemma start_main_span_wraps_run_witness :
  (exists r st' (st1 : State demo),
     start_main_span (S:=demo) 3 (InStr "What were total sales last week?") 0 [] =
       Some (r, st') /\
     messages st' = messages st1 /\
     head (spans st') = Some (SpanStart 0 "AgentRun" AGENT)) /\
  (exists st' inner,
     start_main_span (S:=misrouted) 1 (InStr "hi") 0 [] =
       Some (Raise (KeyError "no_such_tool"), st') /\
     spans st' =
       [SpanStart 0 "AgentRun" AGENT; SetInput 0 (SVInput (inr "hi"))] ++ inner
       ++ [SetStatus 0 ERROR; SpanEnd 0]).
Proof.
  split.
  - destruct (start_main_span (S:=demo) 3 (InStr "What were total sales last week?") 0 [])
      as [[r st']|] eqn:Hrun; [|vm_compute in Hrun; discriminate].
    destruct (start_main_span_wraps_run (S:=demo) _ _ _ _ _ _ Hrun)
      as (st1 & inner & _ & Hm & _ & _ & Hs & _).
    exists r, st', st1. split; [reflexivity|]. split; [exact Hm|]. rewrite Hs. reflexivity.
  - destruct (start_main_span (S:=misrouted) 1 (InStr "hi") 0 [])
      as [[r st']|] eqn:Hrun; [|vm_compute in Hrun; discriminate].
    pose proof Hrun as Hc. vm_compute in Hc. injection Hc as <- _.
    destruct (start_main_span_wraps_run (S:=misrouted) _ _ _ _ _ _ Hrun)
      as (st1 & inner & _ & _ & _ & _ & Hs & _).
    exists st', inner. split; [reflexivity|]. exact Hs.
Defined.

(** X3, witness: the data lookup on a conversation of one message. *)
Lemma tools_keep_conversation_witness :
  messages (snd (lookup_sales_data (S:=demo) (VStr "total sales")
                   (initial (S:=demo) 0 [msg_dict "user" (VStr "hi")])))
  = [msg_dict "user" (VStr "hi")].
Proof.
  destruct (tools_keep_conversation (S:=demo) "lookup_sales_data" lookup_sales_data_fn
              ltac:(vm_compute; reflexivity)
              (initial (S:=demo) 0 [msg_dict "user" (VStr "hi")])) as [Hf _].
  exact (Hf [VStr "total sales"]).
Defined.

(** X4, witness: a well-formed call of the data lookup. *)
Lemma declared_tools_bind_witness :
  exists f args,
    tool_implementations (S:=demo) !! "lookup_sales_data" = Some f /\
    Forall2 (fun p a => dict_get p [("prompt", VStr "total sales")] = Some a)
      (f_params f) args /\
    dispatch (tool_call "call_1" "lookup_sales_data" prompt_payload) (initial (S:=demo) 0 []) =
      run_and_append f args (tool_call "call_1" "lookup_sales_data" prompt_payload)
        (initial (S:=demo) 0 []).
Proof.
  destruct (declared_tools_bind (S:=demo)
              {| d_name := "lookup_sales_data";
                 d_description := "Look up data from Store Sales Price Elasticity Promotions dataset";
                 d_properties := [prompt_schema];
                 d_required := ["prompt"] |}
              (tool_call "call_1" "lookup_sales_data" prompt_payload)
              [("prompt", VStr "total sales")] (initial (S:=demo) 0 []))
    as (f & args & Hf & Ha & Hd).
  - left. reflexivity.
  - reflexivity.
  - vm_compute. reflexivity.
  - reflexivity.
  - exists f, args. split; [exact Hf|]. split; [exact Ha|exact Hd].
Defined.

(** X5, witness: an empty object as payload of the data lookup. *)
Lemma payload_binding_errors_witness :
  exists msg st',
    dispatch (tool_call "call_1" "lookup_sales_data" "{}") (initial (S:=demo) 0 []) =
      (Raise (TypeError msg), st') /\
    messages st' = [] /\ world st' = 0.
Proof.
  apply (payload_binding_errors (S:=demo) (tool_call "call_1" "lookup_sales_data" "{}")
           lookup_sales_data_fn (VDict [])).
  - vm_compute. reflexivity.
  - reflexivity.
  - right. exists "prompt". split; [left; reflexivity|intros []].
Defined.

(** X6, witness: the default configuration and a reply of the model. *)
Lemma generate_visualization_outcome_witness :
  exists st',
    generate_visualization (S:=demo) (VStr "Store_ID 1 42") (VStr "sales by store")
      (initial (S:=demo) 0 []) = (Ok "SELECT 1", st').
Proof.
  edestruct (generate_visualization_outcome (S:=demo) (VStr "Store_ID 1 42")
               (VStr "sales by store") (initial (S:=demo) 0 [])) as (st' & _ & Hg).
  - vm_compute. reflexivity.
  - vm_compute. reflexivity.
  - reflexivity.
  - exists st'. exact Hg.
Defined.

(** X7, witness: the model cannot be reached. *)
Lemma tools_propagate_request_errors_witness :
  (exists st',
     analyze_sales_data (S:=unreachable) (VStr "total sales") (VStr "Store_ID 1 42")
       (initial (S:=unreachable) 0 []) = (Raise connection_error, st')) /\
  (exists st',
     generate_visualization (S:=unreachable) (VStr "Store_ID 1 42") (VStr "sales by store")
       (initial (S:=unreachable) 0 []) = (Raise connection_error, st')).
Proof.
  destruct (tools_propagate_request_errors (S:=unreachable) connection_error) as (Ha & Hg & _).
  split.
  - apply (Ha (VStr "total sales") (VStr "Store_ID 1 42") (initial (S:=unreachable) 0 []) 0).
    reflexivity.
  - apply (Hg (VStr "Store_ID 1 42") (VStr "sales by store") (initial (S:=unreachable) 0 []) 0).
    reflexivity.
Defined.

(** X8, witness: the run with one lookup ends with five messages. *)
Lemma run_agent_returned_conversation_witness :
  exists st',
    run_agent (S:=demo) 3 (InStr "What were total sales last week?") 0 [] =
      Some (Ok (Some "Total sales were 42."), st') /\
    length (messages st') = 5.
Proof.
  eexists. split; [vm_compute; reflexivity|].
  edestruct (run_agent_returned_conversation (S:=demo) 3
               (InStr "What were total sales last week?") 0 []) as (app & m & _ & _ & _ & Hlen).
  - vm_compute. reflexivity.
  - vm_compute. reflexivity.
Defined.

(** X9, witness: a second normalization after the run with one lookup. *)
Lemma normalize_after_run_witness :
  exists r st',
    run_agent (S:=demo) 3 (InStr "What were total sales last week?") 0 [] = Some (r, st') /\
    normalize (InList (messages st')) = messages st'.
Proof.
  destruct (run_agent (S:=demo) 3 (InStr "What were total sales last week?") 0 [])
    as [[r st']|] eqn:Hrun; [|vm_compute in Hrun; discriminate].
  destruct (normalize_after_run (S:=demo) _ _ _ _ _ _ Hrun) as (_ & _ & Hn).
  exists r, st'. auto.
Defined.

(** X10, witness: the file wins over the shell. *)
Lemma get_openai_api_key_prefers_dotenv_witness :
  fst (Helper.get_openai_api_key sample_dotenv sample_environ) = Some "sk-from-file" /\
  snd (Helper.get_openai_api_key sample_dotenv sample_environ) !! "HOME" = Some "/root".
Proof.
  destruct (get_openai_api_key_prefers_dotenv sample_dotenv sample_environ) as (Hk & _ & He).
  split; [rewrite Hk|rewrite He]; vm_compute; reflexivity.
Defined.

(** X11, witness: the file sets the collector endpoint. *)
Lemma setup_phoenix_clears_collector_witness :
  let outcome := Helper.setup_phoenix sample_dotenv (fun _ => Ok tt) sample_environ in
  snd (fst outcome) !! "PHOENIX_COLLECTOR_ENDPOINT" = None /\
  snd (fst outcome) !! "OPENAI_API_KEY" = Some "sk-from-file".
Proof.
  cbn zeta.
  destruct (setup_phoenix_clears_collector sample_dotenv (fun _ => Ok tt) sample_environ)
    as (Hc & Ho & _).
  split; [exact Hc|]. rewrite Ho by discriminate. vm_compute. reflexivity.
Defined.

(** X12, witness: a repository name with its owner. *)
Lemma repo_path_is_flat_witness :
  Harness.path_join (Script.replace_slash "octo/demo") "setup.py" = "octo__demo/setup.py".
Proof.
  destruct (repo_path_is_flat "octo/demo") as (_ & _ & Hj).
  rewrite Hj; [reflexivity|discriminate|reflexivity].
Defined.

(** X13, witness: the same repository name. *)
Lemma patch_path_seen_from_repository_witness :
  Script.seen_from (Some "octo__demo") "octo__demo/solution.patch" =
    "octo__demo/octo__demo/solution.patch".
Proof.
  destruct (patch_path_seen_from_repository "octo/demo" ltac:(discriminate))
    as (_ & _ & _ & Hs & _).
  exact Hs.
Defined.


(** X15, witness: the data file can be read. *)
Lemma lookup_sales_data_success_witness :
  fst (lookup_sales_data (S:=stocked) (VStr "total sales") (initial (S:=stocked) 0 [])) =
    Ok "Total_Sale_Value".
Proof.
  rewrite (lookup_sales_data_success (S:=stocked) (VStr "total sales")
             (initial (S:=stocked) 0 []) tt 0 tt 0 (assistant (Some "SELECT 1") None) 0
             {| content := Some "SELECT 1"; tool_calls := None |} [] "SELECT 1" tt 0 tt 0
             eq_refl eq_refl eq_refl eq_refl eq_refl eq_refl eq_refl).
  reflexivity.
Defined.

(** X16, witness: a fresh machine. *)
Lemma clone_only_when_missing_witness :
  exists out rest,
    Script.launched (snd (Script.evaluate (H:=bench 128 1) custom_instance (Script.start ∅))) =
      (Script.clone "octo/demo" "octo__demo", out) :: rest.
Proof.
  destruct (clone_only_when_missing (H:=bench 128 1)
              [("repo", VStr "octo/demo"); ("base_commit", VStr "0a1b2c3");
               ("patch", VStr "--- a/demo.py")] "octo/demo" (VStr "0a1b2c3") ∅
              eq_refl eq_refl) as [_ Hmissing].
  destruct (Hmissing ltac:(vm_compute; reflexivity)) as (out & rest & Hl & _).
  exists out, rest. exact Hl.
Defined.
